(** * A shallow embedding of the calendar data pipeline

    The development follows the four scripts of the repository:
    [forex_factory_scraper.py] (parsers, event identity, weekly cache,
    campaign loop and merge), [align_news_to_ohlcv.py] (candle/news join),
    [label_filtered_candles.py] (filters and forward-looking labels) and
    [ohlcv_ingest.py] (candle download).

    Modelling conventions.
    - Python [str] values are byte strings ([string]); the whitespace of
      [str.strip], [str.split], [str.isspace] and of the regular expression
      class [\s] is the ASCII part of Python's whitespace, so the model
      is that of the code on text in the ASCII range.
    - Python [int] is [Z].  Instants are seconds ([Z]); a [datetime] is a
      record of civil fields.
    - A raised exception is a value of [exn]; fallible code returns
      [result A = exn + A].
    - Code that talks to the outside (browser, file system, logger) is
      written over an explicit [World], with the answers of the browser
      given by an [Env].  The pauses ([time.sleep]) and the choice of a
      user agent leave no trace in the [World].
    - A page payload is given with what the external parsers ([js2py],
      [BeautifulSoup]) find in it; the regular expression that locates
      the embedded state and [datetime.strptime] are written out.
    - A CSV file is the list of its rows, every cell as text. *)

From Stdlib Require Import ZArith List String Ascii Bool Lia DecimalString.
From Stdlib Require Import Permutation Sorted.
From stdpp Require Import gmap strings list sorting.

Import ListNotations.
Local Open Scope string_scope.
Local Open Scope list_scope.
Local Open Scope Z_scope.

(** ** Exceptions and results *)

Inductive exn : Type :=
  | ValueError (msg : string)
  | RuntimeError (msg : string)
  | AttributeError
  | TypeError
  | IndexError
  | KeyError
  | OverflowError
  | FileNotFoundError
  | WebDriverException.

Definition result (A : Type) : Type := (exn + A)%type.

Definition ok {A} (a : A) : result A := inr a.
Definition raise {A} (e : exn) : result A := inl e.

Definition rbind {A B} (m : result A) (k : A -> result B) : result B :=
  match m with
  | inl e => inl e
  | inr a => k a
  end.

Notation "'try!' x ':=' m 'in' k" := (rbind m (fun x => k))
  (at level 10, x name, m at level 100, k at level 200).

Definition is_ok {A} (r : result A) : bool :=
  match r with inr _ => true | inl _ => false end.

(** ** Python string primitives *)

Module PyStr.

Definition code (c : ascii) : Z := Z.of_N (N_of_ascii c).

(** [str.isspace] on one character, ASCII range: TAB..CR, FS..US, SPACE. *)
Definition isspace (c : ascii) : bool :=
  let n := code c in
  ((9 <=? n) && (n <=? 13)) || ((28 <=? n) && (n <=? 32)).

Definition isdigit (c : ascii) : bool :=
  let n := code c in (48 <=? n) && (n <=? 57).

Definition digit_val (c : ascii) : Z := code c - 48.

Definition lower (c : ascii) : ascii :=
  let n := code c in
  if (65 <=? n) && (n <=? 90) then ascii_of_N (Z.to_N (n + 32)) else c.

Fixpoint lstrip (s : string) : string :=
  match s with
  | String c s' => if isspace c then lstrip s' else s
  | EmptyString => EmptyString
  end.

(** [rstrip] keeps a character when something non-blank follows it. *)
Fixpoint rstrip (s : string) : string :=
  match s with
  | EmptyString => EmptyString
  | String c s' =>
      match rstrip s' with
      | EmptyString => if isspace c then EmptyString else String c EmptyString
      | r => String c r
      end
  end.

Definition strip (s : string) : string := rstrip (lstrip s).

(** [s.split()]: maximal runs of non-whitespace characters, in order.
    [cur] is the token being read, reversed. *)
Fixpoint split_aux (s : string) (cur : list ascii) : list string :=
  match s with
  | EmptyString =>
      match cur with
      | [] => []
      | _ => [string_of_list_ascii (rev cur)]
      end
  | String c s' =>
      if isspace c then
        match cur with
        | [] => split_aux s' []
        | _ => string_of_list_ascii (rev cur) :: split_aux s' []
        end
      else split_aux s' (c :: cur)
  end.

Definition split (s : string) : list string := split_aux s [].

(** Truthiness of a string: [not s] is [True] exactly for the empty one. *)
Definition nonempty (s : string) : bool :=
  match s with EmptyString => false | _ => true end.

(** [a or b] on strings. *)
Definition or_else (a b : string) : string := if nonempty a then a else b.

(** [s[:n]] and [s[n:]]. *)
Fixpoint take (n : nat) (s : string) : string :=
  match n, s with
  | S n', String c s' => String c (take n' s')
  | _, _ => EmptyString
  end.

Fixpoint drop (n : nat) (s : string) : string :=
  match n, s with
  | S n', String _ s' => drop n' s'
  | _, _ => s
  end.

Fixpoint startswith (p s : string) : bool :=
  match p, s with
  | EmptyString, _ => true
  | String a p', String b s' => if Ascii.eqb a b then startswith p' s' else false
  | String _ _, EmptyString => false
  end.

Definition endswith (p s : string) : bool :=
  let lp := String.length p in
  let ls := String.length s in
  if (lp <=? ls)%nat then String.eqb (drop (ls - lp) s) p else false.

(** [str(n)] for an [int]. *)
Definition of_int (z : Z) : string := NilZero.string_of_int (Z.to_int z).

Definition digit (z : Z) : ascii := ascii_of_N (Z.to_N (48 + z mod 10)).

(** [f"{n:02d}"] and [f"{n:04d}"] for [0 <= n]. *)
Definition pad2 (z : Z) : string :=
  String (digit (z / 10)) (String (digit z) EmptyString).

Definition pad4 (z : Z) : string :=
  String (digit (z / 1000)) (String (digit (z / 100)) (pad2 z)).

End PyStr.

(** ** MD5 ([hashlib.md5(...).hexdigest()]), RFC 1321 *)

Module MD5.

Definition w32 : Z := 4294967296.

Definition add32 (x y : Z) : Z := (x + y) mod w32.
Definition not32 (x : Z) : Z := Z.lxor x (w32 - 1).
Definition rotl32 (x n : Z) : Z :=
  Z.lor (Z.shiftl x n mod w32) (Z.shiftr x (32 - n)).

Definition K : list Z :=
  [3614090360; 3905402710; 606105819; 3250441966; 4118548399; 1200080426;
   2821735955; 4249261313; 1770035416; 2336552879; 4294925233; 2304563134;
   1804603682; 4254626195; 2792965006; 1236535329; 4129170786; 3225465664;
   643717713; 3921069994; 3593408605; 38016083; 3634488961; 3889429448;
   568446438; 3275163606; 4107603335; 1163531501; 2850285829; 4243563512;
   1735328473; 2368359562; 4294588738; 2272392833; 1839030562; 4259657740;
   2763975236; 1272893353; 4139469664; 3200236656; 681279174; 3936430074;
   3572445317; 76029189; 3654602809; 3873151461; 530742520; 3299628645;
   4096336452; 1126891415; 2878612391; 4237533241; 1700485571; 2399980690;
   4293915773; 2240044497; 1873313359; 4264355552; 2734768916; 1309151649;
   4149444226; 3174756917; 718787259; 3951481745].

Definition shifts : list Z :=
  [7; 12; 17; 22; 7; 12; 17; 22; 7; 12; 17; 22; 7; 12; 17; 22;
   5; 9; 14; 20; 5; 9; 14; 20; 5; 9; 14; 20; 5; 9; 14; 20;
   4; 11; 16; 23; 4; 11; 16; 23; 4; 11; 16; 23; 4; 11; 16; 23;
   6; 10; 15; 21; 6; 10; 15; 21; 6; 10; 15; 21; 6; 10; 15; 21].

Definition bytes_of_string (s : string) : list Z :=
  map PyStr.code (list_ascii_of_string s).

(** [n] little-endian bytes of [z]. *)
Fixpoint le_bytes (n : nat) (z : Z) : list Z :=
  match n with
  | O => []
  | S n' => z mod 256 :: le_bytes n' (z / 256)
  end.

Definition pad (msg : list Z) : list Z :=
  let len := Z.of_nat (length msg) in
  msg ++ [128] ++ repeat 0 (Z.to_nat ((55 - len) mod 64))
      ++ le_bytes 8 ((8 * len) mod 2 ^ 64).

Fixpoint words (n : nat) (bs : list Z) : list Z :=
  match n with
  | O => []
  | S n' =>
      match bs with
      | b0 :: b1 :: b2 :: b3 :: rest =>
          (b0 + 256 * b1 + 65536 * b2 + 16777216 * b3) :: words n' rest
      | _ => []
      end
  end.

Record state := { sa : Z; sb : Z; sc : Z; sd : Z }.

Definition init : state :=
  {| sa := 1732584193; sb := 4023233417; sc := 2562383102; sd := 271733878 |}.

Definition round (M : list Z) (st : state) (i : nat) : state :=
  let zi := Z.of_nat i in
  let '(f, g) :=
    if zi <? 16 then
      (Z.lor (Z.land (sb st) (sc st)) (Z.land (not32 (sb st)) (sd st)), zi)
    else if zi <? 32 then
      (Z.lor (Z.land (sd st) (sb st)) (Z.land (not32 (sd st)) (sc st)),
       (5 * zi + 1) mod 16)
    else if zi <? 48 then
      (Z.lxor (sb st) (Z.lxor (sc st) (sd st)), (3 * zi + 5) mod 16)
    else
      (Z.lxor (sc st) (Z.lor (sb st) (not32 (sd st))), (7 * zi) mod 16) in
  let f' := add32 (add32 (add32 f (sa st)) (nth i K 0)) (nth (Z.to_nat g) M 0) in
  {| sa := sd st; sd := sc st; sc := sb st;
     sb := add32 (sb st) (rotl32 f' (nth i shifts 0)) |}.

Definition block (st : state) (bs : list Z) : state :=
  let st' := fold_left (round (words 16 bs)) (seq 0 64) st in
  {| sa := add32 (sa st) (sa st'); sb := add32 (sb st) (sb st');
     sc := add32 (sc st) (sc st'); sd := add32 (sd st) (sd st') |}.

Fixpoint blocks (n : nat) (st : state) (bs : list Z) : state :=
  match n with
  | O => st
  | S n' => blocks n' (block st (firstn 64 bs)) (skipn 64 bs)
  end.

Definition digest (msg : list Z) : list Z :=
  let p := pad msg in
  let st := blocks (length p / 64) init p in
  le_bytes 4 (sa st) ++ le_bytes 4 (sb st) ++ le_bytes 4 (sc st)
    ++ le_bytes 4 (sd st).

Definition hex_digit (z : Z) : ascii :=
  if z <? 10 then ascii_of_N (Z.to_N (48 + z)) else ascii_of_N (Z.to_N (87 + z)).

Fixpoint hex (bs : list Z) : string :=
  match bs with
  | [] => EmptyString
  | b :: rest => String (hex_digit (b / 16)) (String (hex_digit (b mod 16)) (hex rest))
  end.

(** [hashlib.md5(s.encode()).hexdigest()] *)
Definition hexdigest (s : string) : string := hex (digest (bytes_of_string s)).

End MD5.

(** ** [datetime] *)

Module datetime.

Record t : Type := mk
  { year : Z; month : Z; day : Z; hour : Z; minute : Z; second : Z }.

Definition eqb (a b : t) : bool :=
  (year a =? year b) && (month a =? month b) && (day a =? day b)
  && (hour a =? hour b) && (minute a =? minute b) && (second a =? second b).

Definition is_leap (y : Z) : bool :=
  ((y mod 4 =? 0) && negb (y mod 100 =? 0)) || (y mod 400 =? 0).

Definition days_in_month (y m : Z) : Z :=
  if m =? 2 then (if is_leap y then 29 else 28)
  else if (m =? 4) || (m =? 6) || (m =? 9) || (m =? 11) then 30
  else 31.

(** The checks of the [datetime] constructor (time fields are in range
    wherever this development builds one). *)
Definition valid_date (y m d : Z) : bool :=
  (1 <=? y) && (y <=? 9999) && (1 <=? m) && (m <=? 12)
  && (1 <=? d) && (d <=? days_in_month y m).

(** Days since 1970-01-01 of a civil date, and back (proleptic
    Gregorian calendar). *)
Definition days_from_civil (y m d : Z) : Z :=
  let y' := if m <=? 2 then y - 1 else y in
  let era := y' / 400 in
  let yoe := y' - era * 400 in
  let mp := if 2 <? m then m - 3 else m + 9 in
  let doy := (153 * mp + 2) / 5 + d - 1 in
  let doe := yoe * 365 + yoe / 4 - yoe / 100 + doy in
  era * 146097 + doe - 719468.

Definition civil_from_days (z : Z) : Z * Z * Z :=
  let z' := z + 719468 in
  let era := z' / 146097 in
  let doe := z' - era * 146097 in
  let yoe := (doe - doe / 1460 + doe / 36524 - doe / 146096) / 365 in
  let doy := doe - (365 * yoe + yoe / 4 - yoe / 100) in
  let mp := (5 * doy + 2) / 153 in
  let d := doy - (153 * mp + 2) / 5 + 1 in
  let m := if mp <? 10 then mp + 3 else mp - 9 in
  ((if m <=? 2 then yoe + era * 400 + 1 else yoe + era * 400), m, d).

(** Midnight of the day with ordinal [z] (days since the epoch). *)
Definition of_days (z : Z) : t :=
  let '(y, m, d) := civil_from_days z in mk y m d 0 0 0.

Definition to_days (x : t) : Z := days_from_civil (year x) (month x) (day x).

(** Naive local seconds since the epoch. *)
Definition to_seconds (x : t) : Z :=
  to_days x * 86400 + hour x * 3600 + minute x * 60 + second x.

Definition of_seconds (s : Z) : t :=
  let '(y, m, d) := civil_from_days (s / 86400) in
  let r := s mod 86400 in
  mk y m d (r / 3600) ((r mod 3600) / 60) (r mod 60).

(** [datetime.fromtimestamp(ts)]: local civil time of the instant [ts];
    [utcoffset] is the offset of the local zone at an instant.  Years
    outside 1..9999 are refused, and so is an instant whose local time
    one day earlier falls before year 1: to find out whether the local
    time is repeated, CPython also converts the instant 24 hours before,
    and that conversion fails there.  (The exception is a [ValueError],
    an [OSError] or an [OverflowError], by how far out the instant is;
    one constructor stands for them, since both callers catch it with
    [except Exception].) *)
Definition fromtimestamp (utcoffset : Z -> Z) (ts : Z) : result t :=
  let x := of_seconds (ts + utcoffset ts) in
  let probe := of_seconds (ts - 86400 + utcoffset (ts - 86400)) in
  if (1 <=? year x) && (year x <=? 9999) && (1 <=? year probe) then ok x
  else raise OverflowError.

Definition month_abbr : list string :=
  ["Jan"; "Feb"; "Mar"; "Apr"; "May"; "Jun";
   "Jul"; "Aug"; "Sep"; "Oct"; "Nov"; "Dec"].

Definition day_abbr : list string :=
  ["Mon"; "Tue"; "Wed"; "Thu"; "Fri"; "Sat"; "Sun"].

(** [x.strftime('%Y-%m-%d')], also [str(x.date())]. *)
Definition iso_date (x : t) : string :=
  PyStr.pad4 (year x) +:+ "-" +:+ PyStr.pad2 (month x) +:+ "-"
    +:+ PyStr.pad2 (day x).

(** [str(x)] (no microseconds). *)
Definition str (x : t) : string :=
  iso_date x +:+ " " +:+ PyStr.pad2 (hour x) +:+ ":"
    +:+ PyStr.pad2 (minute x) +:+ ":" +:+ PyStr.pad2 (second x).

(** [x.strftime('%Y%m%d')].  The year is printed in four digits; the C
    library decides about the padding of a year below 1000 (glibc does
    not pad it), so what depends on the width of the year is stated for
    the years 1000 to 9999. *)
Definition ymd (x : t) : string :=
  PyStr.pad4 (year x) +:+ PyStr.pad2 (month x) +:+ PyStr.pad2 (day x).

(** [x.strftime('%b%d.%Y')] *)
Definition bdY (x : t) : string :=
  nth (Z.to_nat (month x - 1)) month_abbr "" +:+ PyStr.pad2 (day x)
    +:+ "." +:+ PyStr.pad4 (year x).

End datetime.

(** ** [datetime.strptime] for the two formats of the scraper

    [_strptime] turns the format into a regular expression, matched from
    the start of the input and required to consume it all; every run of
    blanks of the format becomes [\s+], letters are matched without case.
    Each directive below returns the value read and the rest of the input. *)

Module strptime.

Definition parser (A : Type) : Type := string -> option (A * string).

(** [\s+] *)
Definition ws1 : parser unit := fun s =>
  match s with
  | String c s' => if PyStr.isspace c then Some (tt, PyStr.lstrip s') else None
  | EmptyString => None
  end.

Fixpoint lit_ci (p : string) : parser unit := fun s =>
  match p with
  | EmptyString => Some (tt, s)
  | String a p' =>
      match s with
      | String b s' =>
          if Ascii.eqb (PyStr.lower a) (PyStr.lower b) then lit_ci p' s' else None
      | EmptyString => None
      end
  end.

(** One name out of [names], giving its 0-based position. *)
Fixpoint one_of (names : list string) (i : Z) : parser Z := fun s =>
  match names with
  | [] => None
  | n :: rest =>
      match lit_ci n s with
      | Some (_, s') => Some (i, s')
      | None => one_of rest (i + 1) s
      end
  end.

(** [%a] and [%b] *)
Definition dir_a : parser Z := one_of datetime.day_abbr 0.
Definition dir_b : parser Z := one_of datetime.month_abbr 1.

(** [%d]: [3[0-1]|[1-2]\d|0[1-9]|[1-9]| [1-9]] *)
Definition dir_d : parser Z := fun s =>
  match s with
  | String a (String b s') =>
      let x := PyStr.code a in
      let y := PyStr.code b in
      if (x =? 51) && ((y =? 48) || (y =? 49)) then Some (30 + (y - 48), s')
      else if ((x =? 49) || (x =? 50)) && PyStr.isdigit b
           then Some (10 * (x - 48) + (y - 48), s')
      else if (x =? 48) && (49 <=? y) && (y <=? 57) then Some (y - 48, s')
      else if (49 <=? x) && (x <=? 57) then Some (x - 48, String b s')
      else if (x =? 32) && (49 <=? y) && (y <=? 57) then Some (y - 48, s')
      else None
  | String a EmptyString =>
      let x := PyStr.code a in
      if (49 <=? x) && (x <=? 57) then Some (x - 48, EmptyString) else None
  | EmptyString => None
  end.

(** [%Y]: [\d\d\d\d] *)
Definition dir_Y : parser Z := fun s =>
  match s with
  | String a (String b (String c (String d s'))) =>
      if PyStr.isdigit a && PyStr.isdigit b && PyStr.isdigit c && PyStr.isdigit d
      then Some (1000 * PyStr.digit_val a + 100 * PyStr.digit_val b
                 + 10 * PyStr.digit_val c + PyStr.digit_val d, s')
      else None
  | _ => None
  end.

(** [%I]: [1[0-2]|0[1-9]|[1-9]] *)
Definition dir_I : parser Z := fun s =>
  match s with
  | String a s1 =>
      let x := PyStr.code a in
      match s1 with
      | String b s2 =>
          let y := PyStr.code b in
          if (x =? 49) && (48 <=? y) && (y <=? 50) then Some (10 + (y - 48), s2)
          else if (x =? 48) && (49 <=? y) && (y <=? 57) then Some (y - 48, s2)
          else if (49 <=? x) && (x <=? 57) then Some (x - 48, s1)
          else None
      | EmptyString =>
          if (49 <=? x) && (x <=? 57) then Some (x - 48, s1) else None
      end
  | EmptyString => None
  end.

(** [%M]: [[0-5]\d|\d] *)
Definition dir_M : parser Z := fun s =>
  match s with
  | String a s1 =>
      let x := PyStr.code a in
      match s1 with
      | String b s2 =>
          if (48 <=? x) && (x <=? 53) && PyStr.isdigit b
          then Some (10 * (x - 48) + PyStr.digit_val b, s2)
          else if PyStr.isdigit a then Some (x - 48, s1) else None
      | EmptyString => if PyStr.isdigit a then Some (x - 48, s1) else None
      end
  | EmptyString => None
  end.

(** [%p]: [am|pm], giving [true] for pm. *)
Definition dir_p : parser bool := fun s =>
  match lit_ci "am" s with
  | Some (_, s') => Some (false, s')
  | None =>
      match lit_ci "pm" s with
      | Some (_, s') => Some (true, s')
      | None => None
      end
  end.

Definition bind {A B} (p : parser A) (k : A -> parser B) : parser B := fun s =>
  match p s with
  | Some (a, s') => k a s'
  | None => None
  end.

Definition ret {A} (a : A) : parser A := fun s => Some (a, s).

(** The whole input must be used up. *)
Definition complete {A} (r : option (A * string)) : option A :=
  match r with
  | Some (a, EmptyString) => Some a
  | _ => None
  end.

Definition mismatch : exn := ValueError "time data does not match format".
Definition out_of_range : exn := ValueError "day is out of range for month".

Definition build (y m d hh mm : Z) : result datetime.t :=
  if datetime.valid_date y m d then ok (datetime.mk y m d hh mm 0)
  else raise out_of_range.

(** The common prefix ["%a %b %d %Y"]. *)
Definition date_part : parser (Z * Z * Z) :=
  bind dir_a (fun _ => bind ws1 (fun _ =>
  bind dir_b (fun m => bind ws1 (fun _ =>
  bind dir_d (fun d => bind ws1 (fun _ =>
  bind dir_Y (fun y => ret (y, m, d)))))))).

(** [datetime.strptime(s, "%a %b %d %Y")] *)
Definition date_only (s : string) : result datetime.t :=
  match complete (date_part s) with
  | Some (y, m, d) => build y m d 0 0
  | None => raise mismatch
  end.

(** Hour of the 12-hour clock reading [h] with the am/pm mark. *)
Definition hour24 (h : Z) (pm : bool) : Z :=
  if pm then (if h =? 12 then 12 else h + 12)
  else (if h =? 12 then 0 else h).

(** [datetime.strptime(s, "%a %b %d %Y %I:%M%p")] *)
Definition date_time (s : string) : result datetime.t :=
  let p :=
    bind date_part (fun ymd => bind ws1 (fun _ =>
    bind dir_I (fun h => bind (lit_ci ":") (fun _ =>
    bind dir_M (fun mi => bind dir_p (fun pm =>
    ret (ymd, hour24 h pm, mi))))))) in
  match complete (p s) with
  | Some (y, m, d, hh, mi) => build y m d hh mi
  | None => raise mismatch
  end.

End strptime.

(** ** Values decoded from the embedded script ([js2py] / [demjson3]) *)

#[warnings="-register-all"]
Inductive JsVal : Type :=
  | JNull
  | JBool (b : bool)
  | JNum (n : Z)
  | JStr (s : string)
  | JList (l : list JsVal)
  | JDict (kv : list (string * JsVal)).

Module Js.

(** [d.get(key)] on the items of a dict. *)
Fixpoint get (key : string) (kv : list (string * JsVal)) : option JsVal :=
  match kv with
  | [] => None
  | (k, v) :: rest => if String.eqb k key then Some v else get key rest
  end.

Definition truthy (v : JsVal) : bool :=
  match v with
  | JNull => false
  | JBool b => b
  | JNum n => negb (n =? 0)
  | JStr s => PyStr.nonempty s
  | JList l => match l with [] => false | _ => true end
  | JDict kv => match kv with [] => false | _ => true end
  end.

Fixpoint chars (s : string) : list JsVal :=
  match s with
  | EmptyString => []
  | String c s' => JStr (String c EmptyString) :: chars s'
  end.

(** What [for x in v] goes through. *)
Definition iter (v : JsVal) : result (list JsVal) :=
  match v with
  | JList l => ok l
  | JDict kv => ok (map (fun p => JStr (fst p)) kv)
  | JStr s => ok (chars s)
  | _ => raise TypeError
  end.

(** [d.get(key, "").strip()]; anything but a string has no [strip]. *)
Definition get_stripped (key : string) (kv : list (string * JsVal))
  : result string :=
  match get key kv with
  | None => ok ""
  | Some (JStr s) => ok (PyStr.strip s)
  | Some _ => raise AttributeError
  end.

Fixpoint has_substring (p s : string) : bool :=
  PyStr.startswith p s ||
  match s with
  | EmptyString => false
  | String _ s' => has_substring p s'
  end.

Definition is_str (x : string) (v : JsVal) : bool :=
  match v with JStr s => String.eqb s x | _ => false end.

(** [key in v] *)
Definition contains (key : string) (v : JsVal) : result bool :=
  match v with
  | JDict kv => ok (match get key kv with Some _ => true | None => false end)
  | JList l => ok (existsb (is_str key) l)
  | JStr s => ok (has_substring key s)
  | _ => raise TypeError
  end.

(** [v[key]] for a string key. *)
Definition item (key : string) (v : JsVal) : result JsVal :=
  match v with
  | JDict kv => match get key kv with Some x => ok x | None => raise KeyError end
  | _ => raise TypeError
  end.

End Js.

(** ** The scraper: [forex_factory_scraper.py] *)

Module Scraper.

(** One row of the event table built by the parsers. *)
Record Event : Type := mkEvent
  { timestamp : datetime.t;
    currency : string;
    impact : string;
    event : string;
    actual : string;
    forecast : string;
    previous : string;
    day : string;
    event_id : string }.

(** What [BeautifulSoup] finds in one [tr.calendar__row]: the stripped
    text of each cell that is present, and for the impact cell its
    [title] attribute when it has one. *)
Record DomRow : Type := mkRow
  { time_cell : option string;
    date_cell : option string;
    currency_cell : option string;
    impact_cell : option (option string);
    event_title : option string;
    actual_cell : option string;
    forecast_cell : option string;
    previous_cell : option string }.

(** A page payload.  [source] is the text of [driver.page_source];
    [script_value] is what [js2py.eval_js(...).to_dict()] gives on the
    state literal found in the text ([None] when it raises);
    [calendar_rows] is [soup.select("tr.calendar__row")] on the text. *)
Record Page : Type := mkPage
  { source : string;
    script_value : option JsVal;
    calendar_rows : list DomRow }.

(** *** Event identity

    Every parser builds [id_input] from the text of the timestamp, the
    currency and a name (or a stand-in for it) and hashes it:
    [hashlib.md5(id_input.encode()).hexdigest()]. *)

Definition identity_key (timestamp : datetime.t)
    (currency name_or_fallback : string) : string :=
  MD5.hexdigest (datetime.str timestamp +:+ currency +:+ name_or_fallback).

(** The key of [parse_calendar_html]: [f"{timestamp}{currency}{event_text}"]. *)
Definition html_id (timestamp : datetime.t) (currency event_text : string)
  : string :=
  identity_key timestamp currency event_text.

(** The key of [parse_calendar_html_json]:
    [f"{timestamp}{currency}{event_text or fallback_event}"]. *)
Definition json_id (timestamp : datetime.t)
    (currency event_text actual forecast previous : string) : string :=
  let fallback_event :=
    "actual:" +:+ actual +:+ "|forecast:" +:+ forecast
      +:+ "|previous:" +:+ previous in
  identity_key timestamp currency (PyStr.or_else event_text fallback_event).

(** The key of [parse_calendar_dom]:
    [f"{timestamp}{currency}{event_name or actual+forecast+previous}"]. *)
Definition dom_id (timestamp : datetime.t)
    (currency event_name actual forecast previous : string) : string :=
  identity_key timestamp currency
    (PyStr.or_else event_name (actual +:+ forecast +:+ previous)).

(** *** The state literal:
    [calendarComponentStates\s*\[\s*1\s*\]\s*=\s*(\{.*?\});] with DOTALL *)

Fixpoint lit (p s : string) : option string :=
  match p with
  | EmptyString => Some s
  | String a p' =>
      match s with
      | String b s' => if Ascii.eqb a b then lit p' s' else None
      | EmptyString => None
      end
  end.

(** [.*?\};] : the shortest stretch up to the first ["};"]; the result is
    the stretch with the closing brace. *)
Fixpoint upto_close (s : string) : option string :=
  match s with
  | EmptyString => None
  | String c s' =>
      match lit "};" s with
      | Some _ => Some "}"
      | None =>
          match upto_close s' with
          | Some r => Some (String c r)
          | None => None
          end
      end
  end.

Definition then_ws (p : string) (s : string) : option string :=
  match lit p s with
  | Some s' => Some (PyStr.lstrip s')
  | None => None
  end.

Definition match_here (s : string) : option string :=
  match then_ws "calendarComponentStates" s with
  | None => None
  | Some s1 =>
  match then_ws "[" s1 with
  | None => None
  | Some s2 =>
  match then_ws "1" s2 with
  | None => None
  | Some s3 =>
  match then_ws "]" s3 with
  | None => None
  | Some s4 =>
  match then_ws "=" s4 with
  | None => None
  | Some s5 =>
  match lit "{" s5 with
  | None => None
  | Some s6 =>
  match upto_close s6 with
  | None => None
  | Some body => Some (String "{" body)
  end end end end end end end.

(** [re.search(pattern, html, re.DOTALL)]: leftmost match, group 1. *)
Fixpoint search_state (html : string) : option string :=
  match match_here html with
  | Some g => Some g
  | None =>
      match html with
      | EmptyString => None
      | String _ rest => search_state rest
      end
  end.

(** *** [parse_calendar_time] *)

(** The repair of a fused weekday and month: ["MonJul.."] to ["Mon Jul.."]. *)
Definition unfuse (day_str : string) : string :=
  match String.get 3 day_str with
  | Some c =>
      if (6 <=? String.length day_str)%nat && negb (PyStr.isspace c)
      then PyStr.take 3 day_str +:+ " " +:+ PyStr.drop 3 day_str
      else day_str
  | None => day_str
  end.

Definition parse_calendar_time (week_date : option datetime.t)
    (day_str time_str : string) : result datetime.t :=
  let day1 := unfuse day_str in
  match week_date with
  | None => raise AttributeError
  | Some wd =>
      let y := PyStr.of_int (datetime.year wd) in
      match strptime.date_time (day1 +:+ " " +:+ y +:+ " " +:+ time_str) with
      | inr ts => ok ts
      | inl (ValueError _) =>
          let day2 := unfuse day1 in
          match strptime.date_only (day2 +:+ " " +:+ y) with
          | inr ts => ok ts
          | inl _ => raise (RuntimeError "Failed to parse date")
          end
      | inl e => raise e
      end
  end.

(** *** [parse_calendar_dom] *)

Definition text_or_empty (c : option string) : string :=
  match c with Some s => s | None => "" end.

(** The body of the loop after [current_day] has been brought up to
    date: [None] when the row is skipped, by the guard or because
    something raised. *)
Definition dom_row_event (week_date : option datetime.t)
    (current_day : string) (row : DomRow) : option Event :=
  let time_str := text_or_empty (time_cell row) in
  let currency := text_or_empty (currency_cell row) in
  let impact :=
    match impact_cell row with
    | Some (Some title) => PyStr.strip title
    | _ => ""
    end in
  let event_name := text_or_empty (event_title row) in
  let actual := text_or_empty (actual_cell row) in
  let forecast := text_or_empty (forecast_cell row) in
  let previous := text_or_empty (previous_cell row) in
  if negb (PyStr.nonempty time_str) || negb (PyStr.nonempty current_day)
  then None
  else
    match parse_calendar_time week_date current_day time_str with
    | inl _ => None
    | inr timestamp =>
        Some (mkEvent timestamp currency impact event_name actual forecast
                previous current_day
                (dom_id timestamp currency event_name actual forecast previous))
    end.

Definition next_day (current_day : string) (row : DomRow) : string :=
  match date_cell row with
  | Some d => d
  | None => current_day
  end.

Fixpoint dom_rows (week_date : option datetime.t) (current_day : string)
    (rows : list DomRow) : list Event :=
  match rows with
  | [] => []
  | row :: rest =>
      let current_day' := next_day current_day row in
      match dom_row_event week_date current_day' row with
      | Some e => e :: dom_rows week_date current_day' rest
      | None => dom_rows week_date current_day' rest
      end
  end.

Definition parse_calendar_dom (html : Page) (week_date : option datetime.t)
  : list Event :=
  dom_rows week_date "" (calendar_rows html).

(** *** The surroundings of a run

    [utcoffset] is the local zone used by [datetime.fromtimestamp];
    [soup_text s] is [BeautifulSoup(s, "html.parser").get_text(strip=True)];
    [browser n url] is the outcome of the [n]-th page load of the run
    ([driver.get(url)] followed by the wait for the calendar table):
    the page source, or [None] when either raises;
    [driver_up k] tells whether the [k]-th [create_driver()] succeeds;
    [datetime64 stamps] tells whether pandas holds a column of these
    timestamps as [datetime64] values and not as Python objects (it
    does when they are within the bounds of its resolution). *)
Record Env : Type := mkEnv
  { utcoffset : Z -> Z;
    soup_text : string -> string;
    browser : nat -> string -> option Page;
    driver_up : nat -> bool;
    datetime64 : list datetime.t -> bool }.

(** *** [parse_calendar_html] *)

(** A number handed to [datetime.fromtimestamp]. *)
Definition as_seconds (ts : JsVal) : result Z :=
  match ts with
  | JNum n => ok n
  | JBool b => ok (if b then 1 else 0)
  | _ => raise TypeError
  end.

(** The [try] block for one event; [ok None] is the [continue]. *)
Definition html_event_try (env : Env) (date_str : string) (ev : JsVal)
  : result (option Event) :=
  match ev with
  | JDict kv =>
      match Js.get "dateline" kv with
      | None => ok None
      | Some ts =>
          if negb (Js.truthy ts) then ok None
          else
            try! secs := as_seconds ts in
            try! timestamp := datetime.fromtimestamp (utcoffset env) secs in
            try! event_text := Js.get_stripped "name" kv in
            try! currency := Js.get_stripped "currency" kv in
            try! impact := Js.get_stripped "impactTitle" kv in
            try! actual := Js.get_stripped "actual" kv in
            try! forecast := Js.get_stripped "forecast" kv in
            try! previous := Js.get_stripped "previous" kv in
            ok (Some (mkEvent timestamp currency impact event_text actual
                        forecast previous date_str
                        (html_id timestamp currency event_text)))
      end
  | _ => raise AttributeError
  end.

(** With the [except Exception] that logs and goes on. *)
Definition html_event (env : Env) (date_str : string) (ev : JsVal)
  : option Event :=
  match html_event_try env date_str ev with
  | inr r => r
  | inl _ => None
  end.

(** [BeautifulSoup(day.get("date", ""), ...).get_text(strip=True)] *)
Definition day_label (env : Env) (kv : list (string * JsVal)) : result string :=
  match Js.get "date" kv with
  | None => ok (soup_text env "")
  | Some (JStr s) => ok (soup_text env s)
  | Some _ => raise TypeError
  end.

(** [day.get("events", [])] as the loop goes through it. *)
Definition day_items (kv : list (string * JsVal)) : result (list JsVal) :=
  match Js.get "events" kv with
  | None => ok []
  | Some v => Js.iter v
  end.

Definition html_day (env : Env) (d : JsVal) : result (list Event) :=
  match d with
  | JDict kv =>
      try! date_str := day_label env kv in
      try! items := day_items kv in
      ok (omap (html_event env date_str) items)
  | _ => raise AttributeError
  end.

Fixpoint html_days (env : Env) (days : list JsVal) : result (list Event) :=
  match days with
  | [] => ok []
  | d :: rest =>
      try! evs := html_day env d in
      try! more := html_days env rest in
      ok (evs ++ more)
  end.

(** [calendar_data.get("days") or calendar_data.get("1", {}).get("days")];
    [JNull] stands for [None]. *)
Definition find_days (calendar_data : list (string * JsVal)) : result JsVal :=
  let first := match Js.get "days" calendar_data with Some v => v | None => JNull end in
  if Js.truthy first then ok first
  else
    match Js.get "1" calendar_data with
    | None => ok JNull
    | Some (JDict inner) =>
        ok (match Js.get "days" inner with Some v => v | None => JNull end)
    | Some _ => raise AttributeError
    end.

Definition parse_calendar_html (env : Env) (html : Page) : result (list Event) :=
  match search_state (source html) with
  | None => raise (ValueError "Could not find 'calendarComponentStates[1]' in HTML.")
  | Some js_data =>
      match script_value html with
      | Some (JDict calendar_data) =>
          try! cal_state := find_days calendar_data in
          if negb (Js.truthy cal_state)
          then raise (ValueError "JSON structure invalid: no 'days' in calendarComponentStates[1]")
          else
            try! days := Js.iter cal_state in
            html_days env days
      | _ => raise (ValueError "Failed to parse calendar JS with js2py")
      end
  end.

(** *** [parse_calendar_html_json] *)

Definition json_event_try (env : Env) (date_str : string) (e : JsVal)
  : result Event :=
  try! ts := Js.item "dateline" e in
  try! secs := as_seconds ts in
  try! timestamp := datetime.fromtimestamp (utcoffset env) secs in
  match e with
  | JDict kv =>
      try! event_text := Js.get_stripped "name" kv in
      try! currency := Js.get_stripped "currency" kv in
      try! impact := Js.get_stripped "impactTitle" kv in
      try! actual := Js.get_stripped "actual" kv in
      try! forecast := Js.get_stripped "forecast" kv in
      try! previous := Js.get_stripped "previous" kv in
      ok (mkEvent timestamp currency impact event_text actual forecast
            previous date_str
            (json_id timestamp currency event_text actual forecast previous))
  | _ => raise AttributeError
  end.

Definition json_event (env : Env) (date_str : string) (e : JsVal)
  : option Event :=
  match json_event_try env date_str e with
  | inr r => Some r
  | inl _ => None
  end.

Definition json_day (env : Env) (d : JsVal) : result (list Event) :=
  match d with
  | JDict kv =>
      try! date_str := day_label env kv in
      try! items := day_items kv in
      ok (omap (json_event env date_str) items)
  | _ => raise AttributeError
  end.

Fixpoint json_days (env : Env) (days : list JsVal) : result (list Event) :=
  match days with
  | [] => ok []
  | d :: rest =>
      try! evs := json_day env d in
      try! more := json_days env rest in
      ok (evs ++ more)
  end.

Definition parse_calendar_html_json (env : Env) (data : list (string * JsVal))
  : result (list Event) :=
  let cal_state := match Js.get "1" data with Some v => v | None => JDict [] end in
  try! present := Js.contains "days" cal_state in
  if negb present
  then raise (RuntimeError "Unexpected calendar structure in JSON.")
  else
    try! ds := Js.item "days" cal_state in
    try! days := Js.iter ds in
    json_days env days.

End Scraper.

(** ** Sorting, as [sorted(...)] and [DataFrame.sort_values(...)] use it

    A stable sort on a key.  [sorted] is stable; [sort_values] with its
    default algorithm keeps rows with equal keys in their order in a
    short table and may reorder them in a longer one, so the general
    statements about a table sorted by [sort_values] do not depend on
    the order of rows with equal keys (the tables of the examples are
    short). *)

Section Sort.

Context {A K : Type} (leb : K -> K -> bool) (key : A -> K).

Fixpoint insert_by (x : A) (l : list A) : list A :=
  match l with
  | [] => [x]
  | y :: l' => if leb (key x) (key y) then x :: l else y :: insert_by x l'
  end.

Definition sort_by (l : list A) : list A := fold_right insert_by [] l.

Definition key_le (x y : A) : Prop := leb (key x) (key y) = true.

End Sort.

(** ** The campaign: [scrape_week], [merge_all_weeks], [main] *)

Module Campaign.

Import Scraper.

Definition DATA_DIR : string := "calendar".
Definition MAX_RETRIES : Z := 3.

(** A row of a persisted table, as the CSV file holds it: every cell is
    text, the timestamp in the form of [str(datetime)] or, where the
    column was printed as dates only, of [str(date)]. *)
Record CsvRow : Type := mkCsv
  { c_timestamp : string;
    c_currency : string;
    c_impact : string;
    c_event : string;
    c_actual : string;
    c_forecast : string;
    c_previous : string;
    c_day : string;
    c_event_id : string }.

Abbreviation Table := (list CsvRow).

Definition midnight (x : datetime.t) : bool :=
  (datetime.hour x =? 0) && (datetime.minute x =? 0) && (datetime.second x =? 0).

(** Whether [to_csv] prints the timestamp column as dates only: pandas
    does so for a [datetime64] column all of whose values are at
    midnight. *)
Definition dates_only (env : Env) (df : list Event) : bool :=
  datetime64 env (map timestamp df) && forallb (fun e => midnight (timestamp e)) df.

(** The row of an event as the file holds it; [short] tells whether the
    timestamp column is printed as dates only. *)
Definition to_csv_row (short : bool) (e : Event) : CsvRow :=
  mkCsv (if short then datetime.iso_date (timestamp e) else datetime.str (timestamp e))
    (currency e) (impact e) (event e)
    (actual e) (forecast e) (previous e) (day e) (event_id e).

(** [df.to_csv(filename, index=False)] *)
Definition to_csv (env : Env) (df : list Event) : Table :=
  map (to_csv_row (dates_only env df)) df.

Inductive Level : Type := INFO | WARNING | ERROR.

(** The log lines of the script, by the place that emits them; in the
    lines of [main] a week is the day ordinal of its anchor. *)
Inductive Msg : Type :=
  | ScrapingWeek (week : datetime.t)
  | RetryGet (attempt : Z)
  | Saved (n : nat) (filename : string)
  | AlreadyScraped (csv_path : string)
  | AttemptFailed (attempt : Z) (week : Z) (e : exn)
  | RestartingDriver
  | FailedAllRetries (week : Z)
  | MergingAll
  | NoCsvFound
  | Merged (n : nat) (output_file : string)
  | AllWeeksCompleted.

(** The state the script acts on: the files of [DATA_DIR] (by file
    name), the other files it writes (by path), the log (latest line
    first), the URLs given to [driver.get] (latest first) and the
    number of [create_driver()] calls. *)
Record World : Type := mkWorld
  { calendar : gmap string Table;
    files : gmap string string;
    log : list (Level * Msg);
    fetched : list string;
    drivers : nat }.

Definition logger (lvl : Level) (m : Msg) (w : World) : World :=
  mkWorld (calendar w) (files w) ((lvl, m) :: log w) (fetched w) (drivers w).

Definition write_file (path content : string) (w : World) : World :=
  mkWorld (calendar w) (<[path := content]> (files w)) (log w) (fetched w)
    (drivers w).

Definition write_csv (name : string) (t : Table) (w : World) : World :=
  mkWorld (<[name := t]> (calendar w)) (files w) (log w) (fetched w)
    (drivers w).

(** [driver.get(url)] and the wait, answered by the environment. *)
Definition driver_get (env : Env) (url : string) (w : World)
  : option Page * World :=
  (browser env (length (fetched w)) url,
   mkWorld (calendar w) (files w) (log w) (url :: fetched w) (drivers w)).

Definition create_driver (env : Env) (w : World) : result unit * World :=
  let w' := mkWorld (calendar w) (files w) (log w) (fetched w) (S (drivers w)) in
  if driver_up env (drivers w) then (ok tt, w')
  else (raise WebDriverException, w').

Definition build_week_url (date : datetime.t) : string :=
  "https://www.forexfactory.com/calendar?week=" +:+ datetime.bdY date.

Definition week_csv (date : datetime.t) : string :=
  "week_" +:+ datetime.ymd date +:+ ".csv".

(** *** [scrape_week] *)

(** The loading loop [for attempt in range(1, 4)]: the page of the first
    load that succeeds, [None] when the loop runs to its [else]. *)
Fixpoint load_page (env : Env) (url : string) (attempts : list Z) (w : World)
  : option Page * World :=
  match attempts with
  | [] => (None, w)
  | attempt :: rest =>
      match driver_get env url w with
      | (Some html, w1) => (Some html, w1)
      | (None, w1) => load_page env url rest (logger WARNING (RetryGet attempt) w1)
      end
  end.

(** The first lines of the [try] block: parse, then refuse an empty
    table.  (Every event carries a timestamp, so the later filter on
    missing timestamps keeps all rows.) *)
Definition parsed_table (env : Env) (html : Page) : result (list Event) :=
  try! df := parse_calendar_html env html in
  match df with
  | [] => raise (ValueError "No valid 'timestamp' in parsed calendar data.")
  | _ => ok df
  end.

Definition scrape_week (env : Env) (week_date : datetime.t) (w : World)
  : result unit * World :=
  let url := build_week_url week_date in
  let w0 := logger INFO (ScrapingWeek week_date) w in
  match load_page env url [1; 2; 3] w0 with
  | (None, w1) => (raise (RuntimeError "Failed to load after retries."), w1)
  | (Some html, w1) =>
      let stamp := datetime.ymd week_date in
      let w2 := write_file ("debug/raw_html_" +:+ stamp +:+ ".html") (source html) w1 in
      let w3 :=
        match search_state (source html) with
        | Some js_data => write_file "debug/raw_calendar_json.js" js_data w2
        | None => w2
        end in
      match parsed_table env html with
      | inr df =>
          let filename := week_csv week_date in
          let w4 := write_csv filename (to_csv env df) w3 in
          (ok tt, logger INFO (Saved (length df) filename) w4)
      | inl e =>
          let w4 := write_file ("debug/ff_calendar_" +:+ stamp +:+ ".html")
                      (source html) w3 in
          (raise (RuntimeError "Failed to parse calendar. Saved HTML."), w4)
      end
  end.

(** *** [merge_all_weeks] *)

Definition is_week_csv (f : string) : bool :=
  PyStr.endswith ".csv" f && PyStr.startswith "week_" f.

(** [sorted([... for f in os.listdir(DATA_DIR) if ...])] *)
Definition week_files (dir : gmap string Table) : list string :=
  sort_by String.leb id (filter (fun f => is_week_csv f = true)
                           (map fst (map_to_list dir))).

(** [pd.read_csv(f)]: the rows of the file, one for each line, in the
    order of the file.  The cells are kept as the text of the file:
    the type that pandas infers for a column, and the way it prints a
    number back ([49] as [49.0] next to a missing value, [0.30] as
    [0.3]), are not modelled, so what is said of the merge is said of
    rows, of their number, and of the [timestamp] and [event_id] texts,
    which are not numbers. *)
Definition read_csv (dir : gmap string Table) (f : string) : Table :=
  default [] (dir !! f).

(** [pd.concat(...)] followed by [sort_values("timestamp")]. *)
Definition merged_table (dir : gmap string Table) : Table :=
  sort_by String.leb c_timestamp (concat (map (read_csv dir) (week_files dir))).

Definition merge_all_weeks (w : World) : World :=
  let w0 := logger INFO MergingAll w in
  match week_files (calendar w) with
  | [] => logger WARNING NoCsvFound w0
  | fs =>
      let output_file := "fx_news.csv" in
      logger INFO (Merged (length fs) output_file)
        (write_csv output_file (merged_table (calendar w)) w0)
  end.

(** *** [main] *)

(** The values of [current] in [while current <= end], stepping by
    seven days; dates are day ordinals. *)
Definition week_anchors (start end_ : Z) : list Z :=
  map (fun k => start + 7 * Z.of_nat k)
    (seq 0 (Z.to_nat ((end_ - start) / 7 + 1))).

(** [for attempt in range(1, MAX_RETRIES + 1)] with its [else]. *)
Fixpoint attempts (env : Env) (current : Z) (todo : list Z) (w : World)
  : result unit * World :=
  match todo with
  | [] => (ok tt, logger ERROR (FailedAllRetries current) w)
  | attempt :: rest =>
      match scrape_week env (datetime.of_days current) w with
      | (inr _, w1) => (ok tt, w1)
      | (inl e, w1) =>
          let w2 := logger ERROR (AttemptFailed attempt current e) w1 in
          if attempt <? MAX_RETRIES then
            match create_driver env (logger INFO RestartingDriver w2) with
            | (inr _, w3) => attempts env current rest w3
            | (inl e', w3) => (inl e', w3)
            end
          else attempts env current rest w2
      end
  end.

(** One turn of the [while] loop. *)
Definition week_step (env : Env) (current : Z) (w : World)
  : result unit * World :=
  let csv_path := week_csv (datetime.of_days current) in
  match calendar w !! csv_path with
  | Some _ => (ok tt, logger INFO (AlreadyScraped csv_path) w)
  | None => attempts env current [1; 2; 3] w
  end.

Fixpoint campaign (env : Env) (weeks : list Z) (w : World)
  : result unit * World :=
  match weeks with
  | [] => (ok tt, w)
  | current :: rest =>
      match week_step env current w with
      | (inr _, w1) => campaign env rest w1
      | (inl e, w1) => (inl e, w1)
      end
  end.

Definition main (env : Env) (start end_ : Z) (w : World)
  : result unit * World :=
  match create_driver env w with
  | (inl e, w1) => (inl e, w1)
  | (inr _, w1) =>
      match campaign env (week_anchors start end_) w1 with
      | (inl e, w2) => (inl e, w2)
      | (inr _, w2) =>
          (ok tt, logger INFO AllWeeksCompleted (merge_all_weeks w2))
      end
  end.

End Campaign.

(** [[f(x) for x in l]] where [f] may raise: the first exception wins. *)
Fixpoint mapM {A B} (f : A -> result B) (l : list A) : result (list B) :=
  match l with
  | [] => ok []
  | x :: rest =>
      try! y := f x in
      try! ys := mapM f rest in
      ok (y :: ys)
  end.

(** ** The candle/news join: [align_news_to_ohlcv.py] *)

Module Align.

(** A candle: its time in seconds and the remaining columns. *)
Record Candle (Bar : Type) : Type := mkCandle
  { time : Z; bar : Bar }.
Arguments mkCandle {Bar} _ _.
Arguments time {Bar} _.
Arguments bar {Bar} _.

(** A cell of the [impact] column: a [str], or a value that is not one.
    [pd.read_csv] gives [NaN] for an empty field; a number, as in a
    column read as numeric, has no [split] either and behaves as [NaN]
    does here. *)
Inductive Cell : Type :=
  | Text (s : string)
  | NaN.

(** A row of the news table; [timestamp] in seconds.  The join copies
    [event] and [currency] as they are; they are taken as text here. *)
Record News : Type := mkNews
  { timestamp : Z; impact : Cell; event : string; currency : string }.

(** The four columns the join fills in for a candle that has news. *)
Record Tags : Type := mkTags
  { news_impact : string;
    news_event : string;
    news_currency : string;
    minutes_from_news : Z }.

(** A row of the result: the index label the row had in the input, the
    candle, and the news columns ([None] where they stay empty). *)
Record Tagged (Bar : Type) : Type := mkTagged
  { label : nat; candle : Candle Bar; tags : option Tags }.
Arguments mkTagged {Bar} _ _ _.
Arguments label {Bar} _.
Arguments candle {Bar} _.
Arguments tags {Bar} _.

Definition time_diff (candle_time : Z) (n : News) : Z :=
  Z.abs (timestamp n - candle_time).

(** The rows of [news_df] inside the window, ends included. *)
Definition nearby_news (news_df : list News) (candle_time window_minutes : Z)
  : list News :=
  let window_start := candle_time - 60 * window_minutes in
  let window_end := candle_time + 60 * window_minutes in
  filter (fun n => (window_start <=? timestamp n) && (timestamp n <=? window_end) = true)
    news_df.

(** [nearby_news.sort_values('time_diff').iloc[0]], when there is one. *)
Definition closest (news_df : list News) (candle_time window_minutes : Z)
  : option News :=
  head (sort_by Z.leb (time_diff candle_time)
          (nearby_news news_df candle_time window_minutes)).

(** The body of the loop for one candle time: the values it writes, or
    nothing when no news is near. *)
Definition tags_for (news_df : list News) (window_minutes candle_time : Z)
  : result (option Tags) :=
  match closest news_df candle_time window_minutes with
  | None => ok None
  | Some c =>
      match impact c with
      | NaN => raise AttributeError
      | Text s =>
          match PyStr.split s with
          | [] => raise IndexError
          | first :: _ =>
              ok (Some (mkTags first (event c) (currency c)
                          (Z.quot (candle_time - timestamp c) 60)))
          end
      end
  end.

(** Rows with the labels [0, 1, ..] of a fresh index. *)
Definition indexed {A} (l : list A) : list (nat * A) := imap pair l.

(** The frame is sorted by time, keeping the labels; the loop visits the
    rows in that order with a counter [i], and [.at[i, ...]] writes to
    the row whose label is [i]. *)
Definition tag_news_to_candles {Bar} (ohlcv_df : list (Candle Bar))
    (news_df : list News) (window_minutes : Z) : result (list (Tagged Bar)) :=
  let candles := sort_by Z.leb (fun p => time (snd p)) (indexed ohlcv_df) in
  let news := sort_by Z.leb timestamp news_df in
  try! written := mapM (fun p => tags_for news window_minutes (time (snd p))) candles in
  ok (map (fun p => mkTagged (fst p) (snd p) (mjoin (written !! fst p))) candles).

End Align.

(** ** Labels: [generate_labels] of [label_filtered_candles.py]

    The prices are kept abstract: [sub], [neg] and [ltb] stand for the
    subtraction, negation and comparison of the numbers in the table. *)

Module Labels.

Section Labels.

Context {Row num : Type}.
Context (close : Row -> num).
Context (sub : num -> num -> num) (neg : num -> num) (ltb : num -> num -> bool).

(** A row of the result.  [base] is the input row; it is [None] in the
    rows that assigning a column to an empty frame creates. *)
Record Labeled : Type := mkLabeled
  { base : option Row; label : option Z }.

(** [df.iloc[i]] *)
Definition iloc (df : list Row) (i : Z) : result Row :=
  let n := Z.of_nat (length df) in
  let j := if i <? 0 then i + n else i in
  if (0 <=? j) && (j <? n) then
    match df !! Z.to_nat j with
    | Some r => ok r
    | None => raise IndexError
    end
  else raise IndexError.

(** [range(k)] *)
Definition range (k : Z) : list Z := map Z.of_nat (seq 0 (Z.to_nat k)).

Definition classify (threshold delta : num) : Z :=
  if ltb threshold delta then 1
  else if ltb delta (neg threshold) then -1
  else 0.

(** The body of the loop. *)
Definition label_at (df : list Row) (horizon : Z) (threshold : num) (i : Z)
  : result Z :=
  try! curr := iloc df i in
  try! future := iloc df (i + horizon) in
  ok (classify threshold (sub (close future) (close curr))).

Definition generate_labels (df : list Row) (horizon : Z) (threshold : num)
  : result (list Labeled) :=
  let n := Z.of_nat (length df) in
  try! computed := mapM (label_at df horizon threshold) (range (n - horizon)) in
  let labels := map Some computed ++ repeat None (Z.to_nat horizon) in
  if (length labels =? length df)%nat then
    ok (zip_with (fun r l => mkLabeled (Some r) l) df labels)
  else
    match df with
    | [] => ok (map (mkLabeled None) labels)
    | _ => raise (ValueError "Length of values does not match length of index")
    end.

End Labels.

End Labels.

(** ** Filters and the labelling script: [label_filtered_candles.py]

    A row is a row of the tagged table as [pd.read_csv] reads it back:
    the news columns hold NaN ([None]) where the join wrote nothing.
    The prices stay abstract, as for [generate_labels]; [abs_] and [leb]
    stand for [abs] and [<=] on them. *)

Module Filters.

Section Filters.

Context {num : Type}.
Context (sub : num -> num -> num) (neg abs_ : num -> num).
Context (ltb leb : num -> num -> bool).

Record Row : Type := mkRow
  { high : num;
    low : num;
    close : num;
    news_impact : option string;
    news_currency : option string;
    minutes_from_news : option Z }.

(** The [filters] dict. *)
Record Settings : Type := mkSettings
  { allowed_impacts : list string;
    max_minutes_from_news : Z;
    min_candle_range : num }.

(** [x in l] for a cell that may be NaN. *)
Definition cell_in (cell : option string) (l : list string) : bool :=
  match cell with
  | Some s => existsb (String.eqb s) l
  | None => false
  end.

Definition is_news_relevant (row : Row) (symbol : string) (filters : Settings)
  : bool :=
  match news_currency row with
  | None => false
  | Some _ =>
      let symbol_base := PyStr.take 3 symbol in
      let symbol_quote := PyStr.take 3 (PyStr.drop 3 symbol) in
      let relevant_currencies := [symbol_base; symbol_quote] in
      cell_in (news_impact row) (allowed_impacts filters)
      && match minutes_from_news row with
         | Some m => Z.abs m <=? max_minutes_from_news filters
         | None => false
         end
      && cell_in (news_currency row) relevant_currencies
  end.

Definition is_candle_volatile (row : Row) (filters : Settings) : bool :=
  leb (min_candle_range filters) (abs_ (sub (high row) (low row))).

Definition apply_filters (df : list Row) (symbol : string) (filters : Settings)
  : list Row :=
  filter (fun row => is_news_relevant row symbol filters
                     && is_candle_volatile row filters = true) df.

(** The table that [main] saves: the rows that pass the filters, with
    their labels. *)
Definition main (df : list Row) (symbol : string) (filters : Settings)
    (label_horizon : Z) (label_threshold : num)
  : result (list (@Labels.Labeled Row)) :=
  let filtered_df := apply_filters df symbol filters in
  Labels.generate_labels close sub neg ltb filtered_df label_horizon label_threshold.

End Filters.

End Filters.

(** ** The table parser: [parse_calendar_html_fallback]

    As for [parse_calendar_dom], the page is taken through what
    [BeautifulSoup] finds in it. *)

Module Fallback.

Import strptime.

(** [datetime.strptime(s, "%a %b %d %I:%M%p %Y")] *)
Definition date_time_year (s : string) : result datetime.t :=
  let p :=
    bind dir_a (fun _ => bind ws1 (fun _ =>
    bind dir_b (fun m => bind ws1 (fun _ =>
    bind dir_d (fun d => bind ws1 (fun _ =>
    bind dir_I (fun h => bind (lit_ci ":") (fun _ =>
    bind dir_M (fun mi => bind dir_p (fun pm => bind ws1 (fun _ =>
    bind dir_Y (fun y => ret (y, m, d, hour24 h pm, mi))))))))))))) in
  match complete (p s) with
  | Some (y, m, d, hh, mi) => build y m d hh mi
  | None => raise mismatch
  end.

(** The impact cell: the values of its [class] attribute, and the
    [title] of its first [span] ([None] when it has no [span],
    [Some None] when the [span] has no [title]). *)
Record ImpactTd : Type := mkImpact
  { classes : list string;
    span_title : option (option string) }.

(** What [tr.find("td", class_=...)] finds in one [tr] of the table:
    the [.text] of each cell that is present; for the event cell, the
    stripped text of its title [span] when it has one. *)
Record Tr : Type := mkTr
  { date_td : option string;
    time_td : option string;
    currency_td : option string;
    impact_td : option ImpactTd;
    event_td : option (option string);
    actual_td : option string;
    forecast_td : option string;
    previous_td : option string }.

(** A row of the result; [timestamp] is [None] where the date could not
    be read. *)
Record Row : Type := mkRow
  { timestamp : option datetime.t;
    currency : string;
    impact : string;
    event : string;
    actual : string;
    forecast : string;
    previous : string;
    day : string;
    event_id : string }.

(** [extract_event_name]: a missing cell raises inside the [try] and
    gives the empty string, as a cell without the title [span] does. *)
Definition extract_event_name (td : option (option string)) : string :=
  match td with
  | Some (Some text) => text
  | _ => ""
  end.

(** [" ".join(l)] *)
Fixpoint join (l : list string) : string :=
  match l with
  | [] => ""
  | [x] => x
  | x :: rest => x +:+ " " +:+ join rest
  end.

Definition impact_of (td : option ImpactTd) : string :=
  match td with
  | None => ""
  | Some td =>
      let impact_class := join (classes td) +:+ " " in
      if Js.has_substring "impact-high" impact_class then "High"
      else if Js.has_substring "impact-medium" impact_class then "Medium"
      else if Js.has_substring "impact-low" impact_class then "Low"
      else
        match span_title td with
        | Some (Some title) => if PyStr.nonempty title then PyStr.strip title else ""
        | _ => ""
        end
  end.

(** [re.sub(r"\s+", " ", s)]; [in_run] tells that the character before
    was whitespace. *)
Fixpoint squeeze (in_run : bool) (s : string) : string :=
  match s with
  | EmptyString => EmptyString
  | String c s' =>
      if PyStr.isspace c
      then (if in_run then squeeze true s' else String " " (squeeze true s'))
      else String c (squeeze false s')
  end.

Definition text_or (d : string) (td : option string) : string :=
  match td with
  | Some text => PyStr.strip text
  | None => d
  end.

(** [current_date] after the date cell of the row has been looked at. *)
Definition next_date (current_date : option string) (tr : Tr) : option string :=
  match date_td tr with
  | Some text =>
      if PyStr.nonempty (PyStr.strip text) then Some (PyStr.strip text)
      else current_date
  | None => current_date
  end.

(** The [try] block around the timestamp; without a week,
    [week_date.year] raises and the timestamp stays [None]. *)
Definition timestamp_of (week_date : option datetime.t)
    (cleaned_date time_str : string) : option datetime.t :=
  match week_date with
  | None => None
  | Some wd =>
      let timestamp_str :=
        cleaned_date +:+ " " +:+ time_str +:+ " " +:+ PyStr.of_int (datetime.year wd) in
      match date_time_year timestamp_str with
      | inr t => Some t
      | inl _ => None
      end
  end.

(** [f"{timestamp}"] *)
Definition str_timestamp (t : option datetime.t) : string :=
  match t with
  | Some t => datetime.str t
  | None => "None"
  end.

(** The body of the loop after the date cell: [None] is the [continue]. *)
Definition tr_row (week_date : option datetime.t) (current_date : option string)
    (tr : Tr) : option Row :=
  match current_date, currency_td tr with
  | Some cd, Some currency_text =>
      if negb (PyStr.nonempty cd) then None
      else
        let time_str := text_or "12:00am" (time_td tr) in
        let currency := PyStr.strip currency_text in
        let impact := impact_of (impact_td tr) in
        let event := extract_event_name (event_td tr) in
        let actual := text_or "" (actual_td tr) in
        let forecast := text_or "" (forecast_td tr) in
        let previous := text_or "" (previous_td tr) in
        let cleaned_date := PyStr.strip (squeeze false cd) in
        let timestamp := timestamp_of week_date cleaned_date time_str in
        let id_input :=
          str_timestamp timestamp +:+ currency +:+ PyStr.or_else event actual in
        Some (mkRow timestamp currency impact event actual forecast previous
                cleaned_date (MD5.hexdigest id_input))
  | _, _ => None
  end.

Fixpoint rows_of (week_date : option datetime.t) (current_date : option string)
    (trs : list Tr) : list Row :=
  match trs with
  | [] => []
  | tr :: rest =>
      let current_date' := next_date current_date tr in
      match tr_row week_date current_date' tr with
      | Some r => r :: rows_of week_date current_date' rest
      | None => rows_of week_date current_date' rest
      end
  end.

(** [df.drop_duplicates(subset=["event_id"])]: the first row of each
    [event_id] stays. *)
Fixpoint drop_duplicates (seen : list string) (rows : list Row) : list Row :=
  match rows with
  | [] => []
  | r :: rest =>
      if existsb (String.eqb (event_id r)) seen then drop_duplicates seen rest
      else r :: drop_duplicates (event_id r :: seen) rest
  end.

(** [table] is [soup.find("table", class_="calendar__table")] with its
    [find_all("tr")].  A frame built from no rows has no columns, and
    selecting [event_id] and [currency] on it raises [KeyError]; every
    [currency] is a string, so the last selection keeps all rows. *)
Definition parse_calendar_html_fallback (table : option (list Tr))
    (week_date : option datetime.t) : result (list Row) :=
  match table with
  | None => raise (RuntimeError "Could not find calendar table in HTML.")
  | Some trs =>
      match rows_of week_date None trs with
      | [] => raise KeyError
      | rows => ok (drop_duplicates [] rows)
      end
  end.

End Fallback.

(** ** The candle download: [ohlcv_ingest.py] *)

Module Ingest.

Import strptime.

Definition DATA_DIR : string := "candles".

(** The constants of the terminal's library that [TIMEFRAME_MAP] names. *)
Inductive Timeframe : Type :=
  | TIMEFRAME_M1 | TIMEFRAME_M5 | TIMEFRAME_M15 | TIMEFRAME_M30
  | TIMEFRAME_H1 | TIMEFRAME_H4 | TIMEFRAME_D1.

Definition TIMEFRAME_MAP : list (string * Timeframe) :=
  [("M1", TIMEFRAME_M1); ("M5", TIMEFRAME_M5); ("M15", TIMEFRAME_M15);
   ("M30", TIMEFRAME_M30); ("H1", TIMEFRAME_H1); ("H4", TIMEFRAME_H4);
   ("D1", TIMEFRAME_D1)].

(** [d.get(key)] *)
Fixpoint get {V} (key : string) (d : list (string * V)) : option V :=
  match d with
  | [] => None
  | (k, v) :: rest => if String.eqb k key then Some v else get key rest
  end.

(** [s.upper()], ASCII range. *)
Definition upper_char (c : ascii) : ascii :=
  let n := PyStr.code c in
  if (97 <=? n) && (n <=? 122) then ascii_of_N (Z.to_N (n - 32)) else c.

Fixpoint upper (s : string) : string :=
  match s with
  | EmptyString => EmptyString
  | String c s' => String (upper_char c) (upper s')
  end.

(** [%m]: [1[0-2]|0[1-9]|[1-9]], the pattern of [%I]. *)
Definition dir_m : parser Z := dir_I.

(** [datetime.strptime(s, "%Y-%m-%d")] *)
Definition ymd_date (s : string) : result datetime.t :=
  let p :=
    bind dir_Y (fun y => bind (lit_ci "-") (fun _ =>
    bind dir_m (fun m => bind (lit_ci "-") (fun _ =>
    bind dir_d (fun d => ret (y, m, d)))))) in
  match complete (p s) with
  | Some (y, m, d) => build y m d 0 0
  | None => raise mismatch
  end.

Section Ingest.

(** [Rates] is what [copy_rates_range] hands back, [Frame] the table
    made of it: [pd.DataFrame(rates)] with its [time] column turned
    into dates. *)
Context {Rates Frame : Type}.
Context (no_rates : Rates -> bool) (to_frame : Rates -> Frame).

(** The terminal: whether [mt5.initialize()] succeeds, and what
    [mt5.copy_rates_range] answers. *)
Record Terminal : Type := mkTerminal
  { initialize : bool;
    copy_rates_range : string -> Timeframe -> datetime.t -> datetime.t -> option Rates }.

(** The files written (by path), the requests made to the terminal
    (latest first), and whether [mt5.shutdown()] has been called. *)
Record World : Type := mkWorld
  { files : gmap string Frame;
    requests : list (string * Timeframe * datetime.t * datetime.t);
    shut_down : bool }.

Definition fetch_ohlcv (mt5 : Terminal) (symbol tf_str start end_ : string)
    (w : World) : result (option Frame) * World :=
  match get (upper tf_str) TIMEFRAME_MAP with
  | None => (raise (ValueError "Invalid timeframe"), w)
  | Some tf =>
      match ymd_date start with
      | inl e => (inl e, w)
      | inr utc_from =>
          match ymd_date end_ with
          | inl e => (inl e, w)
          | inr utc_to =>
              let w' := mkWorld (files w)
                          ((symbol, tf, utc_from, utc_to) :: requests w)
                          (shut_down w) in
              match copy_rates_range mt5 symbol tf utc_from utc_to with
              | None => (ok None, w')
              | Some rates =>
                  if no_rates rates then (ok None, w')
                  else (ok (Some (to_frame rates)), w')
              end
          end
      end
  end.

Definition csv_path (symbol tf : string) : string :=
  DATA_DIR +:+ "/" +:+ symbol +:+ "_" +:+ tf +:+ ".csv".

Definition save_csv (df : Frame) (symbol tf : string) (w : World) : World :=
  mkWorld (<[csv_path symbol tf := df]> (files w)) (requests w) (shut_down w).

(** The loop [for symbol in args.symbols]. *)
Fixpoint fetch_all (mt5 : Terminal) (symbols : list string)
    (timeframe start end_ : string) (w : World) : result unit * World :=
  match symbols with
  | [] => (ok tt, w)
  | symbol :: rest =>
      match fetch_ohlcv mt5 symbol timeframe start end_ w with
      | (inl e, w1) => (inl e, w1)
      | (inr None, w1) => fetch_all mt5 rest timeframe start end_ w1
      | (inr (Some df), w1) =>
          fetch_all mt5 rest timeframe start end_ (save_csv df symbol timeframe w1)
      end
  end.

Definition main (mt5 : Terminal) (symbols : list string)
    (timeframe start end_ : string) (w : World) : result unit * World :=
  if negb (initialize mt5)
  then (raise (RuntimeError "Failed to connect to MetaTrader 5"), w)
  else
    match fetch_all mt5 symbols timeframe start end_ w with
    | (inl e, w1) => (inl e, w1)
    | (inr _, w1) => (ok tt, mkWorld (files w1) (requests w1) true)
    end.

End Ingest.

End Ingest.

(** ** [extract_calendar_json] *)

Module StateJson.

(** [window\.calendarComponentStates\s*=\s*(\{.*?\});] with DOTALL, at
    the head of [s]. *)
Definition match_here (s : string) : option string :=
  match Scraper.then_ws "window.calendarComponentStates" s with
  | None => None
  | Some s1 =>
  match Scraper.then_ws "=" s1 with
  | None => None
  | Some s2 =>
  match Scraper.lit "{" s2 with
  | None => None
  | Some s3 =>
  match Scraper.upto_close s3 with
  | None => None
  | Some body => Some (String "{" body)
  end end end end.

(** [re.search(pattern, html, re.DOTALL)]: leftmost match, group 1. *)
Fixpoint search (html : string) : option string :=
  match match_here html with
  | Some g => Some g
  | None =>
      match html with
      | EmptyString => None
      | String _ rest => search rest
      end
  end.

(** [decode] is [demjson3.decode], [None] where it raises
    [JSONDecodeError]; [files] are the files written, by path, and
    [debug_dir] tells whether the directory [debug] exists.  The
    function does not create that directory, and without it the [open]
    of the handler raises [FileNotFoundError], which leaves the function
    in place of the [ValueError]. *)
Definition extract_calendar_json (decode : string -> option JsVal) (html : string)
    (debug_dir : bool) (files : gmap string string)
  : result JsVal * gmap string string :=
  match search html with
  | None =>
      (raise (ValueError "Could not find 'calendarComponentStates' in HTML."), files)
  | Some js_data =>
      match decode js_data with
      | Some data => (ok data, files)
      | None =>
          if debug_dir then
            (raise (ValueError "Failed to parse calendar JSON"),
             <["debug/bad_calendar_json.txt" := js_data]> files)
          else (raise FileNotFoundError, files)
      end
  end.

End StateJson.

(** * Vocabulary of the statements and example data *)

(** The last character of a string. *)
Fixpoint last_char (s : string) : option ascii :=
  match s with
  | EmptyString => None
  | String c EmptyString => Some c
  | String _ s' => last_char s'
  end.

(** The input ends in [m] or [M], as every [%p] reading does. *)
Definition ends_m (s : string) : bool :=
  match last_char s with
  | Some c => Ascii.eqb (PyStr.lower c) "m"
  | None => false
  end.

(** A parser that hands back a suffix of what it was given. *)
Definition suffixing {A} (p : strptime.parser A) : Prop :=
  forall s a s', p s = Some (a, s') -> exists pre, s = pre +:+ s'.

(** A parser whose complete readings all end in [m]. *)
Definition closes_with_m {A} (p : strptime.parser A) : Prop :=
  forall s a, p s = Some (a, EmptyString) -> ends_m s = true.

(** The anchor of the week of 1 July 2024. *)
Definition week_2024 : datetime.t := datetime.mk 2024 7 1 0 0 0.

(** The day heading in force after the rows [before]. *)
Definition inherited_day (before : list Scraper.DomRow) : string :=
  fold_left Scraper.next_day before "".

(** Two rows under one day heading; the second has no date cell of its
    own and a blank time cell. *)
Definition dom_two_rows : Scraper.Page :=
  Scraper.mkPage "" None
    [ Scraper.mkRow (Some "8:30am") (Some "MonJul 1") (Some "USD")
        (Some (Some "High Impact Expected")) (Some "CPI m/m")
        (Some "0.3%") (Some "0.2%") (Some "0.1%");
      Scraper.mkRow (Some "") None (Some "USD")
        (Some (Some "Non-Economic")) (Some "Bank Holiday") None None None ].

(** Two raw events that agree on every field except the three that are
    revised after publication. *)
Definition revision_of (kv kv' : list (string * JsVal)) : Prop :=
  forall key,
    key <> "actual" -> key <> "forecast" -> key <> "previous" ->
    Js.get key kv = Js.get key kv'.

(** A machine on UTC, for the examples: day labels carry no markup, no
    page ever loads, the browser always starts, timestamps are held as
    [datetime64] values. *)
Definition utc_env : Scraper.Env :=
  Scraper.mkEnv (fun _ => 0) PyStr.strip (fun _ _ => None) (fun _ => true)
    (fun _ => true).

(** A raw event of the embedded state without a name, and one with a
    name, each with the given actual value (12:30 UTC on 1 July 2024). *)
Definition unnamed_event (actual : string) : list (string * JsVal) :=
  [("dateline", JNum 1719837000); ("name", JStr ""); ("currency", JStr "USD");
   ("impactTitle", JStr "High Impact Expected"); ("actual", JStr actual);
   ("forecast", JStr "0.2%"); ("previous", JStr "0.1%")].

Definition named_event (actual : string) : list (string * JsVal) :=
  [("dateline", JNum 1719837000); ("name", JStr "CPI m/m"); ("currency", JStr "USD");
   ("impactTitle", JStr "High Impact Expected"); ("actual", JStr actual);
   ("forecast", JStr "0.2%"); ("previous", JStr "0.1%")].

(** The row [parse_calendar_html_json] builds from [named_event]. *)
Definition named_row (actual : string) : Scraper.Event :=
  Scraper.mkEvent (datetime.mk 2024 7 1 12 30 0) "USD" "High Impact Expected"
    "CPI m/m" actual "0.2%" "0.1%" "Mon Jul 1"
    (Scraper.json_id (datetime.mk 2024 7 1 12 30 0) "USD" "CPI m/m" actual "0.2%" "0.1%").

(** Nothing on disk, nothing logged, no page loaded, no browser started. *)
Definition empty_world : Campaign.World := Campaign.mkWorld ∅ ∅ [] [] 0.

(** A payload whose embedded state is cut short (so [js2py] raises on
    it) while its table markup holds one complete row. *)
Definition broken_state_page : Scraper.Page :=
  Scraper.mkPage
    "<script>window.calendarComponentStates[1] = {days: [};</script><table class=calendar__table>...</table>"
    None
    [ Scraper.mkRow (Some "8:30am") (Some "MonJul 1") (Some "USD")
        (Some (Some "High Impact Expected")) (Some "CPI m/m")
        (Some "0.3%") (Some "0.2%") (Some "0.1%") ].

(** Every page load gives [broken_state_page]. *)
Definition broken_state_env : Scraper.Env :=
  Scraper.mkEnv (fun _ => 0) PyStr.strip (fun _ _ => Some broken_state_page)
    (fun _ => true) (fun _ => true).

(** Every character of the string is whitespace (the empty string
    included). *)
Fixpoint all_space (s : string) : bool :=
  match s with
  | EmptyString => true
  | String c s' => PyStr.isspace c && all_space s'
  end.

(** A candle with only its time (seconds of the day in the examples). *)
Definition bare_candle (t : Z) : Align.Candle unit := Align.mkCandle t tt.

(** Candles at 12:00 and 12:15, events at 12:45 and at 10:50, and the
    result of joining them with a window of 60 minutes. *)
Definition two_candles : list (Align.Candle unit) :=
  [bare_candle 43200; bare_candle 44100].

Definition two_news : list Align.News :=
  [Align.mkNews 45900 (Align.Text "Low Impact Expected") "PMI" "EUR";
   Align.mkNews 39000 (Align.Text "High Impact Expected") "CPI m/m" "USD"].

Definition two_candles_tagged : list (Align.Tagged unit) :=
  [Align.mkTagged 0 (bare_candle 43200) (Some (Align.mkTags "Low" "PMI" "EUR" (-45)));
   Align.mkTagged 1 (bare_candle 44100) (Some (Align.mkTags "Low" "PMI" "EUR" (-30)))].

(** A persisted row of the event of 5 July 2024, 12:30, with the given
    actual value. *)
Definition cpi_row (actual : string) : Campaign.CsvRow :=
  Campaign.mkCsv "2024-07-05 12:30:00" "USD" "High Impact Expected" "CPI m/m"
    actual "0.2%" "0.1%" "Fri Jul 5" "ff83dfb216c428f9a6c21bb4e30d66ea".

(** Two weekly tables that hold the same event, the later one with a
    revised actual value. *)
Definition two_weeks : gmap string Campaign.Table :=
  <["week_20240701.csv" := [cpi_row ""]]>
    (<["week_20240705.csv" := [cpi_row "0.3%"]]> ∅).

(** What [merge_all_weeks] does to the files of [DATA_DIR]. *)
Definition merge_dir (dir : gmap string Campaign.Table) : gmap string Campaign.Table :=
  match Campaign.week_files dir with
  | [] => dir
  | _ => <["fx_news.csv" := Campaign.merged_table dir]> dir
  end.

(** A data directory that holds the tables of the weeks of 1 and 8 July
    2024, and the world that has only these. *)
Definition cached_weeks : gmap string Campaign.Table :=
  <["week_20240701.csv" := [cpi_row "0.3%"]]>
    (<["week_20240708.csv" := []]> ∅).

Definition cached_world : Campaign.World := Campaign.mkWorld cached_weeks ∅ [] [] 0.




(** A page whose embedded state decodes to one event. *)
Definition good_page : Scraper.Page :=
  Scraper.mkPage
    "<script>window.calendarComponentStates[1] = {days: [...]};</script>"
    (Some (JDict [("days",
                   JList [JDict [("date", JStr "Mon Jul 8");
                                 ("events", JList [JDict (named_event "0.3%")])]])]))
    [].

(** The page of the week of 1 July never loads; any other week loads. *)
Definition one_bad_week_env : Scraper.Env :=
  Scraper.mkEnv (fun _ => 0) PyStr.strip
    (fun _ url =>
       if String.eqb url (Campaign.build_week_url (datetime.of_days 19905))
       then None else Some good_page)
    (fun _ => true) (fun _ => true).

(** The log line of the [for ... else] for week [d]. *)
Definition is_terminal_failure (d : Z) (x : Campaign.Level * Campaign.Msg) : bool :=
  match x with
  | (Campaign.ERROR, Campaign.FailedAllRetries d') => d' =? d
  | _ => false
  end.

(** No page ever loads and the browser starts once only. *)
Definition no_restart_env : Scraper.Env :=
  Scraper.mkEnv (fun _ => 0) PyStr.strip (fun _ _ => None)
    (fun k => Nat.eqb k 0) (fun _ => true).

(** What a stretch of the campaign over the weeks [weeks] may do to the
    world: it loads at most nine pages per week, each the page of a week
    of the stretch that had no table before; it keeps every table that
    was there; and a table that was not there is a non-empty one under
    the file name of a week of the stretch. *)
Definition stretch (weeks : list Z) (w w' : Campaign.World) : Prop :=
  (exists loads,
      Campaign.fetched w' = loads ++ Campaign.fetched w
      /\ (length loads <= 9 * length weeks)%nat
      /\ forall u, u ∈ loads ->
           exists d, d ∈ weeks
                     /\ u = Campaign.build_week_url (datetime.of_days d)
                     /\ Campaign.calendar w !! Campaign.week_csv (datetime.of_days d) = None)
  /\ Campaign.calendar w ⊆ Campaign.calendar w'
  /\ (forall f t,
        Campaign.calendar w' !! f = Some t ->
        Campaign.calendar w !! f = Some t
        \/ (t <> [] /\ exists d, d ∈ weeks /\ f = Campaign.week_csv (datetime.of_days d))).

(** The field [key] of a raw event is a string or is missing. *)
Definition text_field (key : string) (kv : list (string * JsVal)) : Prop :=
  match Js.get key kv with
  | None | Some (JStr _) => True
  | Some _ => False
  end.

(** A raw event that has what [parse_calendar_html] asks of it: it is an
    object whose [dateline] is a number other than zero that names an
    instant [fromtimestamp] accepts, and each of its six text fields is a
    string or is missing. *)
Definition row_worthy (env : Scraper.Env) (ev : JsVal) : Prop :=
  exists kv ts secs,
    ev = JDict kv
    /\ Js.get "dateline" kv = Some ts
    /\ Js.truthy ts = true
    /\ Scraper.as_seconds ts = ok secs
    /\ is_ok (datetime.fromtimestamp (Scraper.utcoffset env) secs) = true
    /\ Forall (fun key => text_field key kv)
         ["name"; "currency"; "impactTitle"; "actual"; "forecast"; "previous"].

(** A day of the embedded state in its expected shape: an object whose
    [date] is a string (or missing) and whose [events] is a list (or
    missing); and the raw events it lists. *)
Definition day_shape (d : JsVal) : Prop :=
  exists kv,
    d = JDict kv
    /\ text_field "date" kv
    /\ (Js.get "events" kv = None \/ exists l, Js.get "events" kv = Some (JList l)).

Definition raw_events (d : JsVal) : list JsVal :=
  match d with
  | JDict kv =>
      match Js.get "events" kv with
      | Some (JList l) => l
      | _ => []
      end
  | _ => []
  end.

(** The text of the last date cell among [rows], if any row has one. *)
Definition last_heading (rows : list Scraper.DomRow) : option string :=
  last (omap Scraper.date_cell rows).

(** No character of the string is whitespace. *)
Fixpoint no_space (s : string) : bool :=
  match s with
  | EmptyString => true
  | String c s' => negb (PyStr.isspace c) && no_space s'
  end.

(** Every character of the string passes the test. *)
Fixpoint all_chars (p : ascii -> bool) (s : string) : bool :=
  match s with
  | EmptyString => true
  | String c s' => p c && all_chars p s'
  end.

(** One of [0-9a-f]. *)
Definition is_hex_digit (c : ascii) : bool :=
  let n := PyStr.code c in
  ((48 <=? n) && (n <=? 57)) || ((97 <=? n) && (n <=? 102)).

(** The shape of an MD5 [hexdigest()]: 32 lowercase hexadecimal digits. *)
Definition is_md5_text (s : string) : bool :=
  (String.length s =? 32)%nat && all_chars is_hex_digit s.

(** The row with the identity key that [parse_calendar_html_json] gives it. *)
Definition rekey_json (e : Scraper.Event) : Scraper.Event :=
  Scraper.mkEvent (Scraper.timestamp e) (Scraper.currency e) (Scraper.impact e)
    (Scraper.event e) (Scraper.actual e) (Scraper.forecast e) (Scraper.previous e)
    (Scraper.day e)
    (Scraper.json_id (Scraper.timestamp e) (Scraper.currency e) (Scraper.event e)
       (Scraper.actual e) (Scraper.forecast e) (Scraper.previous e)).

(** A decoded state with its days under the key [1]: one named event and
    one event whose [dateline] is zero; and a page that carries it. *)
Definition nested_state : list (string * JsVal) :=
  [("1", JDict [("days",
                 JList [JDict [("date", JStr "Mon Jul 8");
                               ("events",
                                JList [JDict (named_event "0.3%");
                                       JDict [("dateline", JNum 0);
                                              ("name", JStr "Bank Holiday")]])]])])].

Definition nested_state_page : Scraper.Page :=
  Scraper.mkPage
    "<script>window.calendarComponentStates[1] = {1: {days: [...]}};</script>"
    (Some (JDict nested_state)) [].

(** Rows of a tagged table with prices in points, and the default
    settings of the labelling script in the same unit. *)
Definition tagged_row (high low close : Z) (news : option (string * string * Z))
  : @Filters.Row Z :=
  match news with
  | Some (impact, currency, minutes) =>
      Filters.mkRow high low close (Some impact) (Some currency) (Some minutes)
  | None => Filters.mkRow high low close None None None
  end.

Definition default_filters : @Filters.Settings Z :=
  Filters.mkSettings ["Medium"; "High"] 60 30.

Definition three_rows : list (@Filters.Row Z) :=
  [tagged_row 108500 108440 108470 (Some ("High", "USD", 15));
   tagged_row 108520 108450 108500 None;
   tagged_row 108610 108500 108600 (Some ("Medium", "EUR", -30))].

(** The text of a date cell, when the row has one that is not blank. *)
Definition date_text (tr : Fallback.Tr) : option string :=
  match Fallback.date_td tr with
  | Some text =>
      if PyStr.nonempty (PyStr.strip text) then Some (PyStr.strip text) else None
  | None => None
  end.

(** The last date read among [trs]. *)
Definition last_date (trs : list Fallback.Tr) : option string :=
  last (omap date_text trs).

(** Two days of a calendar table: the same event name and currency on
    Monday and on Tuesday, the second row of Monday without a date cell. *)
Definition fallback_tr (date : option string) (time currency name actual : string)
  : Fallback.Tr :=
  Fallback.mkTr date (Some time) (Some currency)
    (Some (Fallback.mkImpact ["calendar_cell"; "calendar_impact"] (Some (Some "High Impact Expected"))))
    (Some (Some name)) (Some actual) (Some "") (Some "").

Definition two_days_table : list Fallback.Tr :=
  [fallback_tr (Some " Mon Jul 1 ") "8:30am" "USD" "Fed Chair Speaks" "";
   fallback_tr None "10:00am" "EUR" "CPI y/y" "2.5%";
   fallback_tr (Some "Tue Jul 2") "9:15am" "USD" "Fed Chair Speaks" ""].

(** The integers [z, z + 1, ..], [n] of them. *)
Fixpoint zrange (n : nat) (z : Z) : list Z :=
  match n with
  | O => []
  | S n' => z :: zrange n' (z + 1)
  end.

(** The day [doe] of a 400-year era, taken apart as [civil_from_days]
    does and put together as [days_from_civil] does, comes back, with
    the year of the era, the shifted month and the day in their ranges. *)
Definition era_day_ok (doe : Z) : bool :=
  let yoe := (doe - doe / 1460 + doe / 36524 - doe / 146096) / 365 in
  let doy := doe - (365 * yoe + yoe / 4 - yoe / 100) in
  let mp := (5 * doy + 2) / 153 in
  let d := doy - (153 * mp + 2) / 5 + 1 in
  (0 <=? yoe) && (yoe <=? 399) && (0 <=? mp) && (mp <=? 11)
  && (1 <=? d) && (d <=? 31)
  && (yoe * 365 + yoe / 4 - yoe / 100 + ((153 * mp + 2) / 5 + d - 1) =? doe).

(** A terminal that knows two symbols, one of them without candles in
    the range asked for; candles are numbers here and the frame is the
    list of them. *)
Definition demo_terminal : @Ingest.Terminal (list Z) :=
  Ingest.mkTerminal true
    (fun symbol _ _ _ =>
       if String.eqb symbol "EURUSDm" then Some [108470; 108500]
       else if String.eqb symbol "USDJPYm" then Some []
       else None).

Definition no_candles (rates : list Z) : bool :=
  match rates with [] => true | _ => false end.

Definition empty_desk : @Ingest.World (list Z) := Ingest.mkWorld ∅ [] false.

(** The text of the year [z] is four digits that [%Y] reads back as [z]. *)
Definition year_text_ok (z : Z) : bool :=
  match strptime.dir_Y (PyStr.of_int z) with
  | Some (y, EmptyString) => (y =? z) && (String.length (PyStr.of_int z) =? 4)%nat
                             && no_space (PyStr.of_int z) && negb (ends_m (PyStr.of_int z))
  | _ => false
  end.

(** The input does not begin with whitespace. *)
Definition clean (s : string) : bool :=
  match s with
  | EmptyString => true
  | String c _ => negb (PyStr.isspace c)
  end.

(** The week of day [d] has no table in the data directory of [w]. *)
Definition uncached (w : Campaign.World) (d : Z) : bool :=
  match Campaign.calendar w !! Campaign.week_csv (datetime.of_days d) with
  | Some _ => false
  | None => true
  end.

(** The civil fields of a timestamp, from the year down to the second. *)
Definition fields (x : datetime.t) : list Z :=
  [datetime.year x; datetime.month x; datetime.day x;
   datetime.hour x; datetime.minute x; datetime.second x].

(** Which of two lists of numbers comes first, the earlier places
    deciding. *)
Fixpoint lex_compare (a b : list Z) : comparison :=
  match a, b with
  | x :: a', y :: b' =>
      match x ?= y with
      | Eq => lex_compare a' b'
      | c => c
      end
  | _, _ => Eq
  end.

(** A timestamp that [str] prints in its fixed width: four digits for
    the year, two for every other field. *)
Definition printable (x : datetime.t) : Prop :=
  0 <= datetime.year x <= 9999
  /\ 0 <= datetime.month x <= 99 /\ 0 <= datetime.day x <= 99
  /\ 0 <= datetime.hour x <= 99 /\ 0 <= datetime.minute x <= 99
  /\ 0 <= datetime.second x <= 99.

(** Not later, by the civil fields. *)
Definition not_later (a b : datetime.t) : Prop :=
  lex_compare (fields a) (fields b) <> Gt.

(** The two-digit texts of [x] and of every [y] below 100 stand in the
    order of the numbers. *)
Definition pad2_order_ok (x : Z) : bool :=
  forallb (fun y => match String.compare (PyStr.pad2 x) (PyStr.pad2 y), x ?= y with
                    | Eq, Eq | Lt, Lt | Gt, Gt => true
                    | _, _ => false
                    end) (zrange (Z.to_nat 100) 0).



(** An impact cell that is a string with at least one word. *)
Definition worded (c : Align.Cell) : Prop :=
  exists s first rest, c = Align.Text s /\ PyStr.split s = first :: rest.



(** The text of a timestamp in a persisted table: the date alone when
    the column is printed as dates only. *)
Definition stamp_text (short : bool) (x : datetime.t) : string :=
  if short then datetime.iso_date x else datetime.str x.

(** The clock part of [str(x)]. *)
Definition clock_text (x : datetime.t) : string :=
  " " +:+ PyStr.pad2 (datetime.hour x) +:+ ":" +:+ PyStr.pad2 (datetime.minute x)
    +:+ ":" +:+ PyStr.pad2 (datetime.second x).

(** A row as [scrape_week] writes it: the timestamp cell is the text of
    a timestamp, or of its date when it is at midnight, and the
    [event_id] is the text of an MD5 digest. *)
Definition scraped_row (r : Campaign.CsvRow) : Prop :=
  is_md5_text (Campaign.c_event_id r) = true
  /\ exists short x,
       printable x
       /\ (short = true -> Campaign.midnight x = true)
       /\ Campaign.c_timestamp r = stamp_text short x.

(** * Properties *)

(** ** The primitives agree with CPython on samples *)

Example md5_empty : MD5.hexdigest "" = "d41d8cd98f00b204e9800998ecf8427e".
Proof. vm_compute. reflexivity. Qed.

Example md5_abc : MD5.hexdigest "abc" = "900150983cd24fb0d6963f7d28e17f72".
Proof. vm_compute. reflexivity. Qed.

Example md5_fox :
  MD5.hexdigest "The quick brown fox jumps over the lazy dog"
  = "9e107d9d372bb6826bd81d3542a419d6".
Proof. vm_compute. reflexivity. Qed.

Example strip_example : PyStr.strip "  High Impact  " = "High Impact".
Proof. reflexivity. Qed.

Example split_example :
  PyStr.split " High  Impact Expected " = ["High"; "Impact"; "Expected"].
Proof. reflexivity. Qed.

(** On a machine on UTC: the last second of 9999, the first second of
    10000, and the first and second day of year 1. *)
Example fromtimestamp_range :
  datetime.fromtimestamp (fun _ => 0) 253402300799 = ok (datetime.mk 9999 12 31 23 59 59)
  /\ is_ok (datetime.fromtimestamp (fun _ => 0) 253402300800) = false
  /\ is_ok (datetime.fromtimestamp (fun _ => 0) (-62135596800)) = false
  /\ is_ok (datetime.fromtimestamp (fun _ => 0) (-62135510401)) = false
  /\ datetime.fromtimestamp (fun _ => 0) (-62135510400) = ok (datetime.mk 1 1 2 0 0 0).
Proof. vm_compute. auto. Qed.

(** ** Strings *)

Lemma append_assoc (a b c : string) : (a +:+ b) +:+ c = a +:+ (b +:+ c).
Proof.
  induction a as [|x a IH]; [reflexivity|].
  change (String x ((a +:+ b) +:+ c) = String x (a +:+ (b +:+ c))). by f_equal.
Qed.

Lemma last_char_app (a b : string) :
  b <> EmptyString -> last_char (a +:+ b) = last_char b.
Proof.
  intros Hb. induction a as [|c a IH]; [reflexivity|].
  change (String c a +:+ b) with (String c (a +:+ b)).
  simpl. rewrite IH.
  destruct (a +:+ b) eqn:E; [|reflexivity].
  destruct a; [simpl in E; contradiction | discriminate].
Qed.

Lemma ends_m_app (a b : string) : ends_m b = true -> ends_m (a +:+ b) = true.
Proof.
  intros H. unfold ends_m in *.
  rewrite last_char_app; [exact H|].
  intros ->. discriminate.
Qed.

Lemma lstrip_suffix (s : string) : exists pre, s = pre +:+ PyStr.lstrip s.
Proof.
  induction s as [|c s [pre IH]]; [by exists ""|].
  simpl. destruct (PyStr.isspace c).
  - exists (String c pre).
    change (String c s = String c (pre +:+ PyStr.lstrip s)). by f_equal.
  - by exists "".
Qed.

(** ** What the repair of a fused heading does *)

Lemma unfuse_idem (d : string) : Scraper.unfuse (Scraper.unfuse d) = Scraper.unfuse d.
Proof.
  destruct d as [|a [|b [|c [|x d]]]]; try reflexivity.
  set (s := String a (String b (String c (String x d)))).
  assert (Hs : Scraper.unfuse s =
               if (6 <=? String.length s)%nat && negb (PyStr.isspace x)
               then String a (String b (String c (String " " (String x d))))
               else s) by reflexivity.
  rewrite Hs. destruct (_ && _); [|exact Hs].
  unfold Scraper.unfuse. cbn [String.get Nat.eqb].
  replace (PyStr.isspace " ") with true by reflexivity.
  by rewrite andb_false_r.
Qed.

Lemma unfuse_spaced (a b c : ascii) (s : string) :
  Scraper.unfuse (String a (String b (String c (String " " s))))
  = String a (String b (String c (String " " s))).
Proof.
  unfold Scraper.unfuse. cbn [String.get Nat.eqb].
  replace (PyStr.isspace " ") with true by reflexivity.
  by rewrite andb_false_r.
Qed.

(** ** The directives of [strptime] consume a prefix of their input *)

Ltac split_off :=
  first [ by exists EmptyString
        | by eexists (String _ EmptyString)
        | by eexists (String _ (String _ EmptyString))
        | by eexists (String _ (String _ (String _ EmptyString)))
        | by eexists (String _ (String _ (String _ (String _ EmptyString)))) ].

Lemma suffixing_ws1 : suffixing strptime.ws1.
Proof.
  intros [|c s] a s' H; simpl in H; [discriminate|].
  destruct (PyStr.isspace c); [|discriminate].
  injection H as _ <-. destruct (lstrip_suffix s) as [pre Hpre].
  exists (String c pre).
  change (String c s = String c (pre +:+ PyStr.lstrip s)). by f_equal.
Qed.

Lemma suffixing_lit_ci (p : string) : suffixing (strptime.lit_ci p).
Proof.
  induction p as [|c p IH]; intros s a s' H; simpl in H.
  - injection H as _ <-. by exists "".
  - destruct s as [|b s]; [discriminate|].
    destruct (Ascii.eqb _ _); [|discriminate].
    destruct (IH _ _ _ H) as [pre ->]. by exists (String b pre).
Qed.

Lemma suffixing_one_of (names : list string) (i : Z) :
  suffixing (strptime.one_of names i).
Proof.
  revert i. induction names as [|n names IH]; intros i s a s' H; simpl in H.
  - discriminate.
  - destruct (strptime.lit_ci n s) as [[u s1]|] eqn:E.
    + injection H as _ <-. exact (suffixing_lit_ci n _ _ _ E).
    + exact (IH _ _ _ _ H).
Qed.

Lemma suffixing_dir_d : suffixing strptime.dir_d.
Proof.
  intros s a s' H. unfold strptime.dir_d in H.
  destruct s as [|x [|y s]]; [discriminate| |];
    repeat match type of H with
           | (if ?c then _ else _) = _ => destruct c
           end;
    try discriminate; injection H as _ <-; split_off.
Qed.

Lemma suffixing_dir_Y : suffixing strptime.dir_Y.
Proof.
  intros s a s' H. unfold strptime.dir_Y in H.
  destruct s as [|x [|y [|z [|u s]]]]; try discriminate.
  destruct (_ && _); [|discriminate]. injection H as _ <-. split_off.
Qed.

Lemma suffixing_dir_I : suffixing strptime.dir_I.
Proof.
  intros s a s' H. unfold strptime.dir_I in H.
  destruct s as [|x [|y s]]; [discriminate| |];
    repeat match type of H with
           | (if ?c then _ else _) = _ => destruct c
           end;
    try discriminate; injection H as _ <-; split_off.
Qed.

Lemma suffixing_dir_M : suffixing strptime.dir_M.
Proof.
  intros s a s' H. unfold strptime.dir_M in H.
  destruct s as [|x [|y s]]; [discriminate| |];
    repeat match type of H with
           | (if ?c then _ else _) = _ => destruct c
           end;
    try discriminate; injection H as _ <-; split_off.
Qed.

Lemma suffixing_bind {A B} (p : strptime.parser A) (k : A -> strptime.parser B) :
  suffixing p -> (forall a, suffixing (k a)) -> suffixing (strptime.bind p k).
Proof.
  intros Hp Hk s b s' H. unfold strptime.bind in H.
  destruct (p s) as [[a s1]|] eqn:E; [|discriminate].
  destruct (Hp _ _ _ E) as [pre1 ->]. destruct (Hk _ _ _ _ H) as [pre2 ->].
  exists (pre1 +:+ pre2). by rewrite append_assoc.
Qed.

Lemma suffixing_ret {A} (a : A) : suffixing (strptime.ret a).
Proof. intros s b s' H. injection H as _ <-. by exists "". Qed.

Lemma suffixing_date_part : suffixing strptime.date_part.
Proof.
  unfold strptime.date_part.
  repeat (apply suffixing_bind; [|intros ?]);
    auto using suffixing_ws1, suffixing_dir_d, suffixing_dir_Y, suffixing_ret.
  - apply suffixing_one_of.
  - apply suffixing_one_of.
Qed.

Lemma closes_bind {A B} (p : strptime.parser A) (k : A -> strptime.parser B) :
  suffixing p -> (forall a, closes_with_m (k a)) -> closes_with_m (strptime.bind p k).
Proof.
  intros Hp Hk s b H. unfold strptime.bind in H.
  destruct (p s) as [[a s1]|] eqn:E; [|discriminate].
  destruct (Hp _ _ _ E) as [pre ->]. apply ends_m_app. exact (Hk _ _ _ H).
Qed.

Lemma lit_ci_two (a b : ascii) (s s' : string) :
  strptime.lit_ci (String a (String b EmptyString)) s = Some (tt, s') ->
  exists x y, s = String x (String y s') /\ PyStr.lower b = PyStr.lower y.
Proof.
  destruct s as [|x [|y s]]; cbn [strptime.lit_ci]; intros H.
  - discriminate.
  - destruct (Ascii.eqb _ _); discriminate.
  - destruct (Ascii.eqb (PyStr.lower a) (PyStr.lower x)); [|discriminate].
    destruct (Ascii.eqb (PyStr.lower b) (PyStr.lower y)) eqn:E; [|discriminate].
    injection H as <-. apply Ascii.eqb_eq in E. eauto.
Qed.

Lemma closes_dir_p {B} (f : bool -> B) :
  closes_with_m (strptime.bind strptime.dir_p (fun pm => strptime.ret (f pm))).
Proof.
  intros s b H. unfold strptime.bind in H.
  destruct (strptime.dir_p s) as [[pm s1]|] eqn:E; [|discriminate].
  unfold strptime.ret in H. injection H as _ ->.
  unfold strptime.dir_p in E.
  destruct (strptime.lit_ci "am" s) as [[[] s2]|] eqn:E1.
  - injection E as _ ->. apply lit_ci_two in E1 as (x & y & -> & Hy).
    unfold ends_m. cbn [last_char]. by rewrite <- Hy.
  - destruct (strptime.lit_ci "pm" s) as [[[] s2]|] eqn:E2; [|discriminate].
    injection E as _ ->. apply lit_ci_two in E2 as (x & y & -> & Hy).
    unfold ends_m. cbn [last_char]. by rewrite <- Hy.
Qed.

(** A clock time is read only from an input that ends in am or pm. *)
Lemma date_time_ends_m (s : string) (ts : datetime.t) :
  strptime.date_time s = inr ts -> ends_m s = true.
Proof.
  unfold strptime.date_time. intros H.
  match type of H with
  | match strptime.complete (?p s) with _ => _ end = _ =>
      assert (Hc : closes_with_m p)
  end.
  { apply closes_bind; [apply suffixing_date_part|]; intros ?.
    apply closes_bind; [apply suffixing_ws1|]; intros ?.
    apply closes_bind; [apply suffixing_dir_I|]; intros ?.
    apply closes_bind; [apply suffixing_lit_ci|]; intros ?.
    apply closes_bind; [apply suffixing_dir_M|]; intros ?.
    apply closes_dir_p. }
  unfold strptime.complete in H.
  match type of H with
  | match (match ?r with _ => _ end) with _ => _ end = _ => destruct r as [[a [|c s1]]|] eqn:E
  end; try discriminate.
  exact (Hc _ _ E).
Qed.

Lemma date_time_raises (s : string) (e : exn) :
  strptime.date_time s = inl e -> exists msg, e = ValueError msg.
Proof.
  unfold strptime.date_time, strptime.build, strptime.mismatch,
    strptime.out_of_range, raise, ok.
  intros H.
  repeat match type of H with
         | match ?x with _ => _ end = _ => destruct x
         | (if ?c then _ else _) = _ => destruct c
         | (let '(_, _) := ?x in _) = _ => destruct x
         end; try discriminate; injection H as <-; eauto.
Qed.

Lemma date_only_midnight (s : string) (ts : datetime.t) :
  strptime.date_only s = inr ts ->
  datetime.hour ts = 0 /\ datetime.minute ts = 0 /\ datetime.second ts = 0.
Proof.
  unfold strptime.date_only, strptime.build, raise, ok. intros H.
  repeat match type of H with
         | match ?x with _ => _ end = _ => destruct x
         | (if ?c then _ else _) = _ => destruct c
         | (let '(_, _) := ?x in _) = _ => destruct x
         end; try discriminate; injection H as <-; auto.
Qed.

(** ** Day headings and times in the DOM-table strategy *)

Lemma dom_rows_app (wd : option datetime.t) (cur : string)
    (l1 l2 : list Scraper.DomRow) :
  Scraper.dom_rows wd cur (l1 ++ l2)
  = Scraper.dom_rows wd cur l1
      ++ Scraper.dom_rows wd (fold_left Scraper.next_day l1 cur) l2.
Proof.
  revert cur. induction l1 as [|r l1 IH]; intros cur; [reflexivity|].
  cbn [app Scraper.dom_rows fold_left].
  destruct (Scraper.dom_row_event wd (Scraper.next_day cur r) r);
    rewrite IH; reflexivity.
Qed.

(** An "All Day" row falls back to the date alone. *)
Lemma parse_calendar_time_all_day (wd : datetime.t) (day_str : string) :
  Scraper.parse_calendar_time (Some wd) day_str "All Day"
  = match strptime.date_only
            (Scraper.unfuse day_str +:+ " " +:+ PyStr.of_int (datetime.year wd)) with
    | inr ts => ok ts
    | inl _ => raise (RuntimeError "Failed to parse date")
    end.
Proof.
  unfold Scraper.parse_calendar_time. rewrite unfuse_idem.
  destruct (strptime.date_time _) as [e|ts] eqn:E.
  - destruct (date_time_raises _ _ E) as [msg ->]. reflexivity.
  - apply date_time_ends_m in E.
    rewrite <- !append_assoc in E. unfold ends_m in E.
    rewrite last_char_app in E by discriminate. discriminate.
Qed.

(** C6, as stated, fails: the heading ["MonJul01"] of the claim is not
    parsed.  After the repair it reads ["Mon Jul01"], and the date format
    wants a blank between the month and the day number, so both attempts
    of [parse_calendar_time] fail and it raises. *)
Lemma C6_fully_fused_heading_is_rejected :
  Scraper.parse_calendar_time (Some week_2024) "MonJul01" ""
    = inl (RuntimeError "Failed to parse date")
  /\ Scraper.parse_calendar_time (Some week_2024) "MonJul01" "8:30am"
    = inl (RuntimeError "Failed to parse date")
  /\ Scraper.parse_calendar_time (Some week_2024) "Mon Jul01" ""
    = inl (RuntimeError "Failed to parse date").
Proof. repeat split; vm_compute; reflexivity. Qed.

(** C6, amended: the repair puts one blank after a three-letter weekday
    that is followed by a non-blank, so a fused heading parses exactly as
    the spaced one; for a week anchored in 2024, ["MonJul 01"] parses as
    ["Mon Jul 01"] and gives 2024-07-01 (midnight when the time is blank
    or "All Day"), while ["MonJul01"] is rejected whatever the time. *)
Theorem C6_fusion_repair (wd : datetime.t) (time_str : string) :
  datetime.year wd = 2024 ->
  (forall a b c x rest,
      PyStr.isspace x = false -> (2 <= String.length rest)%nat ->
      Scraper.parse_calendar_time (Some wd)
        (String a (String b (String c (String x rest)))) time_str
      = Scraper.parse_calendar_time (Some wd)
          (String a (String b (String c (String " " (String x rest))))) time_str)
  /\ Scraper.parse_calendar_time (Some wd) "MonJul 01" time_str
     = Scraper.parse_calendar_time (Some wd) "Mon Jul 01" time_str
  /\ Scraper.parse_calendar_time (Some wd) "MonJul 01" ""
     = ok (datetime.mk 2024 7 1 0 0 0)
  /\ Scraper.parse_calendar_time (Some wd) "MonJul 01" "All Day"
     = ok (datetime.mk 2024 7 1 0 0 0)
  /\ Scraper.parse_calendar_time (Some wd) "MonJul 01" "8:30am"
     = ok (datetime.mk 2024 7 1 8 30 0)
  /\ Scraper.parse_calendar_time (Some wd) "MonJul01" time_str
     = raise (RuntimeError "Failed to parse date").
Proof.
  intros Hy.
  assert (Hfix : forall a b c x rest,
             PyStr.isspace x = false -> (2 <= String.length rest)%nat ->
             Scraper.unfuse (String a (String b (String c (String x rest))))
             = String a (String b (String c (String " " (String x rest))))).
  { intros a b c x rest Hx Hlen. unfold Scraper.unfuse. cbn [String.get Nat.eqb].
    rewrite Hx. cbn [String.length negb].
    destruct rest as [|r1 [|r2 rest]]; cbn in Hlen; try lia. reflexivity. }
  split; [|destruct wd; cbn in Hy; subst; repeat split; vm_compute; reflexivity].
  intros a b c x rest Hx Hlen. unfold Scraper.parse_calendar_time.
  rewrite (Hfix _ _ _ _ _ Hx Hlen), !unfuse_spaced. reflexivity.
Qed.

(** The amended C6 on the heading of the week of 1 July 2024. *)
Lemma C6_fusion_repair_witness :
  Scraper.parse_calendar_time (Some week_2024) "MonJul 01" "All Day"
  = ok (datetime.mk 2024 7 1 0 0 0).
Proof.
  exact (proj1 (proj2 (proj2 (proj2 (C6_fusion_repair week_2024 "All Day" eq_refl))))).
Defined.

(** C7, as stated, fails: a row whose time cell is blank is dropped even
    though it inherits a day heading; of the two rows of [dom_two_rows]
    only the first is returned. *)
Lemma C7_blank_time_row_is_skipped :
  inherited_day (firstn 1 (Scraper.calendar_rows dom_two_rows)) = "MonJul 1"
  /\ map Scraper.event (Scraper.parse_calendar_dom dom_two_rows (Some week_2024))
     = ["CPI m/m"].
Proof. split; vm_compute; reflexivity. Qed.

(** C7, amended: with the day heading [day] in force at a row,
    - a row whose time is blank, or for which no heading is in force, is
      skipped;
    - a row whose time is "All Day" under a heading that reads as a date
      of the anchor year is kept, with that date at midnight as its
      timestamp and the heading as its day. *)
Theorem C7_dom_row_time (html : Scraper.Page) (wd : datetime.t)
    (before after : list Scraper.DomRow) (row : Scraper.DomRow) :
  Scraper.calendar_rows html = before ++ row :: after ->
  let day := Scraper.next_day (inherited_day before) row in
  let others_before := Scraper.dom_rows (Some wd) "" before in
  let others_after := Scraper.dom_rows (Some wd) day after in
  (Scraper.text_or_empty (Scraper.time_cell row) = "" \/ day = "" ->
   Scraper.parse_calendar_dom html (Some wd) = others_before ++ others_after)
  /\ (forall ts,
        Scraper.time_cell row = Some "All Day" -> day <> "" ->
        strptime.date_only
          (Scraper.unfuse day +:+ " " +:+ PyStr.of_int (datetime.year wd)) = inr ts ->
        exists e,
          Scraper.parse_calendar_dom html (Some wd)
            = others_before ++ e :: others_after
          /\ Scraper.timestamp e = ts /\ Scraper.day e = day
          /\ datetime.hour ts = 0 /\ datetime.minute ts = 0
          /\ datetime.second ts = 0).
Proof.
  intros Hrows day others_before others_after.
  unfold Scraper.parse_calendar_dom. rewrite Hrows, dom_rows_app.
  cbn [Scraper.dom_rows]. fold (inherited_day before). fold day.
  fold others_before. fold others_after.
  split.
  - intros Hskip. replace (Scraper.dom_row_event (Some wd) day row) with (@None Scraper.Event);
      [reflexivity|].
    unfold Scraper.dom_row_event. destruct Hskip as [-> | ->]; [reflexivity|].
    by rewrite orb_true_r.
  - intros ts Htime Hday Hdate.
    unfold Scraper.dom_row_event. rewrite Htime. cbn [Scraper.text_or_empty].
    replace (PyStr.nonempty "All Day") with true by reflexivity.
    assert (Hne : PyStr.nonempty day = true) by (by destruct day).
    rewrite Hne. cbn [negb orb].
    rewrite parse_calendar_time_all_day, Hdate. cbn [ok].
    eexists. split; [reflexivity|]. cbn. split; [reflexivity|]. split; [reflexivity|].
    exact (date_only_midnight _ _ Hdate).
Qed.

(** The amended C7 on a single "All Day" row with its own day heading. *)
Lemma C7_dom_row_time_witness :
  exists e,
    Scraper.parse_calendar_dom
      (Scraper.mkPage "" None
         [Scraper.mkRow (Some "All Day") (Some "MonJul 1") (Some "USD") None
            (Some "Bank Holiday") None None None])
      (Some week_2024) = [e]
    /\ Scraper.timestamp e = datetime.mk 2024 7 1 0 0 0.
Proof.
  destruct (proj2 (C7_dom_row_time
              (Scraper.mkPage "" None
                 [Scraper.mkRow (Some "All Day") (Some "MonJul 1") (Some "USD") None
                    (Some "Bank Holiday") None None None])
              week_2024 [] []
              (Scraper.mkRow (Some "All Day") (Some "MonJul 1") (Some "USD") None
                 (Some "Bank Holiday") None None None) eq_refl)
            (datetime.mk 2024 7 1 0 0 0) eq_refl ltac:(discriminate) eq_refl)
    as (e & He & Hts & _).
  exists e. split; [exact He | exact Hts].
Defined.

(** ** Event identity across revisions *)

(** Unfolding a chain of [try!] steps recorded in a hypothesis. *)
Ltac bind_inv H :=
  repeat match type of H with
         | rbind ?m _ = _ =>
             let E := fresh "E" in destruct m eqn:E; cbn [rbind] in H; try discriminate
         | match ?m with _ => _ end = _ =>
             let E := fresh "E" in destruct m eqn:E; try discriminate
         | (if ?c then _ else _) = _ =>
             let E := fresh "E" in destruct c eqn:E; try discriminate
         end.

Lemma get_stripped_revision (kv kv' : list (string * JsVal)) (key : string) :
  revision_of kv kv' ->
  key <> "actual" -> key <> "forecast" -> key <> "previous" ->
  Js.get_stripped key kv = Js.get_stripped key kv'.
Proof. intros H ? ? ?. unfold Js.get_stripped. by rewrite (H key). Qed.

(** What an event built by [parse_calendar_html] was built from. *)
Lemma html_event_fields (env : Scraper.Env) (d : string)
    (kv : list (string * JsVal)) (e : Scraper.Event) :
  Scraper.html_event env d (JDict kv) = Some e ->
  exists ts secs,
    Js.get "dateline" kv = Some ts
    /\ Scraper.as_seconds ts = ok secs
    /\ datetime.fromtimestamp (Scraper.utcoffset env) secs = ok (Scraper.timestamp e)
    /\ Js.get_stripped "name" kv = ok (Scraper.event e)
    /\ Js.get_stripped "currency" kv = ok (Scraper.currency e)
    /\ Scraper.event_id e
       = Scraper.html_id (Scraper.timestamp e) (Scraper.currency e) (Scraper.event e).
Proof.
  unfold Scraper.html_event. intros H.
  destruct (Scraper.html_event_try env d (JDict kv)) as [|r] eqn:E; [discriminate|].
  subst r. unfold Scraper.html_event_try in E.
  destruct (Js.get "dateline" kv) as [ts|] eqn:Ets; [|discriminate].
  destruct (negb (Js.truthy ts)); [discriminate|].
  bind_inv E. unfold ok in E. injection E as <-. cbn. eauto 10.
Qed.

(** What an event built by [parse_calendar_html_json] was built from. *)
Lemma json_event_fields (env : Scraper.Env) (d : string)
    (kv : list (string * JsVal)) (e : Scraper.Event) :
  Scraper.json_event env d (JDict kv) = Some e ->
  exists ts secs,
    Js.get "dateline" kv = Some ts
    /\ Scraper.as_seconds ts = ok secs
    /\ datetime.fromtimestamp (Scraper.utcoffset env) secs = ok (Scraper.timestamp e)
    /\ Js.get_stripped "name" kv = ok (Scraper.event e)
    /\ Js.get_stripped "currency" kv = ok (Scraper.currency e)
    /\ Scraper.event_id e
       = Scraper.json_id (Scraper.timestamp e) (Scraper.currency e) (Scraper.event e)
           (Scraper.actual e) (Scraper.forecast e) (Scraper.previous e).
Proof.
  unfold Scraper.json_event. intros H.
  destruct (Scraper.json_event_try env d (JDict kv)) as [|r] eqn:E; [discriminate|].
  injection H as ->. unfold Scraper.json_event_try, Js.item in E.
  destruct (Js.get "dateline" kv) as [ts|] eqn:Ets; [|discriminate].
  cbn [rbind ok] in E.
  bind_inv E. unfold ok in E. injection E as <-. cbn. eauto 10.
Qed.

(** C2, as stated, fails for [parse_calendar_html_json]: an event without
    a name is keyed on its actual/forecast/previous values, so a revised
    actual value gives the same event another key. *)
Lemma C2_unnamed_event_key_follows_actual :
  revision_of (unnamed_event "0.3%") (unnamed_event "0.4%")
  /\ (Scraper.event_id <$> Scraper.json_event utc_env "Mon Jul 1" (JDict (unnamed_event "0.3%")))
     = Some "7875a6bca77506a73b4b5a5814645c71"
  /\ (Scraper.event_id <$> Scraper.json_event utc_env "Mon Jul 1" (JDict (unnamed_event "0.4%")))
     = Some "a58fab11386dbe6a74c8e2457a79adfc".
Proof.
  split; [|split; vm_compute; reflexivity].
  intros key Ha Hf Hp. unfold unnamed_event. cbn [Js.get].
  repeat match goal with
         | |- context [String.eqb ?k key] =>
             destruct (String.eqb_spec k key) as [<-|?]; try reflexivity; try contradiction
         end.
Qed.

(** C2, amended: the key is a function of the timestamp, the currency
    and the name or its stand-in; in [parse_calendar_html] it never
    changes when only actual/forecast/previous change; in
    [parse_calendar_html_json] the same holds for events that have a
    name, while an event without a name is keyed on those three values. *)
Theorem C2_identity_key_under_revision :
  (forall ts cur name ts' cur' name',
      ts = ts' -> cur = cur' -> name = name' ->
      Scraper.identity_key ts cur name = Scraper.identity_key ts' cur' name')
  /\ (forall env d d' kv kv' e e',
        revision_of kv kv' ->
        Scraper.html_event env d (JDict kv) = Some e ->
        Scraper.html_event env d' (JDict kv') = Some e' ->
        Scraper.event_id e = Scraper.event_id e')
  /\ (forall env d d' kv kv' e e',
        revision_of kv kv' ->
        Scraper.json_event env d (JDict kv) = Some e ->
        Scraper.json_event env d' (JDict kv') = Some e' ->
        Scraper.event e <> "" ->
        Scraper.event_id e = Scraper.event_id e')
  /\ (forall ts cur a f p,
        Scraper.json_id ts cur "" a f p
        = Scraper.identity_key ts cur
            ("actual:" +:+ a +:+ "|forecast:" +:+ f +:+ "|previous:" +:+ p)).
Proof.
  split; [by intros; subst|].
  assert (Hsame : forall env kv kv' ts ts' secs secs' t t',
             revision_of kv kv' ->
             Js.get "dateline" kv = Some ts -> Js.get "dateline" kv' = Some ts' ->
             Scraper.as_seconds ts = ok secs -> Scraper.as_seconds ts' = ok secs' ->
             datetime.fromtimestamp (Scraper.utcoffset env) secs = ok t ->
             datetime.fromtimestamp (Scraper.utcoffset env) secs' = ok t' ->
             t = t').
  { intros env kv kv' ts ts' secs secs' t t' Hrev H1 H2 H3 H4 H5 H6.
    rewrite (Hrev "dateline") in H1 by discriminate.
    rewrite H1 in H2. injection H2 as <-. rewrite H3 in H4. injection H4 as <-.
    rewrite H5 in H6. by injection H6. }
  split; [|split].
  - intros env d d' kv kv' e e' Hrev He He'.
    apply html_event_fields in He as (ts & secs & H1 & H2 & H3 & Hn & Hc & ->).
    apply html_event_fields in He' as (ts' & secs' & H1' & H2' & H3' & Hn' & Hc' & ->).
    rewrite (get_stripped_revision kv kv' "name" Hrev) in Hn by discriminate.
    rewrite (get_stripped_revision kv kv' "currency" Hrev) in Hc by discriminate.
    rewrite Hn in Hn'. injection Hn' as ->. rewrite Hc in Hc'. injection Hc' as ->.
    by rewrite (Hsame _ _ _ _ _ _ _ _ _ Hrev H1 H1' H2 H2' H3 H3').
  - intros env d d' kv kv' e e' Hrev He He' Hname.
    apply json_event_fields in He as (ts & secs & H1 & H2 & H3 & Hn & Hc & ->).
    apply json_event_fields in He' as (ts' & secs' & H1' & H2' & H3' & Hn' & Hc' & ->).
    rewrite (get_stripped_revision kv kv' "name" Hrev) in Hn by discriminate.
    rewrite (get_stripped_revision kv kv' "currency" Hrev) in Hc by discriminate.
    rewrite Hn in Hn'. injection Hn' as Hn'. rewrite Hc in Hc'. injection Hc' as Hc'.
    rewrite <- Hn', <- Hc', <- (Hsame _ _ _ _ _ _ _ _ _ Hrev H1 H1' H2 H2' H3 H3').
    unfold Scraper.json_id, PyStr.or_else.
    destruct (Scraper.event e); [contradiction|reflexivity].
  - intros. reflexivity.
Qed.

Lemma named_event_revision (a a' : string) :
  revision_of (named_event a) (named_event a').
Proof.
  intros key Ha Hf Hp. unfold named_event. cbn [Js.get].
  repeat match goal with
         | |- context [String.eqb ?k key] =>
             destruct (String.eqb_spec k key) as [<-|?]; try reflexivity; try contradiction
         end.
Qed.

(** The amended C2 on a named event before and after its actual value is published. *)
Lemma C2_identity_key_under_revision_witness :
  Scraper.event_id (named_row "") = Scraper.event_id (named_row "0.3%").
Proof.
  apply (proj1 (proj2 (proj2 C2_identity_key_under_revision))
           utc_env "Mon Jul 1" "Mon Jul 1" (named_event "") (named_event "0.3%")).
  - apply named_event_revision.
  - vm_compute. reflexivity.
  - vm_compute. reflexivity.
  - discriminate.
Defined.

(** ** One strategy only: a failing state literal is raised, not bypassed *)

(** C1, as stated, fails: on this payload the DOM-table strategy would
    give one event, but [scrape_week] only runs [parse_calendar_html],
    whose [ValueError] it turns into a [RuntimeError] for its caller; no
    weekly table is written. *)
Lemma C1_no_fall_through_to_dom :
  Scraper.search_state (Scraper.source broken_state_page) = Some "{days: [}"
  /\ Scraper.script_value broken_state_page = None
  /\ map Scraper.event (Scraper.parse_calendar_dom broken_state_page (Some week_2024))
     = ["CPI m/m"]
  /\ Scraper.parse_calendar_html broken_state_env broken_state_page
     = inl (ValueError "Failed to parse calendar JS with js2py")
  /\ fst (Campaign.scrape_week broken_state_env week_2024 empty_world)
     = inl (RuntimeError "Failed to parse calendar. Saved HTML.")
  /\ Campaign.calendar (snd (Campaign.scrape_week broken_state_env week_2024 empty_world))
     = ∅.
Proof. repeat split; vm_compute; reflexivity. Qed.

Lemma load_page_keeps_files (env : Scraper.Env) (url : string) (attempts : list Z)
    (w w1 : Campaign.World) (r : option Scraper.Page) :
  Campaign.load_page env url attempts w = (r, w1) ->
  Campaign.calendar w1 = Campaign.calendar w
  /\ Campaign.files w1 = Campaign.files w
  /\ Campaign.drivers w1 = Campaign.drivers w.
Proof.
  revert w. induction attempts as [|a attempts IH]; intros w H; cbn in H.
  - by injection H as _ <-.
  - destruct (Scraper.browser env (length (Campaign.fetched w)) url).
    + by injection H as _ <-.
    + apply IH in H. exact H.
Qed.

(** C1, amended: [parse_calendar_html] does not look at the table markup
    of the payload; when the state literal is missing or [js2py] cannot
    evaluate it, it raises [ValueError]; and whenever it raises,
    [scrape_week] saves the page under [debug/], leaves the weekly
    tables as they were and raises [RuntimeError] to its caller. *)
Theorem C1_state_failure_is_raised (env : Scraper.Env) (html : Scraper.Page) :
  (forall rows,
      Scraper.parse_calendar_html env
        (Scraper.mkPage (Scraper.source html) (Scraper.script_value html) rows)
      = Scraper.parse_calendar_html env html)
  /\ (Scraper.search_state (Scraper.source html) = None
      \/ Scraper.script_value html = None ->
      exists msg, Scraper.parse_calendar_html env html = inl (ValueError msg))
  /\ (forall week_date w w1 e,
        Campaign.load_page env (Campaign.build_week_url week_date) [1; 2; 3]
          (Campaign.logger Campaign.INFO (Campaign.ScrapingWeek week_date) w)
        = (Some html, w1) ->
        Scraper.parse_calendar_html env html = inl e ->
        exists w',
          Campaign.scrape_week env week_date w
          = (inl (RuntimeError "Failed to parse calendar. Saved HTML."), w')
          /\ Campaign.calendar w' = Campaign.calendar w
          /\ Campaign.files w'
               !! ("debug/ff_calendar_" +:+ datetime.ymd week_date +:+ ".html")
             = Some (Scraper.source html)).
Proof.
  split; [reflexivity|]. split.
  - unfold Scraper.parse_calendar_html. intros [-> | ->].
    + eauto.
    + destruct (Scraper.search_state _); eauto.
  - intros week_date w w1 e Hload Hparse.
    unfold Campaign.scrape_week. rewrite Hload.
    unfold Campaign.parsed_table. rewrite Hparse. cbn [rbind].
    eexists. split; [reflexivity|]. split.
    + apply load_page_keeps_files in Hload as (Hc & _).
      destruct (Scraper.search_state _); exact Hc.
    + cbn. apply lookup_insert_eq.
Qed.

(** The amended C1 on the payload with the cut-short state: the run of [scrape_week] raises and writes no table. *)
Lemma C1_state_failure_is_raised_witness :
  exists w',
    Campaign.scrape_week broken_state_env week_2024 empty_world
    = (inl (RuntimeError "Failed to parse calendar. Saved HTML."), w')
    /\ Campaign.calendar w' = Campaign.calendar empty_world.
Proof.
  destruct (proj2 (proj2 (C1_state_failure_is_raised broken_state_env broken_state_page))
              week_2024 empty_world
              (Campaign.mkWorld ∅ ∅
                 [(Campaign.INFO, Campaign.ScrapingWeek week_2024)]
                 [Campaign.build_week_url week_2024] 0)
              (ValueError "Failed to parse calendar JS with js2py")
              eq_refl eq_refl) as (w' & Hrun & Hcal & _).
  exists w'. split; [exact Hrun | exact Hcal].
Defined.

(** ** Lists built by a loop that may raise *)

Lemma mapM_inr {A B} (f : A -> result B) (l : list A) (ys : list B) :
  mapM f l = inr ys ->
  length ys = length l
  /\ forall i x, l !! i = Some x -> exists y, ys !! i = Some y /\ f x = inr y.
Proof.
  revert ys. induction l as [|x l IH]; intros ys H; cbn in H.
  - injection H as <-. split; [reflexivity|]. intros i x Hx. by destruct i.
  - destruct (f x) as [e|y] eqn:Ey; [discriminate|]. cbn in H.
    destruct (mapM f l) as [e|ys'] eqn:El; [discriminate|]. cbn in H.
    injection H as <-. destruct (IH ys' eq_refl) as [Hlen Hel].
    split; [cbn; by rewrite Hlen|].
    intros [|i] x' Hx'; cbn in *.
    + injection Hx' as <-. eauto.
    + eauto.
Qed.




(** ** Forward-looking labels *)

Section LabelProperties.

Context {Row num : Type}.
Context (close : Row -> num).
Context (sub : num -> num -> num) (neg : num -> num) (ltb : num -> num -> bool).





End LabelProperties.


(** ** The stable sort *)

Section SortProperties.

Context {A K : Type} (leb : K -> K -> bool) (key : A -> K).
Context (leb_total : forall x y, leb x y = true \/ leb y x = true).
Context (leb_trans : forall x y z, leb x y = true -> leb y z = true -> leb x z = true).

Lemma insert_by_perm (x : A) (l : list A) : insert_by leb key x l ≡ₚ x :: l.
Proof.
  induction l as [|y l IH]; cbn; [reflexivity|].
  destruct (leb (key x) (key y)); [reflexivity|].
  rewrite IH. apply Permutation_swap.
Qed.

Lemma sort_by_perm (l : list A) : sort_by leb key l ≡ₚ l.
Proof.
  induction l as [|x l IH]; cbn; [reflexivity|].
  by rewrite insert_by_perm, IH.
Qed.

Lemma sort_by_elem (l : list A) (x : A) : x ∈ sort_by leb key l <-> x ∈ l.
Proof. by rewrite sort_by_perm. Qed.


Lemma insert_by_sorted (x : A) (l : list A) :
  Sorted (key_le leb key) l -> Sorted (key_le leb key) (insert_by leb key x l).
Proof.
  induction 1 as [|y l Hs IH Hhd]; cbn; [repeat constructor|].
  destruct (leb (key x) (key y)) eqn:E.
  - constructor; [by constructor|]. by constructor.
  - constructor; [exact IH|].
    assert (Hyx : key_le leb key y x).
    { unfold key_le. destruct (leb_total (key x) (key y)); congruence. }
    destruct Hhd as [|z l Hz]; cbn; [by constructor|].
    destruct (leb (key x) (key z)); by constructor.
Qed.

Lemma sort_by_sorted (l : list A) : Sorted (key_le leb key) (sort_by leb key l).
Proof.
  induction l as [|x l IH]; cbn; [constructor|]. by apply insert_by_sorted.
Qed.




End SortProperties.

Lemma Zleb_total (x y : Z) : (x <=? y) = true \/ (y <=? x) = true.
Proof. rewrite !Z.leb_le. lia. Qed.


(** ** The candle/news join *)



Lemma indexed_elem {A} (l : list A) (p : nat * A) :
  p ∈ Align.indexed l <-> l !! fst p = Some (snd p).
Proof.
  unfold Align.indexed. rewrite list_elem_of_lookup. split.
  - intros [i Hi]. rewrite list_lookup_imap in Hi.
    destruct (l !! i) as [x|] eqn:E; [|discriminate]. cbn in Hi.
    injection Hi as <-. exact E.
  - intros H. exists (fst p). rewrite list_lookup_imap, H. by destruct p.
Qed.









Lemma tags_for_worded (news : list Align.News) (w t : Z) :
  (forall n, Align.closest news t w = Some n -> worded (Align.impact n)) ->
  exists y, Align.tags_for news w t = inr y.
Proof.
  unfold Align.tags_for. intros H.
  destruct (Align.closest news t w) as [n|]; [|by eexists].
  destruct (H n eq_refl) as (s & first & rest & -> & ->). by eexists.
Qed.








(** Why the general statement asks for candles in time order: the loop
    counts positions in the sorted frame but writes by index label.
    Here the 13:00 candle comes first in the input; the event at 12:45
    is found for it, and written to the row of the 10:00 candle. *)
Example unsorted_candles_swap_tags :
  Align.tag_news_to_candles [bare_candle 46800; bare_candle 36000]
    [Align.mkNews 45900 (Align.Text "High Impact Expected") "CPI m/m" "USD"] 60
  = inr [Align.mkTagged 1 (bare_candle 36000)
           (Some (Align.mkTags "High" "CPI m/m" "USD" 15));
         Align.mkTagged 0 (bare_candle 46800) None].
Proof. vm_compute. reflexivity. Qed.

(** ** The merge of the weekly tables *)

Lemma String_leb_trans (x y z : string) :
  String.leb x y = true -> String.leb y z = true -> String.leb x z = true.
Proof.
  intros H1 H2. apply Is_true_true. apply Is_true_true in H1, H2.
  change (String.le x z). by trans y.
Qed.

Lemma elem_of_concat {A} (ls : list (list A)) (x : A) :
  x ∈ concat ls <-> exists l, l ∈ ls /\ x ∈ l.
Proof.
  induction ls as [|l ls IH]; cbn.
  - split; [intros H; by apply elem_of_nil in H | intros (l & H & _); by apply elem_of_nil in H].
  - rewrite elem_of_app, IH. split.
    + intros [H | (l' & H1 & H2)]; [exists l; split; [left | exact H] | exists l'; split; [by right | exact H2]].
    + intros (l' & H1 & H2). apply elem_of_cons in H1 as [-> | H1]; [by left | right; eauto].
Qed.

Lemma two_distinct_elems {A} (l : list A) (x y : A) :
  x ∈ l -> y ∈ l -> x <> y -> (2 <= length l)%nat.
Proof.
  intros Hx Hy Hne. apply elem_of_Permutation in Hx as [k Hk].
  rewrite Hk in Hy. apply elem_of_cons in Hy as [-> | Hy]; [contradiction|].
  apply elem_of_Permutation in Hy as [k' Hk'].
  rewrite Hk, Hk'. cbn. lia.
Qed.

Lemma week_files_elem (dir : gmap string Campaign.Table) (f : string) :
  f ∈ Campaign.week_files dir <->
  Campaign.is_week_csv f = true /\ is_Some (dir !! f).
Proof.
  unfold Campaign.week_files. rewrite sort_by_elem, list_elem_of_filter.
  change (map fst (map_to_list dir)) with (fst <$> map_to_list dir).
  rewrite list_elem_of_fmap. split.
  - intros [Hw ([f' t] & -> & Hin)]. apply elem_of_map_to_list in Hin.
    split; [exact Hw | by eexists].
  - intros [Hw [t Ht]]. split; [exact Hw|]. exists (f, t).
    split; [reflexivity | by apply elem_of_map_to_list].
Qed.

Lemma week_files_NoDup (dir : gmap string Campaign.Table) :
  NoDup (Campaign.week_files dir).
Proof.
  unfold Campaign.week_files. rewrite sort_by_perm.
  apply NoDup_filter. apply NoDup_fst_map_to_list.
Qed.

Lemma merged_table_elem (dir : gmap string Campaign.Table) (r : Campaign.CsvRow) :
  r ∈ Campaign.merged_table dir <->
  exists f t, Campaign.is_week_csv f = true /\ dir !! f = Some t /\ r ∈ t.
Proof.
  unfold Campaign.merged_table. rewrite sort_by_elem, elem_of_concat. split.
  - intros (t & Ht & Hr).
    change (map (Campaign.read_csv dir) (Campaign.week_files dir))
      with (Campaign.read_csv dir <$> Campaign.week_files dir) in Ht.
    apply list_elem_of_fmap in Ht as (f & -> & Hf).
    apply week_files_elem in Hf as [Hw [t Ht]].
    exists f, t. unfold Campaign.read_csv in Hr. rewrite Ht in Hr. by repeat split.
  - intros (f & t & Hw & Ht & Hr). exists t. split; [|exact Hr].
    change (map (Campaign.read_csv dir) (Campaign.week_files dir))
      with (Campaign.read_csv dir <$> Campaign.week_files dir).
    apply list_elem_of_fmap. exists f. split.
    + unfold Campaign.read_csv. by rewrite Ht.
    + apply week_files_elem. split; [exact Hw | by eexists].
Qed.

(** C3, as stated, fails: the merge keeps both rows of the shared key. *)
Lemma C3_merge_keeps_both_rows :
  Campaign.merged_table two_weeks = [cpi_row ""; cpi_row "0.3%"]
  /\ Campaign.c_event_id (cpi_row "") = Campaign.c_event_id (cpi_row "0.3%")
  /\ Campaign.c_actual (cpi_row "") <> Campaign.c_actual (cpi_row "0.3%")
  /\ Campaign.calendar
       (Campaign.merge_all_weeks (Campaign.mkWorld two_weeks ∅ [] [] 0))
       !! "fx_news.csv"
     = Some [cpi_row ""; cpi_row "0.3%"].
Proof.
  split; [vm_compute; reflexivity|]. split; [reflexivity|].
  split; [discriminate|]. vm_compute. reflexivity.
Qed.

Example cpi_row_id :
  Scraper.html_id (datetime.mk 2024 7 5 12 30 0) "USD" "CPI m/m"
  = Campaign.c_event_id (cpi_row "").
Proof. vm_compute. reflexivity. Qed.

(** ** Re-running the campaign over cached weeks *)

Lemma merge_all_weeks_calendar (w : Campaign.World) :
  Campaign.calendar (Campaign.merge_all_weeks w) = merge_dir (Campaign.calendar w)
  /\ Campaign.fetched (Campaign.merge_all_weeks w) = Campaign.fetched w.
Proof.
  unfold Campaign.merge_all_weeks, merge_dir.
  by destruct (Campaign.week_files (Campaign.calendar w)).
Qed.

#[local] Instance string_leb_trans_inst :
  Transitive (key_le String.leb (@id string)).
Proof. intros x y z. apply String_leb_trans. Qed.

#[local] Instance string_leb_antisym_inst :
  AntiSymm (=) (key_le String.leb (@id string)).
Proof. intros x y. apply String.leb_antisym. Qed.









(** ** The loop over the weeks *)

(** [week_anchors] lists the values of [current] in
    [while current <= end: ...; current += timedelta(days=7)]. *)
Lemma week_anchors_unfold (start end_ : Z) :
  Campaign.week_anchors start end_
  = if start <=? end_ then start :: Campaign.week_anchors (start + 7) end_ else [].
Proof.
  unfold Campaign.week_anchors. destruct (Z.leb_spec start end_) as [Hle|Hgt].
  - replace ((end_ - start) / 7 + 1) with (Z.succ ((end_ - (start + 7)) / 7 + 1)).
    2:{ replace (end_ - start) with ((end_ - (start + 7)) + 1 * 7) by lia.
        rewrite Z.div_add by lia. lia. }
    assert (H0 : 0 <= (end_ - (start + 7)) / 7 + 1).
    { assert (-1 <= (end_ - (start + 7)) / 7); [|lia].
      apply Z.div_le_lower_bound; lia. }
    rewrite Z2Nat.inj_succ by exact H0. cbn [seq map].
    f_equal; [lia|]. rewrite <- seq_shift, map_map.
    apply map_ext. intros k. lia.
  - replace (Z.to_nat ((end_ - start) / 7 + 1)) with 0%nat; [reflexivity|].
    assert ((end_ - start) / 7 < 0); [|lia].
    apply Z.div_lt_upper_bound; lia.
Qed.




Lemma week_anchors_NoDup (start end_ : Z) : NoDup (Campaign.week_anchors start end_).
Proof.
  unfold Campaign.week_anchors.
  change (map ?f ?l) with (f <$> l).
  apply NoDup_fmap_2; [|apply NoDup_seq].
  intros x y H. lia.
Qed.

(** * Further properties of the code *)

(** ** The weeks of a campaign *)

(** X1: the loop of [main] visits exactly the dates from [start] to
    [end], both included, that lie a whole number of weeks after
    [start]. *)
Theorem X1_week_anchors_range (start end_ d : Z) :
  d ∈ Campaign.week_anchors start end_ <->
  start <= d <= end_ /\ (d - start) mod 7 = 0.
Proof.
  unfold Campaign.week_anchors.
  change (map ?f ?l) with (f <$> l). rewrite list_elem_of_fmap. split.
  - intros (k & -> & Hk). apply elem_of_seq in Hk as [_ Hk]. cbn in Hk.
    assert (Hq : Z.of_nat k <= (end_ - start) / 7).
    { destruct (Z_le_gt_dec 0 ((end_ - start) / 7 + 1)); lia. }
    assert (7 * ((end_ - start) / 7) <= end_ - start)
      by (apply Z.mul_div_le; lia).
    split; [lia|].
    replace (start + 7 * Z.of_nat k - start) with (Z.of_nat k * 7) by lia.
    apply Z.mod_mul. lia.
  - intros [[Hlo Hhi] Hmod].
    exists (Z.to_nat ((d - start) / 7)).
    assert (Hd : d - start = 7 * ((d - start) / 7)).
    { rewrite (Z.div_mod (d - start) 7) at 1 by lia. lia. }
    assert (0 <= (d - start) / 7) by (apply Z.div_pos; lia).
    assert ((d - start) / 7 <= (end_ - start) / 7) by (apply Z.div_le_mono; lia).
    split; [lia|]. apply elem_of_seq. lia.
Qed.

(** ** Page loads and the weekly cache *)

Lemma load_page_fetched (env : Scraper.Env) (url : string) (todo : list Z)
    (w w' : Campaign.World) (r : option Scraper.Page) :
  Campaign.load_page env url todo w = (r, w') ->
  exists loads,
    Campaign.fetched w' = loads ++ Campaign.fetched w
    /\ (length loads <= length todo)%nat
    /\ (forall u, u ∈ loads -> u = url)
    /\ (is_Some r -> loads <> []).
Proof.
  revert w. induction todo as [|a todo IH]; intros w H; cbn in H.
  - injection H as <- <-. exists []. split; [reflexivity|]. split; [cbn; lia|].
    split; [intros u Hu; by apply elem_of_nil in Hu|]. intros [? ?]. discriminate.
  - destruct (Scraper.browser env (length (Campaign.fetched w)) url) as [html|].
    + injection H as <- <-. exists [url]. split; [reflexivity|]. split; [cbn; lia|].
      split; [intros u Hu; by apply list_elem_of_singleton in Hu|]. discriminate.
    + apply IH in H as (loads & Hf & Hlen & Hall & Hne). cbn in Hf.
      exists (loads ++ [url]). split; [by rewrite <- app_assoc|].
      split; [rewrite length_app; cbn; lia|].
      split.
      * intros u Hu. apply elem_of_app in Hu as [Hu | Hu]; [by apply Hall|].
        by apply list_elem_of_singleton in Hu.
      * intros _ Heq. by destruct loads.
Qed.

(** What one call of [scrape_week] does. *)
Lemma scrape_week_effect (env : Scraper.Env) (week_date : datetime.t)
    (w w' : Campaign.World) (r : result unit) :
  Campaign.scrape_week env week_date w = (r, w') ->
  (exists loads,
      Campaign.fetched w' = loads ++ Campaign.fetched w
      /\ (length loads <= 3)%nat
      /\ forall u, u ∈ loads -> u = Campaign.build_week_url week_date)
  /\ Campaign.drivers w' = Campaign.drivers w
  /\ match r with
     | inr _ =>
         exists html df,
           Scraper.parse_calendar_html env html = ok df
           /\ df <> []
           /\ Campaign.calendar w' = <[Campaign.week_csv week_date := Campaign.to_csv env df]>
                                       (Campaign.calendar w)
           /\ Campaign.files w'
                !! ("debug/raw_html_" +:+ datetime.ymd week_date +:+ ".html")
              = Some (Scraper.source html)
     | inl _ => Campaign.calendar w' = Campaign.calendar w
     end.
Proof.
  unfold Campaign.scrape_week. intros H.
  destruct (Campaign.load_page _ _ _ _) as [page w1] eqn:El.
  pose proof (load_page_fetched _ _ _ _ _ _ El) as (loads & Hf & Hlen & Hall & _).
  pose proof (load_page_keeps_files _ _ _ _ _ _ El) as (Hc & Hfi & Hd).
  cbn in Hf, Hlen, Hc, Hfi, Hd.
  destruct page as [html|].
  - destruct (Campaign.parsed_table env html) as [e|df] eqn:Ep.
    + injection H as <- <-. split; [|split].
      * exists loads. cbn. destruct (Scraper.search_state _); cbn; auto.
      * cbn. by destruct (Scraper.search_state _).
      * cbn. by destruct (Scraper.search_state _).
    + injection H as <- <-. split; [|split].
      * exists loads. cbn. destruct (Scraper.search_state _); cbn; auto.
      * cbn. by destruct (Scraper.search_state _).
      * unfold Campaign.parsed_table in Ep.
        destruct (Scraper.parse_calendar_html env html) as [e|df'] eqn:Eh; [discriminate|].
        cbn in Ep. destruct df' as [|x df']; [discriminate|]. injection Ep as <-.
        exists html, (x :: df'). split; [exact Eh|]. split; [discriminate|].
        cbn. destruct (Scraper.search_state _); cbn; rewrite Hc; (split; [reflexivity|]).
        -- rewrite lookup_insert_ne by discriminate. apply lookup_insert_eq.
        -- apply lookup_insert_eq.
  - injection H as <- <-. split; [|split]; [exists loads; auto | exact Hd | exact Hc].
Qed.

Lemma attempts_effect (env : Scraper.Env) (d : Z) (todo : list Z)
    (w w' : Campaign.World) (r : result unit) :
  Campaign.attempts env d todo w = (r, w') ->
  (exists loads,
      Campaign.fetched w' = loads ++ Campaign.fetched w
      /\ (length loads <= 3 * length todo)%nat
      /\ forall u, u ∈ loads -> u = Campaign.build_week_url (datetime.of_days d))
  /\ (Campaign.calendar w' = Campaign.calendar w
      \/ exists t, t <> []
                   /\ Campaign.calendar w'
                      = <[Campaign.week_csv (datetime.of_days d) := t]> (Campaign.calendar w)).
Proof.
  revert w. induction todo as [|a todo IH]; intros w H; cbn [Campaign.attempts] in H.
  - injection H as <- <-. split; [|by left].
    exists []. split; [reflexivity|]. split; [cbn; lia|].
    intros u Hu. by apply elem_of_nil in Hu.
  - destruct (Campaign.scrape_week env (datetime.of_days d) w) as [rs w1] eqn:Es.
    apply scrape_week_effect in Es as ((loads & Hf & Hlen & Hall) & _ & Hcal).
    destruct rs as [e|[]].
    + assert (Hrest : exists w2,
                 Campaign.calendar w2 = Campaign.calendar w1
                 /\ Campaign.fetched w2 = Campaign.fetched w1
                 /\ (Campaign.attempts env d todo w2 = (r, w') \/ w' = w2)).
      { destruct (a <? Campaign.MAX_RETRIES).
        - unfold Campaign.create_driver in H.
          destruct (Scraper.driver_up env _).
          + eexists. split; [|split; [|left; exact H]]; reflexivity.
          + injection H as <- <-. eexists. split; [|split; [|right; reflexivity]]; reflexivity.
        - eexists. split; [|split; [|left; exact H]]; reflexivity. }
      destruct Hrest as (w2 & Hc2 & Hf2 & [Hrun | ->]).
      * apply IH in Hrun as ((loads' & Hf' & Hlen' & Hall') & Hcal').
        split.
        -- exists (loads' ++ loads). rewrite Hf', Hf2, Hf, app_assoc.
           split; [reflexivity|]. split; [rewrite length_app; cbn; lia|].
           intros u Hu. apply elem_of_app in Hu as [Hu | Hu]; auto.
        -- rewrite Hc2, Hcal in Hcal'. exact Hcal'.
      * split; [|left; by rewrite Hc2, Hcal].
        exists loads. rewrite Hf2, Hf. split; [reflexivity|]. split; [cbn; lia | exact Hall].
    + injection H as <- <-. destruct Hcal as (html & df & _ & Hne & Hc & _).
      split.
      * exists loads. split; [exact Hf|]. split; [cbn; lia | exact Hall].
      * right. exists (Campaign.to_csv env df). split; [|exact Hc].
        destruct df; [contradiction | discriminate].
Qed.

Lemma week_step_stretch (env : Scraper.Env) (d : Z) (w w' : Campaign.World)
    (r : result unit) :
  Campaign.week_step env d w = (r, w') -> stretch [d] w w'.
Proof.
  unfold Campaign.week_step. intros H.
  destruct (Campaign.calendar w !! Campaign.week_csv (datetime.of_days d)) as [t|] eqn:Ec.
  - injection H as <- <-. split; [|split].
    + exists []. split; [reflexivity|]. split; [cbn; lia|].
      intros u Hu. by apply elem_of_nil in Hu.
    + reflexivity.
    + intros f t' Hf. by left.
  - apply attempts_effect in H as ((loads & Hf & Hlen & Hall) & Hcal). split; [|split].
    + exists loads. split; [exact Hf|]. split; [cbn in *; lia|].
      intros u Hu. exists d. split; [left|]. split; [by apply Hall | exact Ec].
    + destruct Hcal as [-> | (t & _ & ->)]; [reflexivity|]. by apply insert_subseteq.
    + intros f t Hf'. destruct Hcal as [Hc | (t0 & Hne & Hc)]; rewrite Hc in Hf'; [by left|].
      destruct (decide (f = Campaign.week_csv (datetime.of_days d))) as [->|Hn].
      * rewrite lookup_insert_eq in Hf'. injection Hf' as <-. right.
        split; [exact Hne|]. exists d. split; [left | reflexivity].
      * rewrite lookup_insert_ne in Hf' by congruence. by left.
Qed.

Lemma stretch_idle (weeks : list Z) (w w' : Campaign.World) :
  Campaign.fetched w' = Campaign.fetched w ->
  Campaign.calendar w' = Campaign.calendar w ->
  stretch weeks w w'.
Proof.
  intros Hf Hc. split; [|split].
  - exists []. split; [by rewrite Hf|]. split; [cbn; lia|].
    intros u Hu. by apply elem_of_nil in Hu.
  - by rewrite Hc.
  - intros f t H. left. by rewrite <- Hc.
Qed.

Lemma stretch_app (ws1 ws2 : list Z) (w w1 w2 : Campaign.World) :
  stretch ws1 w w1 -> stretch ws2 w1 w2 -> stretch (ws1 ++ ws2) w w2.
Proof.
  intros ((l1 & Hf1 & Hn1 & Ha1) & Hs1 & Hnew1) ((l2 & Hf2 & Hn2 & Ha2) & Hs2 & Hnew2).
  split; [|split].
  - exists (l2 ++ l1). rewrite Hf2, Hf1, app_assoc. split; [reflexivity|].
    split; [rewrite !length_app; lia|].
    intros u Hu. apply elem_of_app in Hu as [Hu | Hu].
    + destruct (Ha2 u Hu) as (d & Hd & -> & Hnone). exists d.
      split; [apply elem_of_app; by right|]. split; [reflexivity|].
      by eapply lookup_weaken_None.
    + destruct (Ha1 u Hu) as (d & Hd & -> & Hnone). exists d.
      split; [apply elem_of_app; by left|]. by split.
  - by trans (Campaign.calendar w1).
  - intros f t Hf. destruct (Hnew2 f t Hf) as [H1 | (Hne & d & Hd & ->)].
    + destruct (Hnew1 f t H1) as [H0 | (Hne & d & Hd & ->)]; [by left|].
      right. split; [exact Hne|]. exists d. split; [apply elem_of_app; by left | reflexivity].
    + right. split; [exact Hne|]. exists d. split; [apply elem_of_app; by right | reflexivity].
Qed.

Lemma campaign_stretch (env : Scraper.Env) (weeks : list Z) (w w' : Campaign.World)
    (r : result unit) :
  Campaign.campaign env weeks w = (r, w') -> stretch weeks w w'.
Proof.
  revert w. induction weeks as [|d weeks IH]; intros w H; cbn [Campaign.campaign] in H.
  - injection H as <- <-. by apply stretch_idle.
  - destruct (Campaign.week_step env d w) as [rs w1] eqn:Es.
    apply week_step_stretch in Es. destruct rs as [e|u].
    + injection H as <- <-.
      change (d :: weeks) with ([d] ++ weeks).
      eapply stretch_app; [exact Es | by apply stretch_idle].
    + apply IH in H. change (d :: weeks) with ([d] ++ weeks). by eapply stretch_app.
Qed.

(** The loop part of [main], whatever its outcome. *)
Lemma main_stretch (env : Scraper.Env) (start end_ : Z) (w : Campaign.World) :
  exists w2,
    stretch (Campaign.week_anchors start end_) w w2
    /\ Campaign.fetched (snd (Campaign.main env start end_ w)) = Campaign.fetched w2
    /\ (Campaign.calendar (snd (Campaign.main env start end_ w)) = Campaign.calendar w2
        \/ Campaign.calendar (snd (Campaign.main env start end_ w))
           = merge_dir (Campaign.calendar w2)).
Proof.
  unfold Campaign.main, Campaign.create_driver.
  set (w0 := Campaign.mkWorld (Campaign.calendar w) (Campaign.files w) (Campaign.log w)
               (Campaign.fetched w) (S (Campaign.drivers w))).
  assert (H0 : forall ws, stretch ws w w0) by (intros ws; by apply stretch_idle).
  destruct (Scraper.driver_up env (Campaign.drivers w)).
  - destruct (Campaign.campaign env (Campaign.week_anchors start end_) w0) as [r w2] eqn:Ec.
    apply campaign_stretch in Ec.
    exists w2. split; [exact (stretch_app [] _ _ _ _ (H0 []) Ec)|].
    destruct r as [e|u]; cbn; [split; [reflexivity | by left]|].
    destruct (merge_all_weeks_calendar w2) as [Hm Hf]. split; [exact Hf | by right].
  - exists w0. split; [apply H0|]. split; [reflexivity | by left].
Qed.

Lemma merge_dir_lookup_ne (dir : gmap string Campaign.Table) (f : string) :
  f <> "fx_news.csv" -> merge_dir dir !! f = dir !! f.
Proof.
  intros Hne. unfold merge_dir. destruct (Campaign.week_files dir); [reflexivity|].
  by rewrite lookup_insert_ne.
Qed.

(** X2: a run of [main] loads at most nine pages for each week of the
    range (three attempts of three loads), and every page it loads is
    the page of a week of the range that had no table when the run
    began; this holds however the run ends. *)
Theorem X2_page_loads_are_bounded (env : Scraper.Env) (start end_ : Z)
    (w : Campaign.World) :
  exists loads,
    Campaign.fetched (snd (Campaign.main env start end_ w)) = loads ++ Campaign.fetched w
    /\ (length loads <= 9 * length (Campaign.week_anchors start end_))%nat
    /\ forall u, u ∈ loads ->
         exists d, d ∈ Campaign.week_anchors start end_
                   /\ u = Campaign.build_week_url (datetime.of_days d)
                   /\ Campaign.calendar w !! Campaign.week_csv (datetime.of_days d) = None.
Proof.
  destruct (main_stretch env start end_ w) as (w2 & ((loads & Hf & Hlen & Hall) & _) & Hfm & _).
  exists loads. rewrite Hfm. by repeat split.
Qed.

(** X3: [main] never changes or removes a table that is already in the
    data directory (the merged output aside), and a table it adds is a
    non-empty one stored under the file name of a week of the range. *)
Theorem X3_weekly_tables_are_kept (env : Scraper.Env) (start end_ : Z)
    (w : Campaign.World) (f : string) (t : Campaign.Table) :
  f <> "fx_news.csv" ->
  (Campaign.calendar w !! f = Some t ->
   Campaign.calendar (snd (Campaign.main env start end_ w)) !! f = Some t)
  /\ (Campaign.calendar w !! f = None ->
      Campaign.calendar (snd (Campaign.main env start end_ w)) !! f = Some t ->
      t <> []
      /\ exists d, d ∈ Campaign.week_anchors start end_
                   /\ f = Campaign.week_csv (datetime.of_days d)).
Proof.
  intros Hne.
  destruct (main_stretch env start end_ w) as (w2 & (_ & Hsub & Hnew) & _ & Hcal).
  assert (Hlook : Campaign.calendar (snd (Campaign.main env start end_ w)) !! f
                  = Campaign.calendar w2 !! f).
  { destruct Hcal as [-> | ->]; [reflexivity | by apply merge_dir_lookup_ne]. }
  rewrite Hlook. split.
  - intros H. by eapply lookup_weaken.
  - intros Hnone H. destruct (Hnew f t H) as [H0 | H1]; [congruence | exact H1].
Qed.

(** X3 on the run with one week that never loads, started with the table
    of 1 July in place: the table is still there afterwards. *)
Lemma X3_weekly_tables_are_kept_witness :
  Campaign.calendar (snd (Campaign.main one_bad_week_env 19905 19915 cached_world))
    !! "week_20240701.csv"
  = Some [cpi_row "0.3%"].
Proof.
  apply (proj1 (X3_weekly_tables_are_kept one_bad_week_env 19905 19915 cached_world
                  "week_20240701.csv" [cpi_row "0.3%"] ltac:(discriminate))).
  vm_compute. reflexivity.
Defined.

(** ** A week whose attempts all fail *)










(** The run over two weeks: nine loads fail for the first week, which
    gets its terminal-failure line and no table; the second week is
    loaded once and saved; the merge output is written. *)
Example one_bad_week_run :
  let w := snd (Campaign.main one_bad_week_env 19905 19915 empty_world) in
  fst (Campaign.main one_bad_week_env 19905 19915 empty_world) = ok tt
  /\ length (Campaign.fetched w) = 10%nat
  /\ existsb (is_terminal_failure 19905) (Campaign.log w) = true
  /\ existsb (is_terminal_failure 19912) (Campaign.log w) = false
  /\ Campaign.calendar w !! "week_20240701.csv" = None
  /\ length <$> Campaign.calendar w !! "week_20240708.csv" = Some 1%nat
  /\ length <$> Campaign.calendar w !! "fx_news.csv" = Some 1%nat.
Proof. vm_compute. repeat split. Qed.


(** Why the browser must be able to restart: an exception of
    [create_driver()] inside the handler leaves [main]. *)
Example restart_failure_aborts :
  fst (Campaign.main no_restart_env 19905 19915 empty_world) = inl WebDriverException
  /\ Campaign.calendar (snd (Campaign.main no_restart_env 19905 19915 empty_world)) = ∅.
Proof. vm_compute. split; reflexivity. Qed.

(** The rows of [parse_calendar_html] come from the event loop. *)
Lemma html_days_events (env : Scraper.Env) (days : list JsVal) (evs : list Scraper.Event)
    (e : Scraper.Event) :
  Scraper.html_days env days = ok evs -> e ∈ evs ->
  exists d kv, Scraper.html_event env d (JDict kv) = Some e.
Proof.
  revert evs. induction days as [|day days IH]; intros evs H He; cbn in H.
  - injection H as <-. by apply elem_of_nil in He.
  - destruct (Scraper.html_day env day) as [x|evs1] eqn:Ed; [discriminate|]. cbn in H.
    destruct (Scraper.html_days env days) as [x|evs2] eqn:Er; [discriminate|]. cbn in H.
    injection H as <-. apply elem_of_app in He as [He | He]; [|by eapply IH].
    unfold Scraper.html_day in Ed. destruct day as [| | | | |kv]; try discriminate.
    destruct (Scraper.day_label env kv) as [x|date_str]; [discriminate|]. cbn in Ed.
    destruct (Scraper.day_items kv) as [x|items]; [discriminate|]. cbn in Ed.
    injection Ed as <-. apply list_elem_of_omap in He as (ev & _ & Hev).
    destruct ev as [| | | | |kv']; try discriminate. eauto.
Qed.

Lemma parse_calendar_html_events (env : Scraper.Env) (html : Scraper.Page)
    (df : list Scraper.Event) (e : Scraper.Event) :
  Scraper.parse_calendar_html env html = ok df -> e ∈ df ->
  exists d kv, Scraper.html_event env d (JDict kv) = Some e.
Proof.
  unfold Scraper.parse_calendar_html. intros H He.
  destruct (Scraper.search_state _); [|discriminate].
  destruct (Scraper.script_value html) as [[| | | | |kv]|]; try discriminate.
  destruct (Scraper.find_days kv) as [x|cal_state]; [discriminate|]. cbn in H.
  destruct (negb (Js.truthy cal_state)); [discriminate|].
  destruct (Js.iter cal_state) as [x|days]; [discriminate|]. cbn in H.
  by eapply html_days_events.
Qed.

(** X4: when [scrape_week] returns normally, a page was loaded, the
    parser gave a non-empty table for it, that table is what the week's
    file now holds, and the raw page is kept under [debug/].  The
    [event_id] of every event is the MD5 of its timestamp (as [str]
    prints it), currency and event texts put together, and every row of
    the file carries the [event_id], currency and event of its event.
    The timestamp cell of a row is the text that was hashed, except in a
    table whose events are all at midnight, which [to_csv] may print as
    dates only; so in a week with an event off midnight the [event_id]
    of a row is the MD5 of the row's timestamp, currency and event
    cells put together. *)
Theorem X4_saved_week_table (env : Scraper.Env) (week_date : datetime.t)
    (w w' : Campaign.World) :
  Campaign.scrape_week env week_date w = (ok tt, w') ->
  exists html df,
    Scraper.parse_calendar_html env html = ok df
    /\ df <> []
    /\ Campaign.calendar w' = <[Campaign.week_csv week_date := Campaign.to_csv env df]>
                                (Campaign.calendar w)
    /\ Campaign.files w' !! ("debug/raw_html_" +:+ datetime.ymd week_date +:+ ".html")
       = Some (Scraper.source html)
    /\ (forall e, e ∈ df ->
          Scraper.event_id e
          = MD5.hexdigest (datetime.str (Scraper.timestamp e) +:+ Scraper.currency e
                             +:+ Scraper.event e))
    /\ (forall row, row ∈ Campaign.to_csv env df ->
          exists e,
            e ∈ df
            /\ Campaign.c_event_id row = Scraper.event_id e
            /\ Campaign.c_currency row = Scraper.currency e
            /\ Campaign.c_event row = Scraper.event e
            /\ (Campaign.c_timestamp row = datetime.str (Scraper.timestamp e)
                \/ Campaign.c_timestamp row = datetime.iso_date (Scraper.timestamp e)
                   /\ forall e', e' ∈ df -> Campaign.midnight (Scraper.timestamp e') = true))
    /\ ((exists e, e ∈ df /\ Campaign.midnight (Scraper.timestamp e) = false) ->
        forall row, row ∈ Campaign.to_csv env df ->
          Campaign.c_event_id row
          = MD5.hexdigest (Campaign.c_timestamp row +:+ Campaign.c_currency row
                             +:+ Campaign.c_event row)).
Proof.
  intros H. apply scrape_week_effect in H as (_ & _ & html & df & Hp & Hne & Hc & Hf).
  exists html, df. split; [exact Hp|]. split; [exact Hne|]. split; [exact Hc|].
  split; [exact Hf|].
  assert (Hid : forall e, e ∈ df ->
            Scraper.event_id e
            = MD5.hexdigest (datetime.str (Scraper.timestamp e) +:+ Scraper.currency e
                               +:+ Scraper.event e)).
  { intros e He. destruct (parse_calendar_html_events _ _ _ _ Hp He) as (d & kv & Hev).
    apply html_event_fields in Hev as (_ & _ & _ & _ & _ & _ & _ & Hid). exact Hid. }
  split; [exact Hid|].
  assert (Hshort : Campaign.dates_only env df = true ->
            forall e', e' ∈ df -> Campaign.midnight (Scraper.timestamp e') = true).
  { unfold Campaign.dates_only. intros Hs e' He'.
    apply andb_true_iff in Hs as [_ Hs]. rewrite forallb_forall in Hs.
    apply Hs. by apply list_elem_of_In. }
  split.
  - intros row Hrow. unfold Campaign.to_csv in Hrow.
    change (map ?f ?l) with (f <$> l) in Hrow.
    apply list_elem_of_fmap in Hrow as (e & -> & He).
    exists e. split; [exact He|]. cbn. split; [reflexivity|]. split; [reflexivity|].
    split; [reflexivity|].
    destruct (Campaign.dates_only env df) eqn:Es; [right | by left].
    split; [reflexivity|]. by apply Hshort.
  - intros (e0 & He0 & Hoff) row Hrow. unfold Campaign.to_csv in Hrow.
    change (map ?f ?l) with (f <$> l) in Hrow.
    apply list_elem_of_fmap in Hrow as (e & -> & He).
    destruct (Campaign.dates_only env df) eqn:Es.
    + rewrite (Hshort eq_refl e0 He0) in Hoff. discriminate.
    + cbn. by apply Hid.
Qed.

(** X4 on the page of the week of 8 July 2024. *)
Lemma X4_saved_week_table_witness :
  exists html df,
    Scraper.parse_calendar_html one_bad_week_env html = ok df
    /\ df <> []
    /\ Campaign.calendar
         (snd (Campaign.scrape_week one_bad_week_env (datetime.of_days 19912) empty_world))
       = <[Campaign.week_csv (datetime.of_days 19912)
           := Campaign.to_csv one_bad_week_env df]> ∅.
Proof.
  destruct (X4_saved_week_table one_bad_week_env (datetime.of_days 19912) empty_world
              (snd (Campaign.scrape_week one_bad_week_env (datetime.of_days 19912) empty_world)))
    as (html & df & Hp & Hne & Hc & _).
  - vm_compute. reflexivity.
  - exists html, df. split; [exact Hp|]. split; [exact Hne | exact Hc].
Defined.

(** ** Records of the embedded state *)

Lemma get_stripped_ok (key : string) (kv : list (string * JsVal)) :
  is_ok (Js.get_stripped key kv) = true <-> text_field key kv.
Proof.
  unfold Js.get_stripped, text_field.
  destruct (Js.get key kv) as [[| | | | |]|]; cbn; split; try tauto; try discriminate.
Qed.

Lemma html_event_row_worthy (env : Scraper.Env) (d : string) (ev : JsVal) :
  is_Some (Scraper.html_event env d ev) <-> row_worthy env ev.
Proof.
  unfold Scraper.html_event, Scraper.html_event_try, row_worthy. split.
  - intros [e He]. destruct ev as [| | | | |kv]; try discriminate.
    destruct (Js.get "dateline" kv) as [ts|] eqn:Ets; [|discriminate].
    destruct (Js.truthy ts) eqn:Et; [|discriminate]. cbn [negb] in He.
    destruct (Scraper.as_seconds ts) as [x|secs] eqn:Es; [discriminate|]. cbn [rbind] in He.
    destruct (datetime.fromtimestamp _ secs) as [x|t] eqn:Ef; [discriminate|]. cbn [rbind] in He.
    exists kv, ts, secs. repeat (split; [first [reflexivity | assumption | by rewrite Ef]|]).
    destruct (Js.get_stripped "name" kv) eqn:E1; [discriminate|]. cbn [rbind] in He.
    destruct (Js.get_stripped "currency" kv) eqn:E2; [discriminate|]. cbn [rbind] in He.
    destruct (Js.get_stripped "impactTitle" kv) eqn:E3; [discriminate|]. cbn [rbind] in He.
    destruct (Js.get_stripped "actual" kv) eqn:E4; [discriminate|]. cbn [rbind] in He.
    destruct (Js.get_stripped "forecast" kv) eqn:E5; [discriminate|]. cbn [rbind] in He.
    destruct (Js.get_stripped "previous" kv) eqn:E6; [discriminate|].
    repeat (apply Forall_cons; split; [apply get_stripped_ok; by rewrite ?E1, ?E2, ?E3, ?E4, ?E5, ?E6|]).
    apply Forall_nil_2.
  - intros (kv & ts & secs & -> & Hts & Ht & Hs & Hf & Hall).
    rewrite Hts, Ht. cbn [negb]. rewrite Hs. unfold ok. cbn [rbind].
    destruct (datetime.fromtimestamp _ secs) as [x|t]; [discriminate|]. cbn [rbind].
    repeat (apply Forall_cons in Hall as [Hk Hall];
            apply get_stripped_ok in Hk;
            match type of Hk with
            | is_ok ?g = true => destruct g; [discriminate|]; cbn [rbind]
            end; clear Hk).
    by eexists.
Qed.

Lemma html_day_shape (env : Scraper.Env) (d : JsVal) :
  day_shape d ->
  exists date_str,
    Scraper.html_day env d = ok (omap (Scraper.html_event env date_str) (raw_events d)).
Proof.
  intros (kv & -> & Hdate & Hev). unfold Scraper.html_day, Scraper.day_label, text_field in *.
  cbn [raw_events]. unfold Scraper.day_items.
  destruct (Js.get "date" kv) as [[| | |s| |]|]; try contradiction; cbn [rbind ok].
  - exists (Scraper.soup_text env s). by destruct Hev as [-> | [l ->]].
  - exists (Scraper.soup_text env ""). by destruct Hev as [-> | [l ->]].
Qed.

Lemma omap_length_le {A B} (f : A -> option B) (l : list A) :
  (length (omap f l) <= length l)%nat.
Proof. induction l as [|x l IH]; cbn; [lia|]. destruct (f x); cbn; lia. Qed.

Lemma omap_length_all {A B} (f : A -> option B) (l : list A) :
  Forall (fun x => is_Some (f x)) l -> length (omap f l) = length l.
Proof.
  induction 1 as [|x l [y Hy] _ IH]; cbn; [reflexivity|]. rewrite Hy. cbn. by rewrite IH.
Qed.

Lemma html_days_shape (env : Scraper.Env) (days : list JsVal) :
  Forall day_shape days ->
  exists df,
    Scraper.html_days env days = ok df
    /\ (length df <= length (concat (map raw_events days)))%nat
    /\ (Forall (row_worthy env) (concat (map raw_events days)) ->
        length df = length (concat (map raw_events days))).
Proof.
  induction 1 as [|d days Hd _ (df & Hrun & Hle & Hall)]; [exists []; by repeat split|].
  destruct (html_day_shape env d Hd) as [date_str Hday].
  exists (omap (Scraper.html_event env date_str) (raw_events d) ++ df).
  cbn [Scraper.html_days map concat]. rewrite Hday, Hrun. cbn [rbind ok].
  split; [reflexivity|]. rewrite !length_app.
  split; [pose proof (omap_length_le (Scraper.html_event env date_str) (raw_events d)); lia|].
  intros Hw. apply Forall_app in Hw as [Hw1 Hw2].
  rewrite (Hall Hw2), omap_length_all; [reflexivity|].
  eapply Forall_impl; [exact Hw1|]. intros ev Hev. by apply html_event_row_worthy.
Qed.

(** X5: a raw event becomes a row exactly when it is an object with a
    usable [dateline] and text (or missing) fields; and for a payload
    whose state literal is found and decodes to a non-empty list of
    well-shaped days, [parse_calendar_html] returns a table with at most
    one row per raw event, and with exactly one row per raw event when
    every raw event is usable: an unusable event is left out without
    failing the page. *)
Theorem X5_rows_of_the_embedded_state (env : Scraper.Env) :
  (forall d ev, is_Some (Scraper.html_event env d ev) <-> row_worthy env ev)
  /\ (forall html kv days,
        is_Some (Scraper.search_state (Scraper.source html)) ->
        Scraper.script_value html = Some (JDict kv) ->
        Js.get "days" kv = Some (JList days) ->
        days <> [] ->
        Forall day_shape days ->
        exists df,
          Scraper.parse_calendar_html env html = ok df
          /\ (length df <= length (concat (map raw_events days)))%nat
          /\ (Forall (row_worthy env) (concat (map raw_events days)) ->
              length df = length (concat (map raw_events days)))).
Proof.
  split; [apply html_event_row_worthy|].
  intros html kv days [g Hg] Hsv Hdays Hne Hshape.
  destruct (html_days_shape env days Hshape) as (df & Hrun & Hle & Hall).
  exists df. split; [|by split].
  unfold Scraper.parse_calendar_html, Scraper.find_days. rewrite Hg, Hsv, Hdays.
  destruct days as [|d days]; [contradiction|]. cbn. exact Hrun.
Qed.

(** X5 on the page with one usable event. *)
Lemma X5_rows_of_the_embedded_state_witness :
  exists df,
    Scraper.parse_calendar_html utc_env good_page = ok df /\ length df = 1%nat.
Proof.
  destruct (proj2 (X5_rows_of_the_embedded_state utc_env) good_page
              [("days", JList [JDict [("date", JStr "Mon Jul 8");
                                      ("events", JList [JDict (named_event "0.3%")])]])]
              [JDict [("date", JStr "Mon Jul 8");
                      ("events", JList [JDict (named_event "0.3%")])]])
    as (df & Hrun & _ & Hall).
  - eexists. vm_compute. reflexivity.
  - reflexivity.
  - reflexivity.
  - discriminate.
  - repeat constructor. eexists. split; [reflexivity|]. split; [exact I|].
    right. eexists. reflexivity.
  - exists df. split; [exact Hrun|]. apply Hall.
    repeat constructor.
    exists (named_event "0.3%"), (JNum 1719837000), 1719837000.
    repeat (split; [reflexivity|]). repeat constructor.
Defined.

(** ** The DOM-table strategy *)

(** X6: called without a week ([week_date=None], the default),
    [parse_calendar_dom] returns an empty table whatever the page holds:
    each row either is skipped by the guard or raises on
    [week_date.year] and is skipped by the handler. *)
Theorem X6_dom_without_week_is_empty (html : Scraper.Page) :
  Scraper.parse_calendar_dom html None = [].
Proof.
  unfold Scraper.parse_calendar_dom. generalize "". 
  induction (Scraper.calendar_rows html) as [|row rows IH]; intros cur; [reflexivity|].
  cbn [Scraper.dom_rows].
  replace (Scraper.dom_row_event None (Scraper.next_day cur row) row) with (@None Scraper.Event);
    [apply IH|].
  unfold Scraper.dom_row_event. by destruct (_ || _).
Qed.

Lemma fold_next_day (rows : list Scraper.DomRow) (cur : string) :
  fold_left Scraper.next_day rows cur = default cur (last (omap Scraper.date_cell rows)).
Proof.
  revert cur. induction rows as [|row rows IH]; intros cur; [reflexivity|].
  cbn [fold_left]. rewrite IH. unfold Scraper.next_day.
  change (omap Scraper.date_cell (row :: rows))
    with (match Scraper.date_cell row with
          | Some y => y :: omap Scraper.date_cell rows
          | None => omap Scraper.date_cell rows
          end).
  destruct (Scraper.date_cell row) as [d|]; [|reflexivity].
  destruct (omap Scraper.date_cell rows) as [|x l] eqn:E; [reflexivity|].
  rewrite last_cons_cons, (last_cons x l). by destruct (last l).
Qed.

Lemma dom_rows_elem (wd : option datetime.t) (rows : list Scraper.DomRow) (cur : string)
    (e : Scraper.Event) :
  e ∈ Scraper.dom_rows wd cur rows ->
  exists before row after,
    rows = before ++ row :: after
    /\ Scraper.dom_row_event wd
         (Scraper.next_day (fold_left Scraper.next_day before cur) row) row = Some e.
Proof.
  revert cur. induction rows as [|row rows IH]; intros cur He; cbn in He.
  - by apply elem_of_nil in He.
  - assert (Hrest : e ∈ Scraper.dom_rows wd (Scraper.next_day cur row) rows ->
              exists before row' after,
                row :: rows = before ++ row' :: after
                /\ Scraper.dom_row_event wd
                     (Scraper.next_day (fold_left Scraper.next_day before cur) row') row'
                   = Some e).
    { intros H. destruct (IH _ H) as (before & row' & after & -> & Hev).
      exists (row :: before), row', after. split; [reflexivity | exact Hev]. }
    destruct (Scraper.dom_row_event wd (Scraper.next_day cur row) row) as [e0|] eqn:E0;
      [|by apply Hrest].
    apply elem_of_cons in He as [-> | He]; [|by apply Hrest].
    exists [], row, rows. split; [reflexivity | exact E0].
Qed.

(** X7: every event that [parse_calendar_dom] returns comes from a row
    with a non-blank time, and its [day] is the text, not empty, of the
    last date cell met down to and including that row: a row without a
    date cell inherits the heading of the rows above it, also from rows
    that were themselves skipped. *)
Theorem X7_dom_day_is_inherited (html : Scraper.Page) (wd : option datetime.t)
    (e : Scraper.Event) :
  e ∈ Scraper.parse_calendar_dom html wd ->
  exists before row after,
    Scraper.calendar_rows html = before ++ row :: after
    /\ last_heading (before ++ [row]) = Some (Scraper.day e)
    /\ Scraper.day e <> ""
    /\ Scraper.text_or_empty (Scraper.time_cell row) <> ""
    /\ Scraper.currency e = Scraper.text_or_empty (Scraper.currency_cell row)
    /\ Scraper.event e = Scraper.text_or_empty (Scraper.event_title row).
Proof.
  intros He. apply dom_rows_elem in He as (before & row & after & Hrows & Hev).
  exists before, row, after. split; [exact Hrows|].
  assert (Hday : Scraper.next_day (fold_left Scraper.next_day before "") row
                 = default "" (last_heading (before ++ [row]))).
  { unfold last_heading. rewrite fold_next_day, omap_app. unfold Scraper.next_day.
    cbn. destruct (Scraper.date_cell row) as [d|]; cbn.
    - by rewrite last_snoc.
    - by rewrite app_nil_r. }
  rewrite Hday in Hev. unfold Scraper.dom_row_event in Hev.
  destruct (PyStr.nonempty (Scraper.text_or_empty (Scraper.time_cell row))) eqn:Et;
    [|discriminate].
  destruct (PyStr.nonempty (default "" (last_heading (before ++ [row])))) eqn:Ed;
    [|discriminate].
  cbn [negb orb] in Hev.
  destruct (Scraper.parse_calendar_time _ _ _) as [x|ts]; [discriminate|].
  injection Hev as <-. cbn.
  destruct (last_heading (before ++ [row])) as [d|]; [|discriminate]. cbn in *.
  split; [reflexivity|]. split; [by destruct d|].
  split; [by destruct (Scraper.text_or_empty (Scraper.time_cell row))|]. by split.
Qed.

(** X7 on the first row of [dom_two_rows]. *)
Lemma X7_dom_day_is_inherited_witness :
  exists before row after,
    Scraper.calendar_rows dom_two_rows = before ++ row :: after
    /\ last_heading (before ++ [row]) = Some "MonJul 1".
Proof.
  destruct (X7_dom_day_is_inherited dom_two_rows (Some week_2024)
              (Scraper.mkEvent (datetime.mk 2024 7 1 8 30 0) "USD" "High Impact Expected"
                 "CPI m/m" "0.3%" "0.2%" "0.1%" "MonJul 1"
                 (Scraper.dom_id (datetime.mk 2024 7 1 8 30 0) "USD" "CPI m/m"
                    "0.3%" "0.2%" "0.1%")))
    as (before & row & after & Hrows & Hlast & _).
  - vm_compute. left.
  - exists before, row, after. split; [exact Hrows | exact Hlast].
Defined.

(** ** More on the candle/news join *)






(** The rows of the result and the values the loop wrote. *)
Lemma tag_rows {Bar : Type} (ohlcv_df : list (Align.Candle Bar))
    (news_df : list Align.News) (w : Z) (rows : list (Align.Tagged Bar)) :
  Align.tag_news_to_candles ohlcv_df news_df w = inr rows ->
  exists candles written,
    candles = sort_by Z.leb (fun p : nat * Align.Candle Bar => Align.time (snd p))
                (Align.indexed ohlcv_df)
    /\ rows = map (fun p => Align.mkTagged (fst p) (snd p) (mjoin (written !! fst p))) candles
    /\ length written = length candles
    /\ forall i y, written !! i = Some y ->
         exists p, candles !! i = Some p
                   /\ Align.tags_for (sort_by Z.leb Align.timestamp news_df) w
                        (Align.time (snd p)) = inr y.
Proof.
  unfold Align.tag_news_to_candles. intros H.
  set (candles := sort_by Z.leb (fun p : nat * Align.Candle Bar => Align.time (snd p))
                    (Align.indexed ohlcv_df)) in *.
  destruct (mapM _ candles) as [e|written] eqn:E; [discriminate|].
  cbn in H. injection H as <-. exists candles, written.
  split; [reflexivity|]. split; [reflexivity|].
  apply mapM_inr in E as [Hlen Hel]. split; [exact Hlen|].
  intros i y Hy.
  destruct (lookup_lt_is_Some_2 candles i) as [p Hp].
  { rewrite <- Hlen. by eapply lookup_lt_Some. }
  exists p. split; [exact Hp|].
  destruct (Hel i p Hp) as (y' & Hy' & Hf). cbn in Hf. congruence.
Qed.



Lemma imap_snd {A} (g : nat -> nat) (l : list A) :
  map snd (imap (fun i x => (g i, x)) l) = l.
Proof.
  revert g. induction l as [|x l IH]; intros g; cbn; [reflexivity|].
  f_equal. apply (IH (g ∘ S)).
Qed.

Lemma imap_fst {A} (g : nat -> nat) (l : list A) :
  map fst (imap (fun i x => (g i, x)) l) = map g (seq 0 (length l)).
Proof.
  revert g. induction l as [|x l IH]; intros g; cbn; [reflexivity|].
  f_equal. etrans; [apply (IH (g ∘ S))|]. by rewrite <- seq_shift, map_map.
Qed.

Lemma indexed_snd {A} (l : list A) : map snd (Align.indexed l) = l.
Proof. apply (imap_snd id). Qed.

Lemma indexed_fst {A} (l : list A) : map fst (Align.indexed l) = seq 0 (length l).
Proof. unfold Align.indexed. rewrite (imap_fst id). apply map_id. Qed.

Lemma sorted_by_key {A} (key : A -> Z) (l : list A) :
  Sorted (key_le Z.leb key) l -> Sorted Z.le (map key l).
Proof.
  induction 1 as [|x l Hs IH Hhd]; cbn; constructor; [exact IH|].
  destruct Hhd as [|y l Hy]; cbn; constructor.
  unfold key_le in Hy. by apply Z.leb_le.
Qed.

(** X9: when the join returns, its rows are the candles of the input,
    none dropped and none twice, in ascending order of time, and each
    row still carries the index label its candle had in the input. *)
Theorem X9_join_keeps_every_candle {Bar : Type} (ohlcv_df : list (Align.Candle Bar))
    (news_df : list Align.News) (window_minutes : Z) (rows : list (Align.Tagged Bar)) :
  Align.tag_news_to_candles ohlcv_df news_df window_minutes = inr rows ->
  map Align.candle rows ≡ₚ ohlcv_df
  /\ map Align.label rows ≡ₚ seq 0 (length ohlcv_df)
  /\ Sorted Z.le (map (fun r => Align.time (Align.candle r)) rows)
  /\ forall r, r ∈ rows -> ohlcv_df !! Align.label r = Some (Align.candle r).
Proof.
  intros Hrun. apply tag_rows in Hrun as (candles & written & Hc & -> & _ & _).
  rewrite !map_map. cbn.
  assert (Hperm : candles ≡ₚ Align.indexed ohlcv_df) by (rewrite Hc; apply sort_by_perm).
  split; [|split; [|split]].
  - change (map (fun p : nat * Align.Candle Bar => snd p) candles) with (snd <$> candles).
    rewrite Hperm. change (snd <$> Align.indexed ohlcv_df) with (map snd (Align.indexed ohlcv_df)).
    by rewrite indexed_snd.
  - change (map (fun p : nat * Align.Candle Bar => fst p) candles) with (fst <$> candles).
    rewrite Hperm. change (fst <$> Align.indexed ohlcv_df) with (map fst (Align.indexed ohlcv_df)).
    by rewrite indexed_fst.
  - apply (sorted_by_key (fun p : nat * Align.Candle Bar => Align.time (snd p))).
    rewrite Hc. apply sort_by_sorted, Zleb_total.
  - intros r Hr.
    change (map ?f ?l) with (f <$> l) in Hr.
    apply list_elem_of_fmap in Hr as (p & -> & Hp). cbn.
    apply indexed_elem. by rewrite <- Hperm.
Qed.

(** X9 on [two_candles]. *)
Lemma X9_join_keeps_every_candle_witness :
  map Align.candle two_candles_tagged ≡ₚ two_candles.
Proof.
  apply (X9_join_keeps_every_candle two_candles two_news 60 two_candles_tagged).
  vm_compute. reflexivity.
Defined.





(** ** More on [merge_all_weeks] *)

Lemma week_files_agree (dir1 dir2 : gmap string Campaign.Table) :
  (forall f, Campaign.is_week_csv f = true -> dir1 !! f = dir2 !! f) ->
  Campaign.week_files dir1 = Campaign.week_files dir2.
Proof.
  intros Hagree. apply (Sorted_unique (key_le String.leb (@id string))).
  - apply sort_by_sorted, String.leb_total.
  - apply sort_by_sorted, String.leb_total.
  - apply NoDup_Permutation; [apply week_files_NoDup..|].
    intros f. rewrite !week_files_elem. split; intros [Hw Hf].
    + by rewrite <- (Hagree f Hw).
    + by rewrite (Hagree f Hw).
Qed.

Lemma merged_table_agree (dir1 dir2 : gmap string Campaign.Table) :
  (forall f, Campaign.is_week_csv f = true -> dir1 !! f = dir2 !! f) ->
  Campaign.merged_table dir1 = Campaign.merged_table dir2.
Proof.
  intros Hagree. unfold Campaign.merged_table.
  rewrite (week_files_agree dir1 dir2 Hagree). do 2 f_equal.
  apply map_ext_in. intros f Hf. apply list_elem_of_In, week_files_elem in Hf as [Hw _].
  unfold Campaign.read_csv. by rewrite (Hagree f Hw).
Qed.

(** X11: what [merge_all_weeks] writes depends on the weekly files only:
    two data directories that hold the same tables under the names
    [week_*.csv] get the same [fx_news.csv], whatever else they hold (an
    older merged output, other CSV files); and the merge leaves every
    other table, the other files, the page loads and the drivers as
    they were. *)
Theorem X11_merge_reads_only_week_files (w1 w2 : Campaign.World) :
  (forall f, Campaign.is_week_csv f = true ->
             Campaign.calendar w1 !! f = Campaign.calendar w2 !! f) ->
  (forall f t, Campaign.is_week_csv f = true -> Campaign.calendar w1 !! f = Some t ->
     Campaign.calendar (Campaign.merge_all_weeks w1) !! "fx_news.csv"
     = Campaign.calendar (Campaign.merge_all_weeks w2) !! "fx_news.csv")
  /\ (forall f, f <> "fx_news.csv" ->
        Campaign.calendar (Campaign.merge_all_weeks w1) !! f = Campaign.calendar w1 !! f)
  /\ Campaign.files (Campaign.merge_all_weeks w1) = Campaign.files w1
  /\ Campaign.fetched (Campaign.merge_all_weeks w1) = Campaign.fetched w1
  /\ Campaign.drivers (Campaign.merge_all_weeks w1) = Campaign.drivers w1.
Proof.
  intros Hagree. split; [|split; [|split; [|split]]].
  - intros f t Hw Hf.
    assert (Hin : f ∈ Campaign.week_files (Campaign.calendar w1))
      by (apply week_files_elem; eauto).
    unfold Campaign.merge_all_weeks.
    rewrite <- (week_files_agree _ _ Hagree), <- (merged_table_agree _ _ Hagree).
    destruct (Campaign.week_files (Campaign.calendar w1)); [by apply elem_of_nil in Hin|].
    cbn. by rewrite !lookup_insert_eq.
  - intros f Hne. destruct (merge_all_weeks_calendar w1) as [-> _].
    by apply merge_dir_lookup_ne.
  - unfold Campaign.merge_all_weeks.
    by destruct (Campaign.week_files (Campaign.calendar w1)).
  - apply merge_all_weeks_calendar.
  - unfold Campaign.merge_all_weeks.
    by destruct (Campaign.week_files (Campaign.calendar w1)).
Qed.

(** X11 on the two cached weeks, with and without an older merged
    output beside them. *)
Lemma X11_merge_reads_only_week_files_witness :
  Campaign.calendar (Campaign.merge_all_weeks cached_world) !! "fx_news.csv"
  = Campaign.calendar
      (Campaign.merge_all_weeks
         (Campaign.write_csv "fx_news.csv" [cpi_row "stale"] cached_world))
    !! "fx_news.csv".
Proof.
  destruct (X11_merge_reads_only_week_files cached_world
              (Campaign.write_csv "fx_news.csv" [cpi_row "stale"] cached_world))
    as [H _].
  - intros f Hw. cbn. rewrite lookup_insert_ne; [reflexivity|].
    intros <-. discriminate.
  - apply (H "week_20240701.csv" [cpi_row "0.3%"]); vm_compute; reflexivity.
Defined.

(** X12: [merge_all_weeks] logs the warning that nothing was found
    exactly when the data directory holds no file named [week_*.csv];
    it then writes nothing, so a merged output of an earlier run stays
    as it was. *)
Theorem X12_merge_without_week_files (w : Campaign.World) :
  (Campaign.log (Campaign.merge_all_weeks w)
   = (Campaign.WARNING, Campaign.NoCsvFound) :: (Campaign.INFO, Campaign.MergingAll)
       :: Campaign.log w
   <-> forall f, Campaign.is_week_csv f = true -> Campaign.calendar w !! f = None)
  /\ ((forall f, Campaign.is_week_csv f = true -> Campaign.calendar w !! f = None) ->
      Campaign.calendar (Campaign.merge_all_weeks w) = Campaign.calendar w).
Proof.
  assert (Hnil : Campaign.week_files (Campaign.calendar w) = [] <->
                 forall f, Campaign.is_week_csv f = true -> Campaign.calendar w !! f = None).
  { split.
    - intros E f Hw. destruct (Campaign.calendar w !! f) as [t|] eqn:Ef; [|reflexivity].
      assert (Hin : f ∈ Campaign.week_files (Campaign.calendar w))
        by (apply week_files_elem; eauto).
      rewrite E in Hin. by apply elem_of_nil in Hin.
    - intros Hnone. destruct (Campaign.week_files (Campaign.calendar w)) as [|f fs] eqn:E;
        [reflexivity|].
      assert (Hin : f ∈ Campaign.week_files (Campaign.calendar w)) by (rewrite E; left).
      apply week_files_elem in Hin as [Hw [t Ht]]. rewrite (Hnone f Hw) in Ht. discriminate. }
  split.
  - rewrite <- Hnil. unfold Campaign.merge_all_weeks.
    destruct (Campaign.week_files (Campaign.calendar w)); cbn; split; try done.
  - intros Hnone. apply Hnil in Hnone. unfold Campaign.merge_all_weeks.
    by rewrite Hnone.
Qed.

(** X12 on a directory that holds only an older merged output. *)
Lemma X12_merge_without_week_files_witness :
  Campaign.calendar
    (Campaign.merge_all_weeks (Campaign.write_csv "fx_news.csv" [cpi_row "0.3%"] empty_world))
  = Campaign.calendar (Campaign.write_csv "fx_news.csv" [cpi_row "0.3%"] empty_world).
Proof.
  apply (X12_merge_without_week_files
           (Campaign.write_csv "fx_news.csv" [cpi_row "0.3%"] empty_world)).
  intros f Hw. cbn. rewrite lookup_insert_ne; [reflexivity|].
  intros <-. discriminate.
Defined.

(** ** The shape of the event identifiers *)

Lemma hex_digit_is_hex (d : Z) :
  0 <= d < 16 -> is_hex_digit (MD5.hex_digit d) = true.
Proof.
  intros Hd. rewrite <- (Z2Nat.id d) by lia.
  assert (Hn : (Z.to_nat d < 16)%nat) by lia.
  generalize dependent (Z.to_nat d). clear d Hd. intros n Hn.
  do 16 (destruct n as [|n]; [reflexivity|]). lia.
Qed.

Lemma le_bytes_range (n : nat) (z : Z) :
  length (MD5.le_bytes n z) = n /\ Forall (fun b => 0 <= b < 256) (MD5.le_bytes n z).
Proof.
  revert z. induction n as [|n IH]; intros z; cbn; [by split|].
  destruct (IH (z / 256)) as [Hl Hf]. split; [by rewrite Hl|].
  constructor; [|exact Hf]. apply Z.mod_pos_bound. lia.
Qed.

Lemma hex_shape (bs : list Z) :
  Forall (fun b => 0 <= b < 256) bs ->
  String.length (MD5.hex bs) = (2 * length bs)%nat
  /\ all_chars is_hex_digit (MD5.hex bs) = true.
Proof.
  induction 1 as [|b bs Hb Hbs [IHl IHc]]; [by split|].
  cbn [MD5.hex String.length all_chars length]. split; [rewrite IHl; lia|].
  rewrite !hex_digit_is_hex, IHc; [reflexivity| |].
  - apply Z.mod_pos_bound. lia.
  - split; [apply Z.div_pos; lia | apply Z.div_lt_upper_bound; lia].
Qed.

Lemma hexdigest_shape (s : string) : is_md5_text (MD5.hexdigest s) = true.
Proof.
  unfold is_md5_text, MD5.hexdigest, MD5.digest.
  set (st := MD5.blocks _ _ _).
  destruct (hex_shape (MD5.le_bytes 4 (MD5.sa st) ++ MD5.le_bytes 4 (MD5.sb st)
                         ++ MD5.le_bytes 4 (MD5.sc st) ++ MD5.le_bytes 4 (MD5.sd st)))
    as [Hl Hc].
  { repeat (apply Forall_app; split); apply le_bytes_range. }
  rewrite Hl, Hc, !length_app.
  by rewrite !(proj1 (le_bytes_range 4 _)).
Qed.

Lemma json_days_events (env : Scraper.Env) (days : list JsVal) (evs : list Scraper.Event)
    (e : Scraper.Event) :
  Scraper.json_days env days = ok evs -> e ∈ evs ->
  exists d kv, Scraper.json_event env d (JDict kv) = Some e.
Proof.
  revert evs. induction days as [|day days IH]; intros evs H He; cbn in H.
  - injection H as <-. by apply elem_of_nil in He.
  - destruct (Scraper.json_day env day) as [x|evs1] eqn:Ed; [discriminate|]. cbn in H.
    destruct (Scraper.json_days env days) as [x|evs2] eqn:Er; [discriminate|]. cbn in H.
    injection H as <-. apply elem_of_app in He as [He | He]; [|by eapply IH].
    unfold Scraper.json_day in Ed. destruct day as [| | | | |kv]; try discriminate.
    destruct (Scraper.day_label env kv) as [x|date_str]; [discriminate|]. cbn in Ed.
    destruct (Scraper.day_items kv) as [x|items]; [discriminate|]. cbn in Ed.
    injection Ed as <-. apply list_elem_of_omap in He as (ev & _ & Hev).
    destruct ev as [| | | | |kv']; try discriminate. eauto.
Qed.

(** X13: every [event_id] that one of the three parsers puts in a row is
    the text of an MD5 digest: 32 characters, each one of [0-9a-f]. *)
Theorem X13_event_ids_are_md5_text (env : Scraper.Env) (e : Scraper.Event) :
  (forall html df, Scraper.parse_calendar_html env html = ok df -> e ∈ df ->
                   is_md5_text (Scraper.event_id e) = true)
  /\ (forall data df, Scraper.parse_calendar_html_json env data = ok df -> e ∈ df ->
                      is_md5_text (Scraper.event_id e) = true)
  /\ (forall html week_date, e ∈ Scraper.parse_calendar_dom html week_date ->
                             is_md5_text (Scraper.event_id e) = true).
Proof.
  split; [|split].
  - intros html df H He.
    destruct (parse_calendar_html_events _ _ _ _ H He) as (d & kv & Hev).
    apply html_event_fields in Hev as (ts & secs & _ & _ & _ & _ & _ & ->).
    apply hexdigest_shape.
  - intros data df H He. unfold Scraper.parse_calendar_html_json in H.
    destruct (Js.contains "days" _) as [x|present]; [discriminate|]. cbn in H.
    destruct (negb present); [discriminate|].
    destruct (Js.item "days" _) as [x|ds]; [discriminate|]. cbn in H.
    destruct (Js.iter ds) as [x|days]; [discriminate|]. cbn in H.
    destruct (json_days_events _ _ _ _ H He) as (d & kv & Hev).
    apply json_event_fields in Hev as (ts & secs & _ & _ & _ & _ & _ & ->).
    apply hexdigest_shape.
  - intros html wd He. unfold Scraper.parse_calendar_dom in He.
    apply dom_rows_elem in He as (before & row & after & _ & Hev).
    unfold Scraper.dom_row_event in Hev.
    destruct (_ || _); [discriminate|].
    destruct (Scraper.parse_calendar_time _ _ _) as [x|ts]; [discriminate|].
    injection Hev as <-. apply hexdigest_shape.
Qed.

(** X13 on the page with one usable event. *)
Lemma X13_event_ids_are_md5_text_witness :
  exists e df,
    Scraper.parse_calendar_html utc_env good_page = ok df /\ e ∈ df
    /\ is_md5_text (Scraper.event_id e) = true.
Proof.
  destruct (Scraper.parse_calendar_html utc_env good_page) as [x|[|e df]] eqn:E;
    [discriminate E | discriminate E |].
  exists e, (e :: df). split; [reflexivity|]. split; [left|].
  apply (proj1 (X13_event_ids_are_md5_text utc_env e) good_page (e :: df) E). left.
Defined.

(** ** The state literal found by the pattern of [parse_calendar_html] *)

Lemma lit_app (p s : string) : Scraper.lit p (p +:+ s) = Some s.
Proof.
  induction p as [|a p IH]; [reflexivity|].
  change (String a p +:+ s) with (String a (p +:+ s)).
  cbn [Scraper.lit]. by rewrite Ascii.eqb_refl.
Qed.

Lemma lit_Some (p s s' : string) : Scraper.lit p s = Some s' -> s = p +:+ s'.
Proof.
  revert s. induction p as [|a p IH]; intros s H; cbn in H.
  - by injection H as ->.
  - destruct s as [|b s]; [discriminate|].
    destruct (Ascii.eqb a b) eqn:E; [|discriminate].
    apply Ascii.eqb_eq in E as ->. rewrite (IH _ H). reflexivity.
Qed.

Lemma lit_startswith (p s : string) :
  Scraper.lit p s = None -> PyStr.startswith p s = false.
Proof.
  revert s. induction p as [|a p IH]; intros s H; cbn in H; [discriminate|].
  destruct s as [|b s]; [reflexivity|]. cbn.
  destruct (Ascii.eqb a b); [by apply IH | reflexivity].
Qed.

Lemma then_ws_Some (p s s' : string) :
  Scraper.then_ws p s = Some s' -> exists mid, s = p +:+ mid +:+ s'.
Proof.
  unfold Scraper.then_ws. intros H.
  destruct (Scraper.lit p s) as [r|] eqn:E; [|discriminate].
  injection H as <-. apply lit_Some in E as ->.
  destruct (lstrip_suffix r) as [pre Hpre]. exists pre. by rewrite <- Hpre.
Qed.

(** The lazy stretch stops at the first ["};"]. *)
Lemma upto_close_Some (s r : string) :
  Scraper.upto_close s = Some r ->
  exists body post,
    r = body +:+ "}" /\ s = body +:+ "};" +:+ post
    /\ Js.has_substring "};" (body +:+ "}") = false.
Proof.
  revert r. induction s as [|c s IH]; intros r H; [discriminate|].
  cbn [Scraper.upto_close] in H.
  destruct (Scraper.lit "};" (String c s)) as [post|] eqn:E.
  - injection H as <-. apply lit_Some in E. exists "", post. by repeat split.
  - destruct (Scraper.upto_close s) as [r'|]; [|discriminate]. injection H as <-.
    destruct (IH r' eq_refl) as (body & post & -> & -> & Hno).
    exists (String c body), post. split; [reflexivity|]. split; [reflexivity|].
    change (String c body +:+ "}") with (String c (body +:+ "}")).
    cbn [Js.has_substring]. rewrite Hno, orb_false_r.
    apply lit_startswith in E.
    destruct body as [|b body].
    + change ("" +:+ "}") with "}". cbn [PyStr.startswith].
      destruct (Ascii.eqb "}" c); reflexivity.
    + change (String b body +:+ "}") with (String b (body +:+ "}")).
      change (String b body +:+ "};" +:+ post)
        with (String b (body +:+ "};" +:+ post)) in E.
      cbn [PyStr.startswith] in E |- *. exact E.
Qed.

Lemma upto_close_found (body post : string) :
  is_Some (Scraper.upto_close (body +:+ "};" +:+ post)).
Proof.
  induction body as [|c body [r IH]].
  - by eexists.
  - change (String c body +:+ "};" +:+ post) with (String c (body +:+ "};" +:+ post)).
    cbn [Scraper.upto_close].
    destruct (Scraper.lit "};" _); [by eexists|]. rewrite IH. by eexists.
Qed.

Lemma match_here_Some (s g : string) :
  Scraper.match_here s = Some g ->
  exists mid body post,
    s = "calendarComponentStates" +:+ mid +:+ g +:+ ";" +:+ post
    /\ g = "{" +:+ body +:+ "}"
    /\ Js.has_substring "};" (body +:+ "}") = false.
Proof.
  unfold Scraper.match_here. intros H.
  destruct (Scraper.then_ws "calendarComponentStates" s) as [s1|] eqn:E1; [|discriminate].
  destruct (Scraper.then_ws "[" s1) as [s2|] eqn:E2; [|discriminate].
  destruct (Scraper.then_ws "1" s2) as [s3|] eqn:E3; [|discriminate].
  destruct (Scraper.then_ws "]" s3) as [s4|] eqn:E4; [|discriminate].
  destruct (Scraper.then_ws "=" s4) as [s5|] eqn:E5; [|discriminate].
  destruct (Scraper.lit "{" s5) as [s6|] eqn:E6; [|discriminate].
  destruct (Scraper.upto_close s6) as [r|] eqn:E7; [|discriminate].
  injection H as <-.
  apply then_ws_Some in E1 as [m1 ->]. apply then_ws_Some in E2 as [m2 ->].
  apply then_ws_Some in E3 as [m3 ->]. apply then_ws_Some in E4 as [m4 ->].
  apply then_ws_Some in E5 as [m5 ->]. apply lit_Some in E6 as ->.
  apply upto_close_Some in E7 as (body & post & -> & -> & Hno).
  exists (m1 +:+ "[" +:+ m2 +:+ "1" +:+ m3 +:+ "]" +:+ m4 +:+ "=" +:+ m5), body, post.
  split; [|by split].
  rewrite !append_assoc.
  change (String "{" (body +:+ "}") +:+ ";" +:+ post)
    with (String "{" ((body +:+ "}") +:+ ";" +:+ post)).
  rewrite (append_assoc body). reflexivity.
Qed.

Lemma match_here_canonical (rest r : string) :
  Scraper.upto_close rest = Some r ->
  Scraper.match_here ("calendarComponentStates[1] = {" +:+ rest) = Some (String "{" r).
Proof.
  intros H. unfold Scraper.match_here.
  cbv -[Scraper.upto_close]. by rewrite H.
Qed.

Lemma search_state_unfold (html : string) :
  Scraper.search_state html
  = match Scraper.match_here html with
    | Some g => Some g
    | None =>
        match html with
        | EmptyString => None
        | String _ rest => Scraper.search_state rest
        end
    end.
Proof. by destruct html. Qed.

(** X14: the literal that the pattern of [parse_calendar_html] captures
    is a brace, a stretch and a closing brace, stands in the page right
    before a semicolon, and holds no ["};"]: the capture ends at the
    first brace that a semicolon follows, also when that brace is not
    the end of the object.  A page that holds
    [calendarComponentStates[1] = {...};] always gives a capture. *)
Theorem X14_state_capture (html : string) :
  (forall g, Scraper.search_state html = Some g ->
     exists pre body post,
       html = pre +:+ g +:+ ";" +:+ post
       /\ g = "{" +:+ body +:+ "}"
       /\ Js.has_substring "};" g = false)
  /\ (forall pre body post,
        html = pre +:+ "calendarComponentStates[1] = {" +:+ body +:+ "};" +:+ post ->
        is_Some (Scraper.search_state html)).
Proof.
  split.
  - induction html as [|c html IH]; intros g H; rewrite search_state_unfold in H.
    + destruct (Scraper.match_here "") eqn:E; discriminate.
    + destruct (Scraper.match_here (String c html)) as [g'|] eqn:E.
      * injection H as ->.
        apply match_here_Some in E as (mid & body & post & E & -> & Hno).
        exists ("calendarComponentStates" +:+ mid), body, post.
        split; [by rewrite append_assoc|]. split; [reflexivity|].
        change ("{" +:+ body +:+ "}") with (String "{" (body +:+ "}")).
        cbn [Js.has_substring]. rewrite Hno, orb_false_r.
        reflexivity.
      * destruct (IH g H) as (pre & body & post & -> & -> & Hno).
        exists (String c pre), body, post. by repeat split.
  - intros pre body post ->. induction pre as [|c pre IH].
    + rewrite search_state_unfold.
      destruct (upto_close_found body post) as [r Hr].
      change ("" +:+ "calendarComponentStates[1] = {" +:+ body +:+ "};" +:+ post)
        with ("calendarComponentStates[1] = {" +:+ (body +:+ "};" +:+ post)).
      rewrite (match_here_canonical _ r Hr). by eexists.
    + rewrite search_state_unfold.
      destruct (Scraper.match_here _); [by eexists|]. exact IH.
Qed.

(** X14 on a page whose state holds the text ["};"] inside a string. *)
Lemma X14_state_capture_witness :
  Scraper.search_state "x calendarComponentStates[1] = {a:'};'};" = Some "{a:'}"
  /\ Js.has_substring "};" "{a:'}" = false.
Proof.
  split; [vm_compute; reflexivity|].
  destruct (proj1 (X14_state_capture "x calendarComponentStates[1] = {a:'};'};") "{a:'}")
    as (pre & body & post & _ & _ & Hno); [vm_compute; reflexivity | exact Hno].
Defined.

(** ** The two parsers of the embedded state, side by side *)

(** An event that [parse_calendar_html] turns into a row gives the same
    row, keyed anew, in [parse_calendar_html_json]. *)
Lemma html_event_json (env : Scraper.Env) (d : string) (ev : JsVal) (e : Scraper.Event) :
  Scraper.html_event env d ev = Some e ->
  Scraper.json_event env d ev = Some (rekey_json e).
Proof.
  unfold Scraper.html_event, Scraper.json_event. intros H.
  destruct (Scraper.html_event_try env d ev) as [|r] eqn:E; [discriminate|]. subst r.
  unfold Scraper.html_event_try in E. destruct ev as [| | | | |kv]; try discriminate.
  unfold Scraper.json_event_try, Js.item.
  destruct (Js.get "dateline" kv) as [ts|]; [|discriminate].
  destruct (negb (Js.truthy ts)); [discriminate|]. cbn [rbind ok].
  destruct (Scraper.as_seconds ts) as [|secs]; [discriminate|]. cbn [rbind] in E |- *.
  destruct (datetime.fromtimestamp _ secs) as [|t]; [discriminate|]. cbn [rbind] in E |- *.
  destruct (Js.get_stripped "name" kv); [discriminate|]. cbn [rbind] in E |- *.
  destruct (Js.get_stripped "currency" kv); [discriminate|]. cbn [rbind] in E |- *.
  destruct (Js.get_stripped "impactTitle" kv); [discriminate|]. cbn [rbind] in E |- *.
  destruct (Js.get_stripped "actual" kv); [discriminate|]. cbn [rbind] in E |- *.
  destruct (Js.get_stripped "forecast" kv); [discriminate|]. cbn [rbind] in E |- *.
  destruct (Js.get_stripped "previous" kv); [discriminate|]. cbn [rbind] in E |- *.
  unfold ok in E. injection E as <-. reflexivity.
Qed.

(** An event that only [parse_calendar_html_json] turns into a row has
    [dateline] zero (or [false]): its timestamp is the epoch. *)
Lemma json_event_only (env : Scraper.Env) (d : string) (ev : JsVal) (e' : Scraper.Event) :
  Scraper.json_event env d ev = Some e' ->
  Scraper.html_event env d ev = None ->
  datetime.fromtimestamp (Scraper.utcoffset env) 0 = ok (Scraper.timestamp e').
Proof.
  unfold Scraper.html_event, Scraper.json_event. intros H Hnone.
  destruct (Scraper.json_event_try env d ev) as [|r] eqn:E; [discriminate|].
  injection H as ->.
  unfold Scraper.json_event_try, Js.item in E. destruct ev as [| | | | |kv]; try discriminate.
  unfold Scraper.html_event_try in Hnone.
  destruct (Js.get "dateline" kv) as [ts|]; [|discriminate]. cbn [rbind ok] in E.
  destruct (Scraper.as_seconds ts) as [|secs] eqn:Es; [discriminate|].
  cbn [rbind] in E, Hnone.
  destruct (datetime.fromtimestamp _ secs) as [|t] eqn:Et; [discriminate|].
  cbn [rbind] in E, Hnone.
  destruct (Js.get_stripped "name" kv); [discriminate|]. cbn [rbind] in E, Hnone.
  destruct (Js.get_stripped "currency" kv); [discriminate|]. cbn [rbind] in E, Hnone.
  destruct (Js.get_stripped "impactTitle" kv); [discriminate|]. cbn [rbind] in E, Hnone.
  destruct (Js.get_stripped "actual" kv); [discriminate|]. cbn [rbind] in E, Hnone.
  destruct (Js.get_stripped "forecast" kv); [discriminate|]. cbn [rbind] in E, Hnone.
  destruct (Js.get_stripped "previous" kv); [discriminate|]. cbn [rbind] in E, Hnone.
  unfold ok in E. injection E as <-. cbn.
  destruct (Js.truthy ts) eqn:Etr; [discriminate|].
  destruct ts as [|b|n| | |]; try discriminate; cbn in Etr, Es; unfold ok in Es;
    injection Es as <-.
  - by subst b.
  - apply negb_false_iff, Z.eqb_eq in Etr. by subst n.
Qed.

Lemma omap_html_json (env : Scraper.Env) (d : string) (items : list JsVal) :
  map rekey_json (omap (Scraper.html_event env d) items)
    `sublist_of` omap (Scraper.json_event env d) items
  /\ forall e', e' ∈ omap (Scraper.json_event env d) items ->
       (exists e, e ∈ omap (Scraper.html_event env d) items /\ e' = rekey_json e)
       \/ datetime.fromtimestamp (Scraper.utcoffset env) 0 = ok (Scraper.timestamp e').
Proof.
  induction items as [|ev items [IHs IHe]]; [split; [constructor | by intros e' ?%elem_of_nil]|].
  change (omap ?f (ev :: items))
    with (match f ev with Some y => y :: omap f items | None => omap f items end).
  destruct (Scraper.html_event env d ev) as [e|] eqn:Eh.
  - change (omap (Scraper.json_event env d) (ev :: items))
      with (match Scraper.json_event env d ev with
            | Some y => y :: omap (Scraper.json_event env d) items
            | None => omap (Scraper.json_event env d) items end).
    rewrite (html_event_json _ _ _ _ Eh).
    split; [by apply sublist_skip|].
    intros e' [-> | He']%elem_of_cons.
    + left. exists e. split; [left | reflexivity].
    + destruct (IHe e' He') as [(e0 & He0 & ->) | Hep]; [left | by right].
      exists e0. split; [by right | reflexivity].
  - change (omap (Scraper.json_event env d) (ev :: items))
      with (match Scraper.json_event env d ev with
            | Some y => y :: omap (Scraper.json_event env d) items
            | None => omap (Scraper.json_event env d) items end).
    destruct (Scraper.json_event env d ev) as [e1|] eqn:Ej; [|by split].
    split; [by apply sublist_cons|].
    intros e' [-> | He']%elem_of_cons; [right; by eapply json_event_only | by apply IHe].
Qed.

Lemma html_days_json (env : Scraper.Env) (days : list JsVal) (df : list Scraper.Event) :
  Scraper.html_days env days = ok df ->
  exists df',
    Scraper.json_days env days = ok df'
    /\ map rekey_json df `sublist_of` df'
    /\ forall e', e' ∈ df' ->
         (exists e, e ∈ df /\ e' = rekey_json e)
         \/ datetime.fromtimestamp (Scraper.utcoffset env) 0 = ok (Scraper.timestamp e').
Proof.
  revert df. induction days as [|day days IH]; intros df H; cbn in H.
  - injection H as <-. exists []. split; [reflexivity|].
    split; [constructor | by intros e' ?%elem_of_nil].
  - destruct (Scraper.html_day env day) as [x|evs1] eqn:Ed; [discriminate|]. cbn in H.
    destruct (Scraper.html_days env days) as [x|evs2] eqn:Er; [discriminate|]. cbn in H.
    injection H as <-. destruct (IH evs2 eq_refl) as (df2 & Hj & Hs & He).
    unfold Scraper.html_day in Ed. destruct day as [| | | | |kv]; try discriminate.
    destruct (Scraper.day_label env kv) as [x|date_str] eqn:El; [discriminate|]. cbn in Ed.
    destruct (Scraper.day_items kv) as [x|items] eqn:Ei; [discriminate|]. cbn in Ed.
    injection Ed as <-.
    destruct (omap_html_json env date_str items) as [Hs1 He1].
    exists (omap (Scraper.json_event env date_str) items ++ df2).
    cbn [Scraper.json_days Scraper.json_day]. rewrite El, Ei, Hj. cbn [rbind ok].
    split; [reflexivity|]. split.
    + rewrite map_app. by apply sublist_app.
    + intros e' [He' | He']%elem_of_app.
      * destruct (He1 e' He') as [(e0 & He0 & ->) | Hep]; [left | by right].
        exists e0. split; [apply elem_of_app; by left | reflexivity].
      * destruct (He e' He') as [(e0 & He0 & ->) | Hep]; [left | by right].
        exists e0. split; [apply elem_of_app; by right | reflexivity].
Qed.

(** X15: on a decoded state without a top-level [days], whenever
    [parse_calendar_html] returns a table, [parse_calendar_html_json]
    returns one too, holding the same rows in the same order under its
    own identity keys; a row with a name is the very same row; and a row
    that only the second parser has comes from a [dateline] of zero,
    which the first parser skips and the second reads as the epoch. *)
Theorem X15_json_parser_covers_html_parser (env : Scraper.Env) (html : Scraper.Page)
    (data : list (string * JsVal)) (df : list Scraper.Event) :
  Scraper.parse_calendar_html env html = ok df ->
  Scraper.script_value html = Some (JDict data) ->
  Js.get "days" data = None ->
  exists df',
    Scraper.parse_calendar_html_json env data = ok df'
    /\ map rekey_json df `sublist_of` df'
    /\ (forall e, e ∈ df -> Scraper.event e <> "" -> e ∈ df')
    /\ (forall e', e' ∈ df' ->
          (exists e, e ∈ df /\ e' = rekey_json e)
          \/ datetime.fromtimestamp (Scraper.utcoffset env) 0 = ok (Scraper.timestamp e')).
Proof.
  intros Hrun Hval Hdays.
  assert (Hkeys : forall e, e ∈ df -> Scraper.event e <> "" -> rekey_json e = e).
  { intros e He Hname.
    destruct (parse_calendar_html_events _ _ _ _ Hrun He) as (d & kv & Hev).
    apply html_event_fields in Hev as (ts & secs & _ & _ & _ & _ & _ & Hid).
    destruct e as [t c i n a f p dd k]. cbn in *. unfold rekey_json. cbn. f_equal.
    rewrite Hid. unfold Scraper.json_id, Scraper.html_id, PyStr.or_else.
    destruct n; [contradiction | reflexivity]. }
  unfold Scraper.parse_calendar_html in Hrun.
  destruct (Scraper.search_state _); [|discriminate]. rewrite Hval in Hrun.
  unfold Scraper.find_days in Hrun. rewrite Hdays in Hrun. cbn [Js.truthy] in Hrun.
  unfold Scraper.parse_calendar_html_json.
  destruct (Js.get "1" data) as [[| | | | |inner]|]; try discriminate.
  cbn [rbind ok] in Hrun. cbn [Js.contains Js.item].
  destruct (Js.get "days" inner) as [ds|]; [|discriminate]. cbn [rbind ok negb].
  destruct (negb (Js.truthy ds)); [discriminate|].
  destruct (Js.iter ds) as [x|days]; [discriminate|]. cbn [rbind] in Hrun |- *.
  destruct (html_days_json env days df Hrun) as (df' & Hj & Hs & He).
  exists df'. split; [exact Hj|]. split; [exact Hs|]. split; [|exact He].
  intros e Hin Hname. rewrite <- (Hkeys e Hin Hname).
  eapply elem_of_sublist; [|exact Hs].
  change (map rekey_json df) with (rekey_json <$> df). apply list_elem_of_fmap. eauto.
Qed.

(** X15 on a state with a named event and an event of [dateline] zero:
    the first parser gives one row, the second two. *)
Lemma X15_json_parser_covers_html_parser_witness :
  exists df df',
    Scraper.parse_calendar_html utc_env nested_state_page = ok df
    /\ Scraper.parse_calendar_html_json utc_env nested_state = ok df'
    /\ map rekey_json df `sublist_of` df'
    /\ length df = 1%nat /\ length df' = 2%nat.
Proof.
  destruct (Scraper.parse_calendar_html utc_env nested_state_page) as [x|df] eqn:E;
    [discriminate E|].
  destruct (X15_json_parser_covers_html_parser utc_env nested_state_page nested_state df E)
    as (df' & H1 & H2 & _); [reflexivity | reflexivity |].
  exists df, df'. split; [reflexivity|]. split; [exact H1|]. split; [exact H2|].
  vm_compute in E. injection E as <-. vm_compute in H1. injection H1 as <-.
  by split.
Defined.

(** ** Every outcome of [generate_labels] *)

Section LabelOutcomes.

Context {Row num : Type}.
Context (close : Row -> num).
Context (sub : num -> num -> num) (neg : num -> num) (ltb : num -> num -> bool).






End LabelOutcomes.


(** ** The filters and the labelling script *)

Lemma take_app_length (a b : string) : PyStr.take (String.length a) (a +:+ b) = a.
Proof.
  induction a as [|c a IH]; [by destruct b|].
  change (String c a +:+ b) with (String c (a +:+ b)).
  cbn [String.length PyStr.take]. by rewrite IH.
Qed.

Lemma drop_app_length (a b : string) : PyStr.drop (String.length a) (a +:+ b) = b.
Proof.
  induction a as [|c a IH]; [by destruct b|].
  change (String c a +:+ b) with (String c (a +:+ b)).
  cbn [String.length PyStr.drop]. exact IH.
Qed.

Lemma take_length (a : string) : PyStr.take (String.length a) a = a.
Proof. induction a as [|c a IH]; cbn; [reflexivity | by rewrite IH]. Qed.

Section FilterProperties.

Context {num : Type}.
Context (sub : num -> num -> num) (neg abs_ : num -> num).
Context (ltb leb : num -> num -> bool).

Lemma cell_in_Some (cell : option string) (l : list string) :
  Filters.cell_in cell l = true <-> exists s, cell = Some s /\ s ∈ l.
Proof.
  unfold Filters.cell_in. destruct cell as [s|].
  - rewrite existsb_exists. split.
    + intros (x & Hx & Heq). apply String.eqb_eq in Heq. subst x.
      exists s. split; [reflexivity|]. by apply list_elem_of_In.
    + intros (s' & [= <-] & Hs). exists s. split; [by apply list_elem_of_In|].
      apply String.eqb_refl.
  - split; [discriminate | by intros (s & ? & _)].
Qed.

(** The symbol counts through its first six characters only. *)
Lemma is_news_relevant_pair (row : @Filters.Row num) (base quote rest : string)
    (filters : @Filters.Settings num) :
  String.length base = 3%nat -> String.length quote = 3%nat ->
  Filters.is_news_relevant row (base +:+ quote +:+ rest) filters
  = match Filters.news_currency row with
    | None => false
    | Some _ =>
        Filters.cell_in (Filters.news_impact row) (Filters.allowed_impacts filters)
        && match Filters.minutes_from_news row with
           | Some m => Z.abs m <=? Filters.max_minutes_from_news filters
           | None => false
           end
        && Filters.cell_in (Filters.news_currency row) [base; quote]
    end.
Proof.
  intros Hb Hq. unfold Filters.is_news_relevant.
  pose proof (take_app_length base (quote +:+ rest)) as H1.
  pose proof (drop_app_length base (quote +:+ rest)) as H2.
  pose proof (take_app_length quote rest) as H3.
  rewrite Hb in H1, H2. rewrite Hq in H3. by rewrite H1, H2, H3.
Qed.

(** X17: [apply_filters] keeps rows of the table in their order and
    invents none; for a symbol that starts with a base and a quote
    currency of three letters each, what follows them plays no role;
    every row it keeps has news whose currency is the base or the quote,
    whose impact is one of the allowed ones and whose distance in
    minutes is within the bound, and is volatile; a row without news is
    never kept; and a negative bound on the minutes leaves no row. *)
Theorem X17_apply_filters (df : list (@Filters.Row num)) (base quote rest : string)
    (filters : @Filters.Settings num) :
  String.length base = 3%nat -> String.length quote = 3%nat ->
  Filters.apply_filters sub abs_ leb df (base +:+ quote +:+ rest) filters `sublist_of` df
  /\ Filters.apply_filters sub abs_ leb df (base +:+ quote +:+ rest) filters
     = Filters.apply_filters sub abs_ leb df (base +:+ quote) filters
  /\ (forall row,
        row ∈ Filters.apply_filters sub abs_ leb df (base +:+ quote +:+ rest) filters ->
        exists cur imp m,
          Filters.news_currency row = Some cur /\ (cur = base \/ cur = quote)
          /\ Filters.news_impact row = Some imp /\ imp ∈ Filters.allowed_impacts filters
          /\ Filters.minutes_from_news row = Some m
          /\ Z.abs m <= Filters.max_minutes_from_news filters
          /\ Filters.is_candle_volatile sub abs_ leb row filters = true)
  /\ (Filters.max_minutes_from_news filters < 0 ->
      Filters.apply_filters sub abs_ leb df (base +:+ quote +:+ rest) filters = []).
Proof.
  intros Hb Hq.
  assert (Hkept : forall row,
            row ∈ Filters.apply_filters sub abs_ leb df (base +:+ quote +:+ rest) filters ->
            exists cur imp m,
              Filters.news_currency row = Some cur /\ (cur = base \/ cur = quote)
              /\ Filters.news_impact row = Some imp /\ imp ∈ Filters.allowed_impacts filters
              /\ Filters.minutes_from_news row = Some m
              /\ Z.abs m <= Filters.max_minutes_from_news filters
              /\ Filters.is_candle_volatile sub abs_ leb row filters = true).
  { intros row Hrow. unfold Filters.apply_filters in Hrow.
    apply list_elem_of_filter in Hrow as [Hp _].
    apply andb_true_iff in Hp as [Hn Hv].
    rewrite (is_news_relevant_pair row base quote rest filters Hb Hq) in Hn.
    destruct (Filters.news_currency row) as [cur|] eqn:Ec; [|discriminate].
    apply andb_true_iff in Hn as [Hn Hcur]. apply andb_true_iff in Hn as [Himp Hm].
    apply cell_in_Some in Himp as (imp & Himp & Hin).
    apply cell_in_Some in Hcur as (cur' & [= <-] & Hcur).
    destruct (Filters.minutes_from_news row) as [m|]; [|discriminate].
    apply Z.leb_le in Hm. exists cur, imp, m.
    repeat (split; [first [reflexivity | assumption]|]); try assumption.
    split; [|by repeat split].
    apply elem_of_cons in Hcur as [-> | Hcur]; [by left|].
    apply list_elem_of_singleton in Hcur as ->. by right. }
  split; [apply sublist_filter|]. split; [|split; [exact Hkept|]].
  - unfold Filters.apply_filters. apply list_filter_iff. intros row.
    rewrite (is_news_relevant_pair row base quote rest filters Hb Hq).
    replace (base +:+ quote) with (base +:+ quote +:+ "").
    + by rewrite (is_news_relevant_pair row base quote "" filters Hb Hq).
    + f_equal. clear. induction quote as [|c q IH]; [reflexivity|].
      change (String c (q +:+ "") = String c q). by rewrite IH.
  - intros Hneg.
    destruct (Filters.apply_filters sub abs_ leb df (base +:+ quote +:+ rest) filters)
      as [|row l] eqn:E; [reflexivity|].
    destruct (Hkept row) as (cur & imp & m & _ & _ & _ & _ & _ & Hm & _); [left|]. lia.
Qed.



End FilterProperties.

(** X17 on three rows and the symbol [EURUSDm]. *)
Lemma X17_apply_filters_witness :
  Filters.apply_filters Z.sub Z.abs Z.leb three_rows "EURUSDm" default_filters
  = Filters.apply_filters Z.sub Z.abs Z.leb three_rows "EURUSD" default_filters.
Proof.
  apply (X17_apply_filters Z.sub Z.abs Z.leb three_rows "EUR" "USD" "m" default_filters);
    reflexivity.
Defined.


(** ** The table parser *)

Lemma next_date_text (cur : option string) (tr : Fallback.Tr) :
  Fallback.next_date cur tr = match date_text tr with Some d => Some d | None => cur end.
Proof.
  unfold Fallback.next_date, date_text.
  destruct (Fallback.date_td tr) as [text|]; [|reflexivity].
  by destruct (PyStr.nonempty (PyStr.strip text)).
Qed.

Lemma fold_next_date (trs : list Fallback.Tr) (cur : option string) :
  fold_left Fallback.next_date trs cur
  = match last_date trs with Some d => Some d | None => cur end.
Proof.
  unfold last_date. revert cur. induction trs as [|tr trs IH]; intros cur; [reflexivity|].
  cbn [fold_left]. rewrite IH, next_date_text.
  change (omap date_text (tr :: trs))
    with (match date_text tr with
          | Some y => y :: omap date_text trs
          | None => omap date_text trs
          end).
  destruct (date_text tr) as [d|]; [|reflexivity].
  destruct (omap date_text trs) as [|x l] eqn:E; [reflexivity|].
  rewrite last_cons_cons, (last_cons x l). by destruct (last l).
Qed.

Lemma last_date_nonempty (trs : list Fallback.Tr) (d : string) :
  last_date trs = Some d -> PyStr.nonempty d = true.
Proof.
  unfold last_date. intros H.
  assert (Hin : d ∈ omap date_text trs).
  { apply last_Some in H as [l ->]. apply elem_of_app. right. left. }
  apply list_elem_of_omap in Hin as (tr & _ & Htr). unfold date_text in Htr.
  destruct (Fallback.date_td tr) as [text|]; [|discriminate].
  destruct (PyStr.nonempty (PyStr.strip text)) eqn:E; [|discriminate].
  by injection Htr as <-.
Qed.

(** A row is appended exactly for a [tr] with a currency cell under a
    date that has been read. *)
Lemma tr_row_Some (wd : option datetime.t) (cur : option string) (tr : Fallback.Tr) :
  is_Some (Fallback.tr_row wd cur tr)
  <-> (exists d, cur = Some d /\ PyStr.nonempty d = true)
      /\ is_Some (Fallback.currency_td tr).
Proof.
  unfold Fallback.tr_row. destruct cur as [d|].
  - destruct (Fallback.currency_td tr) as [c|].
    + destruct (PyStr.nonempty d) eqn:E; cbn [negb].
      * split; [intros _|by eexists]. split; [by exists d | by eexists].
      * split; [by intros [? ?]|]. intros [(d' & [= <-] & Hd) _]. congruence.
    + split; [by intros [? ?] | by intros [_ [? ?]]].
  - split; [by intros [? ?] | by intros [(d & ? & _) _]].
Qed.

Lemma rows_of_elem (wd : option datetime.t) (trs : list Fallback.Tr) (cur : option string)
    (r : Fallback.Row) :
  r ∈ Fallback.rows_of wd cur trs <->
  exists before tr after,
    trs = before ++ tr :: after
    /\ Fallback.tr_row wd (fold_left Fallback.next_date (before ++ [tr]) cur) tr = Some r.
Proof.
  revert cur. induction trs as [|tr trs IH]; intros cur.
  - split; [by intros ?%elem_of_nil|]. intros (before & tr & after & E & _).
    by destruct before.
  - cbn [Fallback.rows_of]. split.
    + intros Hr.
      assert (Hrest : r ∈ Fallback.rows_of wd (Fallback.next_date cur tr) trs ->
                exists before tr' after,
                  tr :: trs = before ++ tr' :: after
                  /\ Fallback.tr_row wd
                       (fold_left Fallback.next_date (before ++ [tr']) cur) tr' = Some r).
      { intros H. apply IH in H as (before & tr' & after & -> & Hev).
        exists (tr :: before), tr', after. split; [reflexivity | exact Hev]. }
      destruct (Fallback.tr_row wd (Fallback.next_date cur tr) tr) as [r0|] eqn:E0;
        [|by apply Hrest].
      apply elem_of_cons in Hr as [-> | Hr]; [|by apply Hrest].
      exists [], tr, trs. split; [reflexivity | exact E0].
    + intros (before & tr' & after & E & Hev). destruct before as [|b before].
      * injection E as <- <-. cbn in Hev. rewrite Hev. left.
      * injection E as <- ->.
        assert (Hin : r ∈ Fallback.rows_of wd (Fallback.next_date cur tr)
                            (before ++ tr' :: after)).
        { apply IH. exists before, tr', after. split; [reflexivity | exact Hev]. }
        destruct (Fallback.tr_row wd (Fallback.next_date cur tr) tr); [by right | exact Hin].
Qed.

Lemma drop_duplicates_spec (rows : list Fallback.Row) (seen : list string) :
  Fallback.drop_duplicates seen rows `sublist_of` rows
  /\ NoDup (map Fallback.event_id (Fallback.drop_duplicates seen rows))
  /\ (forall r, r ∈ Fallback.drop_duplicates seen rows -> Fallback.event_id r ∉ seen)
  /\ (forall r, r ∈ rows ->
        Fallback.event_id r ∈ seen
        \/ exists r', r' ∈ Fallback.drop_duplicates seen rows
                      /\ Fallback.event_id r' = Fallback.event_id r).
Proof.
  revert seen. induction rows as [|r rows IH]; intros seen.
  - cbn. split; [constructor|]. split; [constructor|].
    split; intros r ?%elem_of_nil; contradiction.
  - cbn [Fallback.drop_duplicates].
    destruct (existsb (String.eqb (Fallback.event_id r)) seen) eqn:E.
    + apply existsb_exists in E as (k & Hk & Heq). apply String.eqb_eq in Heq. subst k.
      apply list_elem_of_In in Hk.
      destruct (IH seen) as (Hs & Hn & Hfresh & Hcov).
      split; [by apply sublist_cons|]. split; [exact Hn|]. split; [exact Hfresh|].
      intros r0 [-> | Hr0]%elem_of_cons; [by left | by apply Hcov].
    + assert (Hnew : Fallback.event_id r ∉ seen).
      { intros Hin. apply list_elem_of_In in Hin.
        assert (Ht : existsb (String.eqb (Fallback.event_id r)) seen = true).
        { apply existsb_exists. exists (Fallback.event_id r).
          split; [exact Hin | apply String.eqb_refl]. }
        congruence. }
      destruct (IH (Fallback.event_id r :: seen)) as (Hs & Hn & Hfresh & Hcov).
      split; [by apply sublist_skip|]. split; [|split].
      * cbn [map]. apply NoDup_cons. split; [|exact Hn].
        intros Hin. change (map ?f ?l) with (f <$> l) in Hin.
        apply list_elem_of_fmap in Hin as (r' & Heq & Hr').
        apply (Hfresh r' Hr'). rewrite <- Heq. left.
      * intros r0 [-> | Hr0]%elem_of_cons; [exact Hnew|].
        intros Hin. apply (Hfresh r0 Hr0). by right.
      * intros r0 [-> | Hr0]%elem_of_cons.
        -- right. exists r. split; [left | reflexivity].
        -- destruct (Hcov r0 Hr0) as [[Heq | Hin]%elem_of_cons | (r' & Hr' & Heq)].
           ++ right. exists r. split; [left | by symmetry].
           ++ by left.
           ++ right. exists r'. split; [by right | exact Heq].
Qed.

(** X19: [parse_calendar_html_fallback] raises [RuntimeError] exactly
    when the page has no calendar table, and [KeyError] exactly when the
    table has no row with a currency cell at or below a date cell that
    is not blank (the frame then has no columns to select).  In every
    other case it returns a table that is not empty, in which no two
    rows share an [event_id]; its rows are rows the loop built, in
    their order, and every row the loop built is there or has given
    way to an earlier row with its [event_id]. *)
Theorem X19_fallback_outcomes (table : option (list Fallback.Tr))
    (week_date : option datetime.t) :
  (Fallback.parse_calendar_html_fallback table week_date
   = inl (RuntimeError "Could not find calendar table in HTML.")
   <-> table = None)
  /\ (Fallback.parse_calendar_html_fallback table week_date = inl KeyError
      <-> exists trs,
            table = Some trs
            /\ forall before tr after,
                 trs = before ++ tr :: after ->
                 is_Some (last_date (before ++ [tr])) ->
                 Fallback.currency_td tr = None)
  /\ (forall df,
        Fallback.parse_calendar_html_fallback table week_date = inr df ->
        df <> []
        /\ NoDup (map Fallback.event_id df)
        /\ exists trs,
             table = Some trs
             /\ df `sublist_of` Fallback.rows_of week_date None trs
             /\ forall r, r ∈ Fallback.rows_of week_date None trs ->
                  exists r', r' ∈ df /\ Fallback.event_id r' = Fallback.event_id r).
Proof.
  assert (Hempty : forall trs,
            Fallback.rows_of week_date None trs = []
            <-> forall before tr after,
                  trs = before ++ tr :: after ->
                  is_Some (last_date (before ++ [tr])) ->
                  Fallback.currency_td tr = None).
  { intros trs. split.
    - intros Hnil before tr after E [d Hd].
      destruct (Fallback.currency_td tr) as [c|] eqn:Ec; [|reflexivity].
      destruct (proj2 (tr_row_Some week_date
                         (fold_left Fallback.next_date (before ++ [tr]) None) tr))
        as [r Hr].
      { rewrite fold_next_date, Hd. split; [|by rewrite Ec].
        exists d. split; [reflexivity|]. by eapply last_date_nonempty. }
      assert (Hin : r ∈ Fallback.rows_of week_date None trs)
        by (apply rows_of_elem; eauto).
      rewrite Hnil in Hin. by apply elem_of_nil in Hin.
    - intros Hall. destruct (Fallback.rows_of week_date None trs) as [|r rows] eqn:E;
        [reflexivity|].
      assert (Hin : r ∈ Fallback.rows_of week_date None trs) by (rewrite E; left).
      apply rows_of_elem in Hin as (before & tr & after & Etrs & Hr).
      assert (Hsome : is_Some (Fallback.tr_row week_date
                         (fold_left Fallback.next_date (before ++ [tr]) None) tr))
        by (rewrite Hr; by eexists).
      apply tr_row_Some in Hsome as [(d & Hd & _) [c Hc]].
      rewrite fold_next_date in Hd.
      rewrite (Hall before tr after Etrs) in Hc; [discriminate|].
      destruct (last_date (before ++ [tr])); [by eexists | discriminate]. }
  unfold Fallback.parse_calendar_html_fallback.
  destruct table as [trs|].
  - destruct (Fallback.rows_of week_date None trs) as [|r rows] eqn:E.
    + split; [split; discriminate|]. split; [|discriminate].
      split; [|reflexivity]. intros _. exists trs. split; [reflexivity|].
      by apply Hempty.
    + split; [split; discriminate|]. split.
      * split; [discriminate|]. intros (trs' & [= <-] & Hall).
        apply Hempty in Hall. congruence.
      * intros df [= <-].
        destruct (drop_duplicates_spec (r :: rows) []) as (Hs & Hn & _ & Hcov).
        split; [discriminate|]. split; [exact Hn|].
        exists trs. split; [reflexivity|]. rewrite E. split; [exact Hs|].
        intros r0 Hr0. destruct (Hcov r0 Hr0) as [Hin | Hex]; [|exact Hex].
        by apply elem_of_nil in Hin.
  - split; [by split|]. split; [|discriminate].
    split; [discriminate|]. by intros (trs & ? & _).
Qed.

(** X19 on a table of two days. *)
Lemma X19_fallback_outcomes_witness :
  exists df,
    Fallback.parse_calendar_html_fallback (Some two_days_table)
      (Some (datetime.mk 2024 7 1 0 0 0)) = inr df
    /\ length df = 3%nat
    /\ NoDup (map Fallback.event_id df).
Proof.
  destruct (Fallback.parse_calendar_html_fallback (Some two_days_table)
              (Some (datetime.mk 2024 7 1 0 0 0))) as [x|df] eqn:E; [discriminate E|].
  destruct (proj2 (proj2 (X19_fallback_outcomes (Some two_days_table)
                            (Some (datetime.mk 2024 7 1 0 0 0)))) df E) as (_ & Hn & _).
  exists df. split; [reflexivity|]. split; [|exact Hn].
  vm_compute in E. by injection E as <-.
Defined.

(** What the loop put into a row, and from where. *)
Lemma fallback_row_fields (wd : option datetime.t) (trs : list Fallback.Tr)
    (r : Fallback.Row) :
  r ∈ Fallback.rows_of wd None trs ->
  exists before tr after d c,
    trs = before ++ tr :: after
    /\ last_date (before ++ [tr]) = Some d
    /\ Fallback.currency_td tr = Some c
    /\ Fallback.day r = PyStr.strip (Fallback.squeeze false d)
    /\ Fallback.currency r = PyStr.strip c
    /\ Fallback.event r = Fallback.extract_event_name (Fallback.event_td tr)
    /\ Fallback.timestamp r
       = Fallback.timestamp_of wd (Fallback.day r)
           (Fallback.text_or "12:00am" (Fallback.time_td tr))
    /\ Fallback.event_id r
       = MD5.hexdigest (Fallback.str_timestamp (Fallback.timestamp r)
                          +:+ Fallback.currency r
                          +:+ PyStr.or_else (Fallback.event r) (Fallback.actual r)).
Proof.
  intros Hr. apply rows_of_elem in Hr as (before & tr & after & -> & Hrow).
  rewrite fold_next_date in Hrow. unfold Fallback.tr_row in Hrow.
  destruct (last_date (before ++ [tr])) as [d|] eqn:Ed; [|discriminate].
  destruct (Fallback.currency_td tr) as [c|] eqn:Ec; [|discriminate].
  destruct (negb (PyStr.nonempty d)); [discriminate|].
  injection Hrow as <-. exists before, tr, after, d, c. by repeat split.
Qed.

(** X20: called without a week date (the default), the table parser
    leaves every timestamp empty and keys each row on the text [None],
    the currency, and the event name (or the actual value when there is
    no name); so of the rows that agree in currency and in that name,
    whatever their day and time, only one is in the result. *)
Theorem X20_fallback_without_week (table : option (list Fallback.Tr))
    (df : list Fallback.Row) :
  Fallback.parse_calendar_html_fallback table None = inr df ->
  (forall r, r ∈ df ->
     Fallback.timestamp r = None
     /\ Fallback.event_id r
        = MD5.hexdigest ("None" +:+ Fallback.currency r
                           +:+ PyStr.or_else (Fallback.event r) (Fallback.actual r)))
  /\ (forall r1 r2, r1 ∈ df -> r2 ∈ df ->
        Fallback.currency r1 = Fallback.currency r2 ->
        PyStr.or_else (Fallback.event r1) (Fallback.actual r1)
        = PyStr.or_else (Fallback.event r2) (Fallback.actual r2) ->
        r1 = r2).
Proof.
  intros Hrun. unfold Fallback.parse_calendar_html_fallback in Hrun.
  destruct table as [trs|]; [|discriminate].
  destruct (drop_duplicates_spec (Fallback.rows_of None None trs) [])
    as (Hsub & Hnd & _ & _).
  assert (Hdf : df = Fallback.drop_duplicates [] (Fallback.rows_of None None trs)).
  { destruct (Fallback.rows_of None None trs) as [|r0 rows]; [discriminate|].
    by injection Hrun as <-. }
  rewrite <- Hdf in Hsub, Hnd. clear Hrun Hdf.
  assert (Hrows : forall r, r ∈ df ->
            Fallback.timestamp r = None
            /\ Fallback.event_id r
               = MD5.hexdigest ("None" +:+ Fallback.currency r
                                  +:+ PyStr.or_else (Fallback.event r) (Fallback.actual r))).
  { intros r Hr. apply (elem_of_sublist _ _ _ Hr) in Hsub.
    apply fallback_row_fields in Hsub as (? & ? & ? & ? & ? & _ & _ & _ & _ & _ & _ & Ht & Hid).
    cbn in Ht. rewrite Hid, Ht. by split. }
  split; [exact Hrows|].
  intros r1 r2 H1 H2 Hc He.
  assert (Hid : Fallback.event_id r1 = Fallback.event_id r2).
  { rewrite (proj2 (Hrows r1 H1)), (proj2 (Hrows r2 H2)). by rewrite Hc, He. }
  apply list_elem_of_lookup in H1 as [i Hi]. apply list_elem_of_lookup in H2 as [j Hj].
  change (map ?f ?l) with (f <$> l) in Hnd.
  assert (i = j).
  { apply (NoDup_lookup _ i j (Fallback.event_id r1) Hnd).
    - by rewrite list_lookup_fmap, Hi.
    - by rewrite list_lookup_fmap, Hj, Hid. }
  subst j. congruence.
Qed.

(** X20 on the table of two days: the speech of Tuesday gives way to the
    speech of Monday. *)
Lemma X20_fallback_without_week_witness :
  exists df,
    Fallback.parse_calendar_html_fallback (Some two_days_table) None = inr df
    /\ length df = 2%nat
    /\ forall r, r ∈ df -> Fallback.timestamp r = None.
Proof.
  destruct (Fallback.parse_calendar_html_fallback (Some two_days_table) None)
    as [x|df] eqn:E; [discriminate E|].
  destruct (X20_fallback_without_week (Some two_days_table) df E) as [Hrows _].
  exists df. split; [reflexivity|]. split.
  - vm_compute in E. by injection E as <-.
  - intros r Hr. apply (Hrows r Hr).
Defined.

(** X21: a row of the result comes from a [tr] that has a currency
    cell; its [day] is the last date cell read down to that [tr], blank
    date cells passed over, with every run of whitespace turned into
    one space; its timestamp is read from that day, the time cell
    ([12:00am] when there is none) and the year of the week; and its
    [event_id] hashes the timestamp, the currency and the event name or
    else the actual value, the forecast and previous values having no
    part in it. *)
Theorem X21_fallback_row (table : option (list Fallback.Tr))
    (week_date : option datetime.t) (df : list Fallback.Row) (r : Fallback.Row) :
  Fallback.parse_calendar_html_fallback table week_date = inr df -> r ∈ df ->
  exists trs before tr after d c,
    table = Some trs
    /\ trs = before ++ tr :: after
    /\ last_date (before ++ [tr]) = Some d
    /\ Fallback.currency_td tr = Some c
    /\ Fallback.day r = PyStr.strip (Fallback.squeeze false d)
    /\ Fallback.currency r = PyStr.strip c
    /\ Fallback.event r = Fallback.extract_event_name (Fallback.event_td tr)
    /\ Fallback.timestamp r
       = Fallback.timestamp_of week_date (Fallback.day r)
           (Fallback.text_or "12:00am" (Fallback.time_td tr))
    /\ Fallback.event_id r
       = MD5.hexdigest (Fallback.str_timestamp (Fallback.timestamp r)
                          +:+ Fallback.currency r
                          +:+ PyStr.or_else (Fallback.event r) (Fallback.actual r)).
Proof.
  intros Hrun Hr. unfold Fallback.parse_calendar_html_fallback in Hrun.
  destruct table as [trs|]; [|discriminate].
  destruct (drop_duplicates_spec (Fallback.rows_of week_date None trs) []) as (Hsub & _).
  assert (Hdf : df = Fallback.drop_duplicates [] (Fallback.rows_of week_date None trs)).
  { destruct (Fallback.rows_of week_date None trs) as [|r0 rows]; [discriminate|].
    by injection Hrun as <-. }
  rewrite <- Hdf in Hsub. apply (elem_of_sublist _ _ _ Hr) in Hsub.
  apply fallback_row_fields in Hsub as (before & tr & after & d & c & H).
  exists trs, before, tr, after, d, c. split; [reflexivity | exact H].
Qed.

(** X21 on the second row of the table of two days, which has no date
    cell of its own. *)
Lemma X21_fallback_row_witness :
  exists r df,
    Fallback.parse_calendar_html_fallback (Some two_days_table)
      (Some (datetime.mk 2024 7 1 0 0 0)) = inr df
    /\ df !! 1%nat = Some r
    /\ Fallback.day r = "Mon Jul 1"
    /\ Fallback.timestamp r = Some (datetime.mk 2024 7 1 10 0 0).
Proof.
  destruct (Fallback.parse_calendar_html_fallback (Some two_days_table)
              (Some (datetime.mk 2024 7 1 0 0 0))) as [x|df] eqn:E; [discriminate E|].
  destruct (df !! 1%nat) as [r|] eqn:Er; [|vm_compute in E; injection E as <-; discriminate Er].
  destruct (X21_fallback_row (Some two_days_table) (Some (datetime.mk 2024 7 1 0 0 0)) df r E)
    as (trs & before & tr & after & d & c & _); [by eapply list_elem_of_lookup_2|].
  exists r, df. split; [reflexivity|]. split; [exact Er|].
  vm_compute in E. injection E as <-. injection Er as <-. by split.
Defined.

(** ** Dates, file names and URLs of the weeks *)

Lemma zrange_elem (n : nat) (z x : Z) : z <= x < z + Z.of_nat n -> x ∈ zrange n z.
Proof.
  revert z. induction n as [|n IH]; intros z Hx; [lia|].
  cbn [zrange]. destruct (decide (x = z)) as [->|Hne]; [left|].
  right. apply IH. lia.
Qed.

Lemma era_days_ok : forallb era_day_ok (zrange (Z.to_nat 146097) 0) = true.
Proof. vm_compute. reflexivity. Qed.

Lemma era_day_ok_all (doe : Z) : 0 <= doe < 146097 -> era_day_ok doe = true.
Proof.
  intros H. pose proof era_days_ok as Hall. rewrite forallb_forall in Hall.
  apply Hall, list_elem_of_In, zrange_elem. lia.
Qed.

(** The day ordinal of the civil date of a day ordinal is that ordinal. *)
Lemma to_days_of_days (z : Z) : datetime.to_days (datetime.of_days z) = z.
Proof.
  unfold datetime.to_days, datetime.of_days, datetime.civil_from_days.
  set (era := (z + 719468) / 146097).
  set (doe := z + 719468 - era * 146097).
  assert (Hdoe : 0 <= doe < 146097).
  { unfold doe, era. pose proof (Z.mod_pos_bound (z + 719468) 146097 ltac:(lia)).
    pose proof (Z.div_mod (z + 719468) 146097 ltac:(lia)). lia. }
  pose proof (era_day_ok_all doe Hdoe) as Hok. unfold era_day_ok in Hok.
  cbv zeta in Hok |- *.
  set (yoe := (doe - doe / 1460 + doe / 36524 - doe / 146096) / 365) in *.
  set (doy := doe - (365 * yoe + yoe / 4 - yoe / 100)) in *.
  set (mp := (5 * doy + 2) / 153) in *.
  set (d := doy - (153 * mp + 2) / 5 + 1) in *.
  repeat (apply andb_true_iff in Hok as [Hok ?]).
  repeat match goal with
         | H : (_ <=? _) = true |- _ => apply Z.leb_le in H
         | H : (_ =? _) = true |- _ => apply Z.eqb_eq in H
         end.
  cbn [datetime.year datetime.month datetime.day]. unfold datetime.days_from_civil.
  assert (Hera : forall y', y' = yoe + era * 400 -> y' / 400 = era).
  { intros y' ->. symmetry. apply (Z.div_unique _ 400 era yoe); lia. }
  destruct (mp <? 10) eqn:Emp.
  - apply Z.ltb_lt in Emp.
    replace (mp + 3 <=? 2) with false by (symmetry; apply Z.leb_gt; lia).
    replace (2 <? mp + 3) with true by (symmetry; apply Z.ltb_lt; lia).
    rewrite (Hera _ eq_refl).
    replace (yoe + era * 400 - era * 400) with yoe by lia.
    replace (mp + 3 - 3) with mp by lia. unfold doe in *. lia.
  - apply Z.ltb_ge in Emp.
    replace (mp - 9 <=? 2) with true by (symmetry; apply Z.leb_le; lia).
    replace (2 <? mp - 9) with false by (symmetry; apply Z.ltb_ge; lia).
    replace (yoe + era * 400 + 1 - 1) with (yoe + era * 400) by lia.
    rewrite (Hera _ eq_refl).
    replace (yoe + era * 400 - era * 400) with yoe by lia.
    replace (mp - 9 + 9) with mp by lia. unfold doe in *. lia.
Qed.

Lemma of_days_fields (z : Z) :
  1 <= datetime.month (datetime.of_days z) <= 12
  /\ 1 <= datetime.day (datetime.of_days z) <= 31.
Proof.
  unfold datetime.of_days, datetime.civil_from_days.
  set (era := (z + 719468) / 146097).
  set (doe := z + 719468 - era * 146097).
  assert (Hdoe : 0 <= doe < 146097).
  { unfold doe, era. pose proof (Z.mod_pos_bound (z + 719468) 146097 ltac:(lia)).
    pose proof (Z.div_mod (z + 719468) 146097 ltac:(lia)). lia. }
  pose proof (era_day_ok_all doe Hdoe) as Hok. unfold era_day_ok in Hok.
  cbv zeta in Hok |- *.
  set (yoe := (doe - doe / 1460 + doe / 36524 - doe / 146096) / 365) in *.
  set (doy := doe - (365 * yoe + yoe / 4 - yoe / 100)) in *.
  set (mp := (5 * doy + 2) / 153) in *.
  set (d := doy - (153 * mp + 2) / 5 + 1) in *.
  repeat (apply andb_true_iff in Hok as [Hok ?]).
  repeat match goal with
         | H : (_ <=? _) = true |- _ => apply Z.leb_le in H
         | H : (_ =? _) = true |- _ => apply Z.eqb_eq in H
         end.
  cbn [datetime.month datetime.day].
  destruct (mp <? 10) eqn:Emp; [apply Z.ltb_lt in Emp | apply Z.ltb_ge in Emp]; lia.
Qed.

Lemma digit_eq (a b : Z) : PyStr.digit a = PyStr.digit b -> a mod 10 = b mod 10.
Proof.
  unfold PyStr.digit. intros H. apply (f_equal N_of_ascii) in H.
  pose proof (Z.mod_pos_bound a 10 ltac:(lia)).
  pose proof (Z.mod_pos_bound b 10 ltac:(lia)).
  rewrite !N_ascii_embedding in H by lia. lia.
Qed.

Lemma pad2_inj (a b : Z) :
  0 <= a < 100 -> 0 <= b < 100 -> PyStr.pad2 a = PyStr.pad2 b -> a = b.
Proof.
  intros Ha Hb H. unfold PyStr.pad2 in H. injection H as H1 H0.
  apply digit_eq in H1, H0.
  pose proof (Z.div_mod a 10 ltac:(lia)). pose proof (Z.div_mod b 10 ltac:(lia)).
  assert (a / 10 = b / 10).
  { rewrite <- (Z.mod_small (a / 10) 10), <- (Z.mod_small (b / 10) 10); [exact H1| |].
    - split; [apply Z.div_pos; lia | apply Z.div_lt_upper_bound; lia].
    - split; [apply Z.div_pos; lia | apply Z.div_lt_upper_bound; lia]. }
  lia.
Qed.

Lemma pad4_inj (a b : Z) :
  0 <= a < 10000 -> 0 <= b < 10000 -> PyStr.pad4 a = PyStr.pad4 b -> a = b.
Proof.
  intros Ha Hb H. unfold PyStr.pad4, PyStr.pad2 in H. injection H as H3 H2 H1 H0.
  apply digit_eq in H3, H2, H1, H0.
  revert H3 H2 H1 H0. Z.div_mod_to_equations. lia.
Qed.

Lemma append_inj_length (a1 a2 b1 b2 : string) :
  String.length a1 = String.length a2 -> a1 +:+ b1 = a2 +:+ b2 -> a1 = a2 /\ b1 = b2.
Proof.
  revert a2. induction a1 as [|c a1 IH]; intros [|c2 a2] Hl H; try discriminate.
  - by split.
  - change (String c (a1 +:+ b1) = String c2 (a2 +:+ b2)) in H. injection H as -> H.
    injection Hl as Hl. destruct (IH a2 Hl H) as [-> ->]. by split.
Qed.

Lemma month_abbr_inj (m1 m2 : Z) :
  1 <= m1 <= 12 -> 1 <= m2 <= 12 ->
  String.length (nth (Z.to_nat (m1 - 1)) datetime.month_abbr "") = 3%nat
  /\ (nth (Z.to_nat (m1 - 1)) datetime.month_abbr ""
      = nth (Z.to_nat (m2 - 1)) datetime.month_abbr "" -> m1 = m2).
Proof.
  intros H1 H2.
  assert (E1 : exists k, (k < 12)%nat /\ m1 = Z.of_nat k + 1)
    by (exists (Z.to_nat (m1 - 1)); lia).
  assert (E2 : exists k, (k < 12)%nat /\ m2 = Z.of_nat k + 1)
    by (exists (Z.to_nat (m2 - 1)); lia).
  destruct E1 as (k1 & Hk1 & ->). destruct E2 as (k2 & Hk2 & ->).
  replace (Z.to_nat (Z.of_nat k1 + 1 - 1)) with k1 by lia.
  replace (Z.to_nat (Z.of_nat k2 + 1 - 1)) with k2 by lia.
  do 12 (destruct k1 as [|k1]; [split; [reflexivity|];
    do 12 (destruct k2 as [|k2]; [first [reflexivity | discriminate]|]); lia|]).
  lia.
Qed.

(** Two days of the years 1 to 9999 with one weekly file name, or with
    one calendar URL, are one day. *)
Lemma week_names_inj (d1 d2 : Z) :
  1 <= datetime.year (datetime.of_days d1) <= 9999 ->
  1 <= datetime.year (datetime.of_days d2) <= 9999 ->
  (Campaign.week_csv (datetime.of_days d1) = Campaign.week_csv (datetime.of_days d2)
   -> d1 = d2)
  /\ (Campaign.build_week_url (datetime.of_days d1)
      = Campaign.build_week_url (datetime.of_days d2) -> d1 = d2).
Proof.
  intros Hy1 Hy2.
  destruct (of_days_fields d1) as [Hm1 Hd1]. destruct (of_days_fields d2) as [Hm2 Hd2].
  assert (Hsame : datetime.year (datetime.of_days d1) = datetime.year (datetime.of_days d2) ->
                  datetime.month (datetime.of_days d1) = datetime.month (datetime.of_days d2) ->
                  datetime.day (datetime.of_days d1) = datetime.day (datetime.of_days d2) ->
                  d1 = d2).
  { intros Ey Em Ed. rewrite <- (to_days_of_days d1), <- (to_days_of_days d2).
    unfold datetime.to_days. by rewrite Ey, Em, Ed. }
  assert (Hcsv : Campaign.week_csv (datetime.of_days d1)
                 = Campaign.week_csv (datetime.of_days d2) -> d1 = d2).
  { unfold Campaign.week_csv. intros H.
    apply (append_inj_length "week_" "week_") in H as [_ H]; [|reflexivity].
    apply append_inj_length in H as [H _]; [|reflexivity].
    unfold datetime.ymd in H.
    apply (append_inj_length (PyStr.pad4 _) (PyStr.pad4 _)) in H as [Hy H];
      [|reflexivity].
    apply (append_inj_length (PyStr.pad2 _) (PyStr.pad2 _)) in H as [Hm Hd];
      [|reflexivity].
    apply Hsame; [apply pad4_inj | apply pad2_inj | apply pad2_inj]; try lia; assumption. }
  split; [exact Hcsv|].
  unfold Campaign.build_week_url. intros H.
    apply (append_inj_length "https://www.forexfactory.com/calendar?week="
             "https://www.forexfactory.com/calendar?week=") in H as [_ H]; [|reflexivity].
    unfold datetime.bdY in H.
    destruct (month_abbr_inj _ _ Hm1 Hm2) as [Hl1 Hinj].
    destruct (month_abbr_inj _ _ Hm2 Hm1) as [Hl2 _].
    apply append_inj_length in H as [Hm H]; [|by rewrite Hl1, Hl2].
    apply (append_inj_length (PyStr.pad2 _) (PyStr.pad2 _)) in H as [Hd H];
      [|reflexivity].
    apply (append_inj_length "." ".") in H as [_ Hy]; [|reflexivity].
  apply Hsame; [apply pad4_inj | by apply Hinj | apply pad2_inj]; try lia; assumption.
Qed.

(** X22: for a range of dates within the years 1000 to 9999, the weeks that
    the loop of [main] visits have file names that differ from each
    other and calendar URLs that differ from each other: no week of a
    run reads or writes the weekly file of another, and no two weeks
    ask for the same page. *)
Theorem X22_weeks_have_their_own_file_and_url (start end_ : Z) :
  (forall d, d ∈ Campaign.week_anchors start end_ ->
             1000 <= datetime.year (datetime.of_days d) <= 9999) ->
  NoDup (map (fun d => Campaign.week_csv (datetime.of_days d))
           (Campaign.week_anchors start end_))
  /\ NoDup (map (fun d => Campaign.build_week_url (datetime.of_days d))
              (Campaign.week_anchors start end_)).
Proof.
  intros Hyears. split.
  - apply (NoDup_fmap_2_strong (fun d => Campaign.week_csv (datetime.of_days d)));
      [|apply week_anchors_NoDup].
    intros d1 d2 H1 H2 Heq.
    apply (proj1 (week_names_inj d1 d2 ltac:(specialize (Hyears d1 H1); lia)
                    ltac:(specialize (Hyears d2 H2); lia)) Heq).
  - apply (NoDup_fmap_2_strong (fun d => Campaign.build_week_url (datetime.of_days d)));
      [|apply week_anchors_NoDup].
    intros d1 d2 H1 H2 Heq.
    apply (proj2 (week_names_inj d1 d2 ltac:(specialize (Hyears d1 H1); lia)
                    ltac:(specialize (Hyears d2 H2); lia)) Heq).
Qed.

(** X22 on the two weeks from 1 July 2024. *)
Lemma X22_weeks_have_their_own_file_and_url_witness :
  NoDup (map (fun d => Campaign.week_csv (datetime.of_days d))
           (Campaign.week_anchors 19905 19915)).
Proof.
  apply (X22_weeks_have_their_own_file_and_url 19905 19915).
  intros d Hd. vm_compute in Hd.
  apply elem_of_cons in Hd as [-> | Hd]; [vm_compute; split; discriminate|].
  apply elem_of_cons in Hd as [-> | Hd]; [vm_compute; split; discriminate|].
  by apply elem_of_nil in Hd.
Defined.

(** ** Every outcome of [parse_calendar_time] *)

Lemma date_time_second (s : string) (ts : datetime.t) :
  strptime.date_time s = inr ts -> datetime.second ts = 0.
Proof.
  unfold strptime.date_time, strptime.build, raise, ok. intros H.
  repeat match type of H with
         | match ?x with _ => _ end = _ => destruct x
         | (if ?c then _ else _) = _ => destruct c
         | (let '(_, _) := ?x in _) = _ => destruct x
         end; try discriminate; injection H as <-; auto.
Qed.

(** A time text that does not end in [m] sends the first format away. *)
Lemma date_time_needs_m (pre time_str : string) :
  ends_m time_str = false ->
  exists msg, strptime.date_time (pre +:+ " " +:+ time_str) = inl (ValueError msg).
Proof.
  intros Hm. destruct (strptime.date_time _) as [e|ts] eqn:E.
  - destruct (date_time_raises _ _ E) as [msg ->]. by exists msg.
  - exfalso. apply date_time_ends_m in E. unfold ends_m in *.
    destruct time_str as [|c t].
    + rewrite last_char_app in E by discriminate. discriminate.
    + rewrite <- append_assoc in E. rewrite last_char_app in E by discriminate.
      congruence.
Qed.

(** X23: without a week date [parse_calendar_time] raises
    [AttributeError]; with one, the only exception it raises is the
    [RuntimeError] of its last handler; a timestamp it returns has zero
    seconds, and when the time text does not end in [m] (no am or pm:
    a blank, "All Day", "Tentative", a 24-hour time) the text is set
    aside and the timestamp is midnight of the day that the heading and
    the year of the week name. *)
Theorem X23_parse_calendar_time_outcomes (wd : datetime.t) (day_str time_str : string) :
  Scraper.parse_calendar_time None day_str time_str = raise AttributeError
  /\ (forall e, Scraper.parse_calendar_time (Some wd) day_str time_str = inl e ->
                e = RuntimeError "Failed to parse date")
  /\ (forall ts,
        Scraper.parse_calendar_time (Some wd) day_str time_str = inr ts ->
        datetime.second ts = 0
        /\ (ends_m time_str = false ->
            datetime.hour ts = 0 /\ datetime.minute ts = 0
            /\ strptime.date_only
                 (Scraper.unfuse day_str +:+ " " +:+ PyStr.of_int (datetime.year wd))
               = inr ts)).
Proof.
  split; [reflexivity|]. unfold Scraper.parse_calendar_time. rewrite unfuse_idem.
  split.
  - intros e H. destruct (strptime.date_time _) as [e1|ts1] eqn:E1; [|discriminate].
    destruct (date_time_raises _ _ E1) as [msg ->].
    destruct (strptime.date_only _); [|discriminate]. by injection H as <-.
  - intros ts H. split.
    + destruct (strptime.date_time _) as [e1|ts1] eqn:E1.
      * destruct (date_time_raises _ _ E1) as [msg ->].
        destruct (strptime.date_only _) as [|ts2] eqn:E2; [discriminate|].
        injection H as <-. by apply date_only_midnight in E2 as (_ & _ & ?).
      * injection H as <-. by eapply date_time_second.
    + intros Hm.
      destruct (date_time_needs_m
                  (Scraper.unfuse day_str +:+ " " +:+ PyStr.of_int (datetime.year wd))
                  time_str Hm) as [msg Hmsg].
      rewrite append_assoc in Hmsg. rewrite append_assoc in Hmsg.
      rewrite Hmsg in H.
      destruct (strptime.date_only _) as [|ts2] eqn:E2; [discriminate|].
      injection H as <-. pose proof (date_only_midnight _ _ E2) as (? & ? & _).
      by repeat split.
Qed.

(** X23 on a time that is announced as tentative. *)
Lemma X23_parse_calendar_time_outcomes_witness :
  Scraper.parse_calendar_time (Some week_2024) "Mon Jul 1" "Tentative"
  = inr (datetime.mk 2024 7 1 0 0 0)
  /\ datetime.hour (datetime.mk 2024 7 1 0 0 0) = 0.
Proof.
  assert (H : Scraper.parse_calendar_time (Some week_2024) "Mon Jul 1" "Tentative"
              = inr (datetime.mk 2024 7 1 0 0 0)) by (vm_compute; reflexivity).
  split; [exact H|].
  apply (proj2 (proj2 (X23_parse_calendar_time_outcomes week_2024 "Mon Jul 1" "Tentative"))
           _ H).
  reflexivity.
Defined.

(** ** The candle download *)

Lemma upper_char_idem (c : ascii) : Ingest.upper_char (Ingest.upper_char c) = Ingest.upper_char c.
Proof. destruct c as [[] [] [] [] [] [] [] []]; reflexivity. Qed.

Lemma upper_idem (s : string) : Ingest.upper (Ingest.upper s) = Ingest.upper s.
Proof.
  induction s as [|c s IH]; [reflexivity|]. cbn [Ingest.upper].
  by rewrite upper_char_idem, IH.
Qed.

Lemma ymd_date_raises (s : string) (e : exn) :
  Ingest.ymd_date s = inl e -> exists msg, e = ValueError msg.
Proof.
  unfold Ingest.ymd_date, strptime.build, strptime.mismatch, strptime.out_of_range,
    raise, ok.
  intros H.
  repeat match type of H with
         | match ?x with _ => _ end = _ => destruct x
         | (if ?c then _ else _) = _ => destruct c
         | (let '(_, _) := ?x in _) = _ => destruct x
         end; try discriminate; injection H as <-; eauto.
Qed.

Lemma string_length_app (a b : string) :
  String.length (a +:+ b) = (String.length a + String.length b)%nat.
Proof.
  induction a as [|c a IH]; [reflexivity|].
  change (String c a +:+ b) with (String c (a +:+ b)). cbn [String.length]. by rewrite IH.
Qed.

Lemma append_inj_r (a b c : string) : a +:+ c = b +:+ c -> a = b.
Proof.
  intros H. apply append_inj_length in H as [H _]; [exact H|].
  apply (f_equal String.length) in H. rewrite !string_length_app in H. lia.
Qed.

Lemma csv_path_inj (s1 s2 tf : string) :
  Ingest.csv_path s1 tf = Ingest.csv_path s2 tf -> s1 = s2.
Proof.
  unfold Ingest.csv_path. intros H.
  apply (append_inj_length Ingest.DATA_DIR Ingest.DATA_DIR) in H as [_ H]; [|reflexivity].
  apply (append_inj_length "/" "/") in H as [_ H]; [|reflexivity].
  by apply append_inj_r in H.
Qed.

Section IngestProperties.

Context {Rates Frame : Type}.
Context (no_rates : Rates -> bool) (to_frame : Rates -> Frame).

(** X24: [fetch_ohlcv] reads the timeframe without regard to case; it
    raises nothing but [ValueError], and when it raises (a timeframe
    that is not in the map, a start or an end that is not a date) no
    request has gone to the terminal; when it returns, exactly one
    request has gone out, for the mapped timeframe and the two dates,
    no file has been touched, and the result is [None] exactly when the
    terminal gave nothing or gave no candles. *)
Theorem X24_fetch_ohlcv (mt5 : @Ingest.Terminal Rates) (symbol tf_str start end_ : string)
    (w : @Ingest.World Frame) :
  Ingest.fetch_ohlcv no_rates to_frame mt5 symbol tf_str start end_ w
  = Ingest.fetch_ohlcv no_rates to_frame mt5 symbol (Ingest.upper tf_str) start end_ w
  /\ (forall e w',
        Ingest.fetch_ohlcv no_rates to_frame mt5 symbol tf_str start end_ w = (inl e, w') ->
        w' = w /\ exists msg, e = ValueError msg)
  /\ (forall r w',
        Ingest.fetch_ohlcv no_rates to_frame mt5 symbol tf_str start end_ w = (inr r, w') ->
        exists tf utc_from utc_to,
          Ingest.get (Ingest.upper tf_str) Ingest.TIMEFRAME_MAP = Some tf
          /\ Ingest.ymd_date start = inr utc_from
          /\ Ingest.ymd_date end_ = inr utc_to
          /\ Ingest.requests w' = (symbol, tf, utc_from, utc_to) :: Ingest.requests w
          /\ Ingest.files w' = Ingest.files w
          /\ (r = None <->
              match Ingest.copy_rates_range mt5 symbol tf utc_from utc_to with
              | None => True
              | Some rates => no_rates rates = true
              end)).
Proof.
  split; [unfold Ingest.fetch_ohlcv; by rewrite upper_idem|].
  unfold Ingest.fetch_ohlcv.
  destruct (Ingest.get (Ingest.upper tf_str) Ingest.TIMEFRAME_MAP) as [tf|].
  2:{ split; [|discriminate]. intros e w' [= <- <-]. split; [reflexivity | by eexists]. }
  destruct (Ingest.ymd_date start) as [e1|utc_from] eqn:E1.
  { split; [|discriminate]. intros e w' [= <- <-]. split; [reflexivity|].
    by eapply ymd_date_raises. }
  destruct (Ingest.ymd_date end_) as [e2|utc_to] eqn:E2.
  { split; [|discriminate]. intros e w' [= <- <-]. split; [reflexivity|].
    by eapply ymd_date_raises. }
  split.
  - intros e w' H. destruct (Ingest.copy_rates_range mt5 _ _ _ _) as [rates|];
      [destruct (no_rates rates)|]; discriminate.
  - intros r w' H. exists tf, utc_from, utc_to.
    destruct (Ingest.copy_rates_range mt5 _ _ _ _) as [rates|];
      [destruct (no_rates rates) eqn:En|]; injection H as <- <-; cbn;
      repeat (split; [reflexivity|]); split; done.
Qed.

(** The loop, for a timeframe and dates that are accepted. *)
Lemma fetch_all_spec (mt5 : @Ingest.Terminal Rates) (symbols : list string)
    (timeframe start end_ : string) (tf : Ingest.Timeframe) (utc_from utc_to : datetime.t)
    (w : @Ingest.World Frame) :
  Ingest.get (Ingest.upper timeframe) Ingest.TIMEFRAME_MAP = Some tf ->
  Ingest.ymd_date start = inr utc_from ->
  Ingest.ymd_date end_ = inr utc_to ->
  exists w',
    Ingest.fetch_all no_rates to_frame mt5 symbols timeframe start end_ w = (ok tt, w')
    /\ Ingest.requests w'
       = rev (map (fun s => (s, tf, utc_from, utc_to)) symbols) ++ Ingest.requests w
    /\ Ingest.shut_down w' = Ingest.shut_down w
    /\ forall p,
         (exists s rates,
             s ∈ symbols
             /\ Ingest.copy_rates_range mt5 s tf utc_from utc_to = Some rates
             /\ no_rates rates = false
             /\ p = Ingest.csv_path s timeframe
             /\ Ingest.files w' !! p = Some (to_frame rates))
         \/ ((forall s rates,
                s ∈ symbols ->
                Ingest.copy_rates_range mt5 s tf utc_from utc_to = Some rates ->
                no_rates rates = false -> p <> Ingest.csv_path s timeframe)
             /\ Ingest.files w' !! p = Ingest.files w !! p).
Proof.
  intros Htf Hfrom Hto. revert w. induction symbols as [|s rest IH]; intros w.
  - exists w. split; [reflexivity|]. split; [reflexivity|]. split; [reflexivity|].
    intros p. right. split; [|reflexivity]. by intros s rates ?%elem_of_nil.
  - cbn [Ingest.fetch_all]. unfold Ingest.fetch_ohlcv. rewrite Htf, Hfrom, Hto.
    set (w1 := Ingest.mkWorld (Ingest.files w)
                 ((s, tf, utc_from, utc_to) :: Ingest.requests w) (Ingest.shut_down w)).
    assert (Hreq : forall w2 w' : @Ingest.World Frame,
              Ingest.requests w2 = Ingest.requests w1 ->
              Ingest.requests w'
              = rev (map (fun s => (s, tf, utc_from, utc_to)) rest) ++ Ingest.requests w2 ->
              Ingest.requests w'
              = rev (map (fun s => (s, tf, utc_from, utc_to)) (s :: rest))
                  ++ Ingest.requests w).
    { intros w2 w' E2 E'. rewrite E', E2. cbn [map rev Ingest.requests w1].
      by rewrite <- app_assoc. }
    destruct (Ingest.copy_rates_range mt5 s tf utc_from utc_to) as [rates|] eqn:Ec.
    + destruct (no_rates rates) eqn:En.
      * destruct (IH w1) as (w' & Hrun & Hr & Hs & Hf). exists w'.
        split; [exact Hrun|]. split; [by apply (Hreq w1)|]. split; [exact Hs|].
        intros p. destruct (Hf p) as [(s' & r' & Hin & H1 & H2 & H3 & H4) | [Hno Hsame]].
        -- left. exists s', r'. split; [by right | done].
        -- right. split; [|exact Hsame].
           intros s' r' [-> | Hin]%elem_of_cons Hc' Hn'; [congruence | by eapply Hno].
      * destruct (IH (Ingest.save_csv (to_frame rates) s timeframe w1))
          as (w' & Hrun & Hr & Hs & Hf).
        exists w'. split; [exact Hrun|]. split; [by eapply Hreq|]. split; [exact Hs|].
        intros p. destruct (Hf p) as [(s' & r' & Hin & H1 & H2 & H3 & H4) | [Hno Hsame]].
        -- left. exists s', r'. split; [by right | done].
        -- destruct (decide (p = Ingest.csv_path s timeframe)) as [->|Hne].
           ++ left. exists s, rates. split; [left|]. repeat (split; [done|]).
              rewrite Hsame. cbn. apply lookup_insert_eq.
           ++ right. split.
              ** intros s' r' [-> | Hin]%elem_of_cons Hc' Hn'; [exact Hne | by eapply Hno].
              ** rewrite Hsame. cbn. by rewrite lookup_insert_ne.
    + destruct (IH w1) as (w' & Hrun & Hr & Hs & Hf). exists w'.
      split; [exact Hrun|]. split; [by apply (Hreq w1)|]. split; [exact Hs|].
      intros p. destruct (Hf p) as [(s' & r' & Hin & H1 & H2 & H3 & H4) | [Hno Hsame]].
      * left. exists s', r'. split; [by right | done].
      * right. split; [|exact Hsame].
        intros s' r' [-> | Hin]%elem_of_cons Hc' Hn'; [congruence | by eapply Hno].
Qed.

(** X25: when the terminal does not start, [main] raises and does
    nothing.  With a timeframe or a date that is not accepted and at
    least one symbol, it raises at the first symbol: no request goes
    out, no file is written, and the terminal is not shut down.
    Otherwise it returns after one request per symbol, in the order
    given, and shuts the terminal down; the file of every symbol that
    has candles holds the frame of those candles, under a name made of
    the symbol and the timeframe as typed, and every other file is as
    it was. *)
Theorem X25_ingest_main (mt5 : @Ingest.Terminal Rates) (symbols : list string)
    (timeframe start end_ : string) (w : @Ingest.World Frame) :
  (Ingest.initialize mt5 = false ->
   Ingest.main no_rates to_frame mt5 symbols timeframe start end_ w
   = (raise (RuntimeError "Failed to connect to MetaTrader 5"), w))
  /\ (Ingest.initialize mt5 = true -> symbols <> [] ->
      Ingest.get (Ingest.upper timeframe) Ingest.TIMEFRAME_MAP = None
      \/ is_ok (Ingest.ymd_date start) = false \/ is_ok (Ingest.ymd_date end_) = false ->
      exists msg,
        Ingest.main no_rates to_frame mt5 symbols timeframe start end_ w
        = (raise (ValueError msg), w))
  /\ (forall tf utc_from utc_to,
        Ingest.initialize mt5 = true ->
        Ingest.get (Ingest.upper timeframe) Ingest.TIMEFRAME_MAP = Some tf ->
        Ingest.ymd_date start = inr utc_from ->
        Ingest.ymd_date end_ = inr utc_to ->
        exists w',
          Ingest.main no_rates to_frame mt5 symbols timeframe start end_ w = (ok tt, w')
          /\ Ingest.shut_down w' = true
          /\ Ingest.requests w'
             = rev (map (fun s => (s, tf, utc_from, utc_to)) symbols) ++ Ingest.requests w
          /\ (forall s rates,
                s ∈ symbols ->
                Ingest.copy_rates_range mt5 s tf utc_from utc_to = Some rates ->
                no_rates rates = false ->
                Ingest.files w' !! Ingest.csv_path s timeframe = Some (to_frame rates))
          /\ (forall p,
                (forall s rates,
                    s ∈ symbols ->
                    Ingest.copy_rates_range mt5 s tf utc_from utc_to = Some rates ->
                    no_rates rates = false -> p <> Ingest.csv_path s timeframe) ->
                Ingest.files w' !! p = Ingest.files w !! p)).
Proof.
  split; [|split].
  - intros Hinit. unfold Ingest.main. by rewrite Hinit.
  - intros Hinit Hne Hbad. unfold Ingest.main. rewrite Hinit. cbn [negb].
    destruct symbols as [|s rest]; [contradiction|].
    cbn [Ingest.fetch_all]. unfold Ingest.fetch_ohlcv.
    destruct (Ingest.get (Ingest.upper timeframe) Ingest.TIMEFRAME_MAP) as [tf|];
      [|by eexists].
    destruct (Ingest.ymd_date start) as [e1|a] eqn:E1.
    { destruct (ymd_date_raises _ _ E1) as [msg ->]. by eexists. }
    destruct (Ingest.ymd_date end_) as [e2|b] eqn:E2.
    { destruct (ymd_date_raises _ _ E2) as [msg ->]. by eexists. }
    by destruct Hbad as [? | [? | ?]].
  - intros tf utc_from utc_to Hinit Htf Hfrom Hto. unfold Ingest.main. rewrite Hinit.
    cbn [negb].
    destruct (fetch_all_spec mt5 symbols timeframe start end_ tf utc_from utc_to w
                Htf Hfrom Hto) as (w1 & Hrun & Hr & _ & Hf).
    rewrite Hrun. eexists. split; [reflexivity|]. cbn. split; [reflexivity|].
    split; [exact Hr|]. split.
    + intros s rates Hin Hc Hn.
      destruct (Hf (Ingest.csv_path s timeframe))
        as [(s' & r' & Hin' & Hc' & Hn' & Hp & Hfile) | [Hno _]].
      * apply csv_path_inj in Hp. subst s'. congruence.
      * by destruct (Hno s rates Hin Hc Hn).
    + intros p Hp. destruct (Hf p) as [(s' & r' & Hin' & Hc' & Hn' & -> & _) | [_ Hsame]];
        [|exact Hsame].
      by destruct (Hp s' r' Hin' Hc' Hn').
Qed.

End IngestProperties.

(** X24 on a timeframe typed in lower case. *)
Lemma X24_fetch_ohlcv_witness :
  Ingest.fetch_ohlcv no_candles id demo_terminal "EURUSDm" "m15" "2024-07-01" "2024-07-05"
    empty_desk
  = Ingest.fetch_ohlcv no_candles id demo_terminal "EURUSDm" "M15" "2024-07-01" "2024-07-05"
      empty_desk.
Proof.
  apply (X24_fetch_ohlcv no_candles id demo_terminal "EURUSDm" "m15"
           "2024-07-01" "2024-07-05" empty_desk).
Defined.

(** X25 on two symbols, the second without candles. *)
Lemma X25_ingest_main_witness :
  exists w',
    Ingest.main no_candles id demo_terminal ["EURUSDm"; "USDJPYm"] "m15"
      "2024-07-01" "2024-07-05" empty_desk = (ok tt, w')
    /\ Ingest.shut_down w' = true
    /\ Ingest.files w' !! "candles/EURUSDm_m15.csv" = Some [108470; 108500]
    /\ Ingest.files w' !! "candles/USDJPYm_m15.csv" = None.
Proof.
  destruct (proj2 (proj2 (X25_ingest_main no_candles id demo_terminal
                            ["EURUSDm"; "USDJPYm"] "m15" "2024-07-01" "2024-07-05"
                            empty_desk))
              Ingest.TIMEFRAME_M15 (datetime.mk 2024 7 1 0 0 0) (datetime.mk 2024 7 5 0 0 0))
    as (w' & Hrun & Hs & _ & Hdata & Hother); try reflexivity.
  exists w'. split; [exact Hrun|]. split; [exact Hs|]. split.
  - apply (Hdata "EURUSDm" [108470; 108500]); [left | reflexivity | reflexivity].
  - rewrite (Hother "candles/USDJPYm_m15.csv"); [reflexivity|].
    intros s rates Hin Hc Hn.
    apply elem_of_cons in Hin as [-> | Hin]; [discriminate|].
    apply list_elem_of_singleton in Hin as ->. vm_compute in Hc. injection Hc as <-.
    discriminate.
Defined.

(** ** The year of a timestamp *)

Lemma year_texts_ok : forallb year_text_ok (zrange (Z.to_nat 9000) 1000) = true.
Proof. vm_compute. reflexivity. Qed.

Lemma year_text_ok_all (z : Z) : 1000 <= z <= 9999 -> year_text_ok z = true.
Proof.
  intros H. pose proof year_texts_ok as Hall. rewrite forallb_forall in Hall.
  apply Hall, list_elem_of_In, zrange_elem. lia.
Qed.

Lemma split_aux_app_space (x y : string) (cur : list ascii) :
  PyStr.split_aux (x +:+ " " +:+ y) cur = PyStr.split_aux x cur ++ PyStr.split y.
Proof.
  revert cur. induction x as [|c x IH]; intros cur.
  - change ("" +:+ " " +:+ y) with (String " " y). cbn [PyStr.split_aux].
    replace (PyStr.isspace " ") with true by reflexivity.
    by destruct cur.
  - change (String c x +:+ " " +:+ y) with (String c (x +:+ " " +:+ y)).
    cbn [PyStr.split_aux]. destruct (PyStr.isspace c).
    + destruct cur; rewrite IH; reflexivity.
    + apply IH.
Qed.

Lemma split_app_space (x y : string) :
  PyStr.split (x +:+ " " +:+ y) = PyStr.split x ++ PyStr.split y.
Proof. apply split_aux_app_space. Qed.

Lemma string_of_list_rev_app (tok : string) (cur : list ascii) :
  string_of_list_ascii (rev (rev (list_ascii_of_string tok) ++ cur))
  = string_of_list_ascii (rev cur) +:+ tok.
Proof.
  rewrite rev_app_distr, rev_involutive.
  generalize (rev cur). intros l. induction l as [|a l IH]; cbn.
  - apply string_of_list_ascii_of_string.
  - by rewrite IH.
Qed.

(** A token that is read to its end. *)
Lemma split_aux_token (tok rest : string) (cur : list ascii) :
  no_space tok = true ->
  PyStr.split_aux (tok +:+ rest) cur
  = PyStr.split_aux rest (rev (list_ascii_of_string tok) ++ cur).
Proof.
  revert cur. induction tok as [|c tok IH]; intros cur H; [reflexivity|].
  cbn [no_space] in H. apply andb_true_iff in H as [Hc H].
  change (String c tok +:+ rest) with (String c (tok +:+ rest)).
  cbn [PyStr.split_aux]. apply negb_true_iff in Hc. rewrite Hc.
  rewrite IH by exact H. cbn [list_ascii_of_string rev]. by rewrite <- app_assoc.
Qed.

Lemma split_aux_spaces (w rest : string) :
  all_space w = true -> PyStr.split_aux (w +:+ rest) [] = PyStr.split_aux rest [].
Proof.
  induction w as [|c w IH]; intros H; [reflexivity|].
  cbn [all_space] in H. apply andb_true_iff in H as [Hc H].
  change (String c w +:+ rest) with (String c (w +:+ rest)).
  cbn [PyStr.split_aux]. rewrite Hc. by apply IH.
Qed.

Lemma split_token_ws (tok w rest : string) :
  no_space tok = true -> tok <> "" -> all_space w = true -> w <> "" ->
  PyStr.split (tok +:+ w +:+ rest) = tok :: PyStr.split rest.
Proof.
  intros Ht Hne Hw Hwne. unfold PyStr.split. rewrite split_aux_token by exact Ht.
  rewrite app_nil_r. destruct w as [|c w]; [contradiction|].
  cbn [all_space] in Hw. apply andb_true_iff in Hw as [Hc Hw].
  change (String c w +:+ rest) with (String c (w +:+ rest)).
  cbn [PyStr.split_aux]. rewrite Hc.
  destruct (rev (list_ascii_of_string tok)) as [|a l] eqn:E.
  - destruct tok; [contradiction|]. cbn in E. by destruct (rev (list_ascii_of_string tok)).
  - rewrite <- E, rev_involutive, string_of_list_ascii_of_string.
    f_equal. by apply split_aux_spaces.
Qed.

Lemma split_token_end (tok : string) :
  no_space tok = true -> tok <> "" -> PyStr.split tok = [tok].
Proof.
  intros Ht Hne. unfold PyStr.split.
  replace tok with (tok +:+ "") at 1.
  2:{ clear. induction tok as [|c t IH]; [reflexivity|].
      change (String c (t +:+ "") = String c t). by rewrite IH. }
  rewrite split_aux_token by exact Ht. rewrite app_nil_r. cbn [PyStr.split_aux].
  destruct (rev (list_ascii_of_string tok)) as [|a l] eqn:E.
  - destruct tok; [contradiction|]. cbn in E. by destruct (rev (list_ascii_of_string tok)).
  - by rewrite <- E, rev_involutive, string_of_list_ascii_of_string.
Qed.

Lemma isspace_lower (c : ascii) : PyStr.isspace (PyStr.lower c) = PyStr.isspace c.
Proof. destruct c as [[] [] [] [] [] [] [] []]; reflexivity. Qed.

Lemma isspace_code (c : ascii) : 33 <= PyStr.code c -> PyStr.isspace c = false.
Proof.
  unfold PyStr.isspace. intros H.
  repeat match goal with
         | |- context [?a <=? ?b] => destruct (Z.leb_spec a b)
         | |- context [?a =? ?b] => destruct (Z.eqb_spec a b)
         end; cbn; try reflexivity; lia.
Qed.

Lemma isdigit_code (c : ascii) : PyStr.isdigit c = true -> 48 <= PyStr.code c <= 57.
Proof.
  unfold PyStr.isdigit. intros H. apply andb_true_iff in H as [H1 H2].
  apply Z.leb_le in H1, H2. lia.
Qed.

Lemma lstrip_clean (s : string) : clean (PyStr.lstrip s) = true.
Proof.
  induction s as [|c s IH]; [reflexivity|]. cbn [PyStr.lstrip].
  destruct (PyStr.isspace c) eqn:E; [exact IH|]. cbn. by rewrite E.
Qed.

Lemma lstrip_prefix (s : string) :
  exists w, s = w +:+ PyStr.lstrip s /\ all_space w = true.
Proof.
  induction s as [|c s (w & IH & Hw)]; [by exists ""|].
  cbn [PyStr.lstrip]. destruct (PyStr.isspace c) eqn:E.
  - exists (String c w). split; [|cbn; by rewrite E, Hw].
    change (String c s = String c (w +:+ PyStr.lstrip s)). by f_equal.
  - by exists "".
Qed.

Lemma ws1_run (s s' : string) :
  strptime.ws1 s = Some (tt, s') ->
  exists w, s = w +:+ s' /\ w <> "" /\ all_space w = true /\ clean s' = true.
Proof.
  destruct s as [|c s]; cbn; [discriminate|].
  destruct (PyStr.isspace c) eqn:E; [|discriminate]. intros [= <-].
  destruct (lstrip_prefix s) as (w & Hs & Hw). exists (String c w).
  split; [change (String c s = String c (w +:+ PyStr.lstrip s)); by f_equal|].
  split; [discriminate|]. split; [cbn; by rewrite E, Hw | apply lstrip_clean].
Qed.

Lemma lit_ci_token (p s s' : string) :
  strptime.lit_ci p s = Some (tt, s') ->
  exists tok, s = tok +:+ s' /\ String.length tok = String.length p
              /\ (no_space p = true -> no_space tok = true).
Proof.
  revert s. induction p as [|a p IH]; intros s H; cbn [strptime.lit_ci] in H.
  - injection H as <-. by exists "".
  - destruct s as [|b s]; [discriminate|].
    destruct (Ascii.eqb (PyStr.lower a) (PyStr.lower b)) eqn:E; [|discriminate].
    apply Ascii.eqb_eq in E.
    destruct (IH _ H) as (tok & -> & Hl & Hn). exists (String b tok).
    split; [reflexivity|]. split; [cbn; by rewrite Hl|].
    cbn [no_space]. intros Hp. apply andb_true_iff in Hp as [Ha Hp].
    rewrite (Hn Hp), andb_true_r.
    by rewrite <- (isspace_lower b), <- E, isspace_lower.
Qed.

Lemma one_of_token (names : list string) (i : Z) (s s' : string) (v : Z) :
  Forall (fun n => no_space n = true /\ String.length n = 3%nat) names ->
  strptime.one_of names i s = Some (v, s') ->
  exists tok, s = tok +:+ s' /\ String.length tok = 3%nat /\ no_space tok = true.
Proof.
  intros Hall. revert i. induction Hall as [|n names [Hn Hl] _ IH]; intros i H;
    cbn [strptime.one_of] in H; [discriminate|].
  destruct (strptime.lit_ci n s) as [[[] s1]|] eqn:E.
  - injection H as _ <-. apply lit_ci_token in E as (tok & -> & Hlt & Hnt).
    exists tok. split; [reflexivity|]. split; [congruence | by apply Hnt].
  - by eapply IH.
Qed.

Lemma day_abbr_tokens :
  Forall (fun n => no_space n = true /\ String.length n = 3%nat) datetime.day_abbr.
Proof. repeat constructor. Qed.

Lemma month_abbr_tokens :
  Forall (fun n => no_space n = true /\ String.length n = 3%nat) datetime.month_abbr.
Proof. repeat constructor. Qed.

Ltac bool_cases H :=
  repeat match type of H with
         | (if ?c then _ else _) = _ =>
             let E := fresh "E" in destruct c eqn:E
         end.

Ltac code_facts :=
  repeat match goal with
         | H : _ && _ = true |- _ => apply andb_true_iff in H as [? ?]
         | H : _ || _ = true |- _ => apply orb_true_iff in H
         | H : (_ <=? _) = true |- _ => apply Z.leb_le in H
         | H : (_ =? _) = true |- _ => apply Z.eqb_eq in H
         | H : PyStr.isdigit _ = true |- _ => apply isdigit_code in H
         end.

Lemma no_space_1 (a : ascii) : 33 <= PyStr.code a -> no_space (String a "") = true.
Proof. intros H. cbn. by rewrite (isspace_code _ H). Qed.

Lemma no_space_2 (a b : ascii) :
  33 <= PyStr.code a -> 33 <= PyStr.code b -> no_space (String a (String b "")) = true.
Proof. intros Ha Hb. cbn. by rewrite (isspace_code _ Ha), (isspace_code _ Hb). Qed.

Lemma dir_d_token (s s' : string) (v : Z) :
  clean s = true -> strptime.dir_d s = Some (v, s') ->
  exists tok, s = tok +:+ s' /\ tok <> "" /\ (String.length tok <= 2)%nat
              /\ no_space tok = true.
Proof.
  intros Hc H. unfold strptime.dir_d in H.
  destruct s as [|a [|b s]]; [discriminate| |].
  - bool_cases H; [|discriminate]. injection H as _ <-. exists (String a "").
    split; [reflexivity|]. split; [discriminate|]. split; [cbn; lia|].
    code_facts. apply no_space_1. lia.
  - cbn in Hc. apply negb_true_iff in Hc.
    bool_cases H; try discriminate; injection H as _ <-; code_facts.
    + exists (String a (String b "")). split; [reflexivity|]. split; [discriminate|].
      split; [cbn; lia|]. apply no_space_2; [lia|]. destruct H0; lia.
    + exists (String a (String b "")). split; [reflexivity|]. split; [discriminate|].
      split; [cbn; lia|]. apply no_space_2; [destruct H; lia | lia].
    + exists (String a (String b "")). split; [reflexivity|]. split; [discriminate|].
      split; [cbn; lia|]. apply no_space_2; lia.
    + exists (String a ""). split; [reflexivity|]. split; [discriminate|].
      split; [cbn; lia|]. apply no_space_1. lia.
    + exfalso. unfold PyStr.isspace in Hc.
      replace (PyStr.code a) with 32 in Hc by lia. discriminate.
Qed.

Lemma dir_Y_token (s s' : string) (v : Z) :
  strptime.dir_Y s = Some (v, s') ->
  exists tok, s = tok +:+ s' /\ String.length tok = 4%nat /\ no_space tok = true
              /\ strptime.dir_Y tok = Some (v, "").
Proof.
  intros H. unfold strptime.dir_Y in H.
  destruct s as [|a [|b [|c [|d s]]]]; try discriminate.
  destruct (_ && _) eqn:E; [|discriminate]. injection H as <- <-.
  exists (String a (String b (String c (String d "")))).
  split; [reflexivity|]. split; [reflexivity|]. split.
  - code_facts. cbn. rewrite !isspace_code by lia. reflexivity.
  - unfold strptime.dir_Y. by rewrite E.
Qed.

Lemma dir_I_token (s s' : string) (v : Z) :
  strptime.dir_I s = Some (v, s') ->
  exists tok, s = tok +:+ s' /\ tok <> "" /\ no_space tok = true.
Proof.
  intros H. unfold strptime.dir_I in H.
  destruct s as [|a [|b s]]; [discriminate| |];
    bool_cases H; try discriminate; injection H as _ <-; code_facts;
    first [ exists (String a (String b "")); split; [reflexivity|]; split; [discriminate|];
            apply no_space_2; lia
          | exists (String a ""); split; [reflexivity|]; split; [discriminate|];
            apply no_space_1; lia ].
Qed.

Lemma dir_M_token (s s' : string) (v : Z) :
  strptime.dir_M s = Some (v, s') ->
  exists tok, s = tok +:+ s' /\ tok <> "" /\ no_space tok = true.
Proof.
  intros H. unfold strptime.dir_M in H.
  destruct s as [|a [|b s]]; [discriminate| |];
    bool_cases H; try discriminate; injection H as _ <-; code_facts;
    first [ exists (String a (String b "")); split; [reflexivity|]; split; [discriminate|];
            apply no_space_2; lia
          | exists (String a ""); split; [reflexivity|]; split; [discriminate|];
            apply no_space_1; lia ].
Qed.

Lemma dir_p_token (s s' : string) (v : bool) :
  strptime.dir_p s = Some (v, s') ->
  exists tok, s = tok +:+ s' /\ tok <> "" /\ no_space tok = true.
Proof.
  intros H. unfold strptime.dir_p in H.
  destruct (strptime.lit_ci "am" s) as [[[] s1]|] eqn:E1.
  - injection H as _ <-. apply lit_ci_token in E1 as (tok & -> & Hl & Hn).
    exists tok. split; [reflexivity|]. split; [by destruct tok | by apply Hn].
  - destruct (strptime.lit_ci "pm" s) as [[[] s1]|] eqn:E2; [|discriminate].
    injection H as _ <-. apply lit_ci_token in E2 as (tok & -> & Hl & Hn).
    exists tok. split; [reflexivity|]. split; [by destruct tok | by apply Hn].
Qed.

Lemma no_space_app (a b : string) :
  no_space (a +:+ b) = no_space a && no_space b.
Proof.
  induction a as [|c a IH]; [reflexivity|].
  change (String c a +:+ b) with (String c (a +:+ b)). cbn [no_space].
  by rewrite IH, andb_assoc.
Qed.

Ltac bind_step H E v r :=
  match type of H with
  | strptime.bind ?p _ ?s = _ =>
      unfold strptime.bind at 1 in H;
      destruct (p s) as [[v r]|] eqn:E; [|discriminate H]
  end.

(** The tokens of a text that [date_part] reads. *)
Lemma date_part_tokens (s s' : string) (y m d : Z) :
  strptime.date_part s = Some (y, m, d, s') ->
  exists ta tb td ty w1 w2 w3,
    s = ta +:+ w1 +:+ tb +:+ w2 +:+ td +:+ w3 +:+ ty +:+ s'
    /\ (String.length ta = 3%nat /\ no_space ta = true)
    /\ (String.length tb = 3%nat /\ no_space tb = true)
    /\ (td <> "" /\ (String.length td <= 2)%nat /\ no_space td = true)
    /\ (String.length ty = 4%nat /\ no_space ty = true
        /\ strptime.dir_Y ty = Some (y, ""))
    /\ (w1 <> "" /\ all_space w1 = true)
    /\ (w2 <> "" /\ all_space w2 = true)
    /\ (w3 <> "" /\ all_space w3 = true).
Proof.
  unfold strptime.date_part. intros H.
  bind_step H Ea va r1. bind_step H E1 u1 r2. bind_step H Eb vb r3.
  bind_step H E2 u2 r4. bind_step H Ed vd r5. bind_step H E3 u3 r6.
  bind_step H Ey vy r7.
  unfold strptime.ret in H. injection H as <- <- <- <-.
  apply (one_of_token _ _ _ _ _ day_abbr_tokens) in Ea as (ta & -> & Hla & Hna).
  destruct u1. apply ws1_run in E1 as (w1 & -> & Hw1 & Hs1 & Hc1).
  apply (one_of_token _ _ _ _ _ month_abbr_tokens) in Eb as (tb & -> & Hlb & Hnb).
  destruct u2. apply ws1_run in E2 as (w2 & -> & Hw2 & Hs2 & Hc2).
  apply (dir_d_token _ _ _ Hc2) in Ed as (td & -> & Hd0 & Hld & Hnd).
  destruct u3. apply ws1_run in E3 as (w3 & -> & Hw3 & Hs3 & Hc3).
  apply dir_Y_token in Ey as (ty & -> & Hly & Hny & Hy).
  exists ta, tb, td, ty, w1, w2, w3. by repeat split.
Qed.

Lemma build_year (y m d hh mi : Z) (ts : datetime.t) :
  strptime.build y m d hh mi = inr ts -> datetime.year ts = y.
Proof.
  unfold strptime.build. destruct (datetime.valid_date y m d); [|discriminate].
  by intros [= <-].
Qed.

Lemma complete_Some {A} (r : option (A * string)) (a : A) :
  strptime.complete r = Some a -> r = Some (a, "").
Proof. destruct r as [[a' [|c s]]|]; cbn; try discriminate. by intros [= ->]. Qed.

Lemma length3_nonempty (a : string) : String.length a = 3%nat -> a <> "".
Proof. by destruct a. Qed.

Lemma length4_nonempty (a : string) : String.length a = 4%nat -> a <> "".
Proof. by destruct a. Qed.

Lemma append_empty_r (a : string) : a +:+ "" = a.
Proof.
  induction a as [|c t IH]; [reflexivity|].
  change (String c (t +:+ "") = String c t). by rewrite IH.
Qed.

Lemma date_only_tokens (s : string) (ts : datetime.t) :
  strptime.date_only s = inr ts ->
  exists ta tb td ty,
    PyStr.split s = [ta; tb; td; ty]
    /\ strptime.dir_Y ty = Some (datetime.year ts, "").
Proof.
  unfold strptime.date_only. intros H.
  destruct (strptime.complete (strptime.date_part s)) as [[[y m] d]|] eqn:E; [|discriminate].
  apply complete_Some in E. apply build_year in H. subst y.
  apply date_part_tokens in E
    as (ta & tb & td & ty & w1 & w2 & w3 & -> & [Hla Hna] & [Hlb Hnb] & (Hd0 & Hld & Hnd)
        & (Hly & Hny & Hy) & [Hw1 Hs1] & [Hw2 Hs2] & [Hw3 Hs3]).
  exists ta, tb, td, ty. split; [|exact Hy].
  rewrite split_token_ws by (try assumption; by apply length3_nonempty).
  rewrite split_token_ws by (try assumption; by apply length3_nonempty).
  rewrite split_token_ws by assumption.
  rewrite append_empty_r.
  by rewrite split_token_end by (try assumption; by apply length4_nonempty).
Qed.

Lemma date_time_tokens (s : string) (ts : datetime.t) :
  strptime.date_time s = inr ts ->
  exists ta tb td ty T,
    PyStr.split s = [ta; tb; td; ty; T]
    /\ String.length ta = 3%nat /\ String.length tb = 3%nat
    /\ (String.length td <= 2)%nat
    /\ strptime.dir_Y ty = Some (datetime.year ts, "")
    /\ ends_m T = true.
Proof.
  intros Hrun. pose proof (date_time_ends_m _ _ Hrun) as Hm.
  unfold strptime.date_time in Hrun.
  match type of Hrun with
  | match strptime.complete (?p s) with _ => _ end = _ =>
      destruct (strptime.complete (p s)) as [[[[[y m] d] hh] mi]|] eqn:E; [|discriminate]
  end.
  apply complete_Some in E. apply build_year in Hrun. subst y.
  bind_step E Ep vp r1. destruct vp as [[y' m'] d'].
  bind_step E E4 u4 r2. bind_step E EI vI r3. bind_step E Ec uc r4.
  bind_step E EM vM r5. bind_step E Epm vpm r6.
  unfold strptime.ret in E. injection E as <- <- <- _ _ ->.
  apply date_part_tokens in Ep
    as (ta & tb & td & ty & w1 & w2 & w3 & -> & [Hla Hna] & [Hlb Hnb] & (Hd0 & Hld & Hnd)
        & (Hly & Hny & Hy) & [Hw1 Hs1] & [Hw2 Hs2] & [Hw3 Hs3]).
  destruct u4. apply ws1_run in E4 as (w4 & -> & Hw4 & Hs4 & Hc4).
  apply dir_I_token in EI as (tI & -> & HI0 & HnI).
  destruct uc. apply lit_ci_token in Ec as (tc & -> & Hlc & Hnc).
  apply dir_M_token in EM as (tM & -> & HM0 & HnM).
  apply dir_p_token in Epm as (tp & -> & Hp0 & Hnp).
  set (T := tI +:+ tc +:+ tM +:+ tp +:+ "") in *.
  assert (HT : no_space T = true).
  { unfold T. rewrite !no_space_app, HnI, (Hnc eq_refl), HnM, Hnp. reflexivity. }
  assert (HT0 : T <> "") by (unfold T; by destruct tI).
  exists ta, tb, td, ty, T. split; [|repeat split; try assumption].
  - rewrite split_token_ws by (try assumption; by apply length3_nonempty).
    rewrite split_token_ws by (try assumption; by apply length3_nonempty).
    rewrite split_token_ws by assumption.
    rewrite split_token_ws by (try assumption; by apply length4_nonempty).
    by rewrite split_token_end.
  - unfold ends_m in *.
    assert (Hl : forall x, last_char (x +:+ T) = last_char T)
      by (intros x; by apply last_char_app).
    rewrite <- (Hl (ta +:+ w1 +:+ tb +:+ w2 +:+ td +:+ w3 +:+ ty +:+ w4)).
    rewrite !append_assoc. exact Hm.
Qed.

Lemma year_text (z : Z) :
  1000 <= z <= 9999 ->
  strptime.dir_Y (PyStr.of_int z) = Some (z, "")
  /\ String.length (PyStr.of_int z) = 4%nat
  /\ no_space (PyStr.of_int z) = true
  /\ ends_m (PyStr.of_int z) = false.
Proof.
  intros Hz. pose proof (year_text_ok_all z Hz) as H. unfold year_text_ok in H.
  destruct (strptime.dir_Y (PyStr.of_int z)) as [[y [|c r]]|]; try discriminate.
  repeat (apply andb_true_iff in H as [H ?]).
  apply Z.eqb_eq in H as ->. split; [reflexivity|].
  split; [by apply Nat.eqb_eq|]. split; [assumption | by apply negb_true_iff].
Qed.

Lemma split_day_year_time (day_text year_text time_text : string) :
  String.length year_text = 4%nat -> no_space year_text = true ->
  PyStr.split (day_text +:+ " " +:+ year_text +:+ " " +:+ time_text)
  = PyStr.split day_text ++ [year_text] ++ PyStr.split time_text.
Proof.
  intros Hl Hn. rewrite split_app_space, split_app_space.
  by rewrite (split_token_end year_text Hn (length4_nonempty _ Hl)).
Qed.

Lemma split_day_year (day_text year_text : string) :
  String.length year_text = 4%nat -> no_space year_text = true ->
  PyStr.split (day_text +:+ " " +:+ year_text) = PyStr.split day_text ++ [year_text].
Proof.
  intros Hl Hn. rewrite split_app_space.
  by rewrite (split_token_end year_text Hn (length4_nonempty _ Hl)).
Qed.

(** X26: for a week date of the years 1000 to 9999, every timestamp that
    [parse_calendar_time] returns carries the year of the week date,
    whatever the heading and the time text hold; so does every event of
    [parse_calendar_dom].  In a week that runs over New Year the rows of
    January are stamped with the year of the week's first day. *)
Theorem X26_timestamp_year (wd : datetime.t) :
  1000 <= datetime.year wd <= 9999 ->
  (forall day_str time_str ts,
      Scraper.parse_calendar_time (Some wd) day_str time_str = inr ts ->
      datetime.year ts = datetime.year wd)
  /\ (forall html e,
        e ∈ Scraper.parse_calendar_dom html (Some wd) ->
        datetime.year (Scraper.timestamp e) = datetime.year wd).
Proof.
  intros Hwd. destruct (year_text _ Hwd) as (HY & Hl & Hn & Hm).
  assert (Htime : forall day_str time_str ts,
            Scraper.parse_calendar_time (Some wd) day_str time_str = inr ts ->
            datetime.year ts = datetime.year wd).
  { intros day_str time_str ts H. unfold Scraper.parse_calendar_time in H.
    rewrite unfuse_idem in H.
    set (Y := PyStr.of_int (datetime.year wd)) in *.
    set (U := Scraper.unfuse day_str) in *.
    assert (Hsame : forall ty, ty = Y ->
              strptime.dir_Y ty = Some (datetime.year ts, "") ->
              datetime.year ts = datetime.year wd).
    { intros ty -> Hy. rewrite HY in Hy. by injection Hy as ->. }
    destruct (strptime.date_time _) as [e1|ts1] eqn:E1.
    - destruct (date_time_raises _ _ E1) as [msg ->].
      destruct (strptime.date_only _) as [e2|ts2] eqn:E2; [discriminate|].
      injection H as ->.
      apply date_only_tokens in E2 as (ta & tb & td & ty & Hs & Hy).
      rewrite (split_day_year U Y Hl Hn) in Hs.
      apply (Hsame ty); [|exact Hy].
      destruct (PyStr.split U) as [|u1 [|u2 [|u3 [|u4 l]]]]; cbn in Hs;
        try discriminate; [by injection Hs as _ _ _ ->|].
      by destruct l.
    - injection H as ->.
      apply date_time_tokens in E1 as (ta & tb & td & ty & T & Hs & Hla & Hlb & Hld & Hy & HT).
      rewrite (split_day_year_time U Y time_str Hl Hn) in Hs.
      destruct (PyStr.split U) as [|u1 [|u2 [|u3 [|u4 [|u5 l]]]]];
        destruct (PyStr.split time_str) as [|t1 [|t2 [|t3 [|t4 [|t5 l']]]]];
        cbn in Hs; try discriminate; injection Hs as Hs;
        repeat match goal with
               | H : _ :: _ = _ :: _ |- _ => injection H as ? H
               end; subst; try lia; try congruence;
        try (apply (Hsame _ eq_refl); assumption);
        try (destruct l; discriminate). }
  split; [exact Htime|].
  intros html e He. unfold Scraper.parse_calendar_dom in He.
  apply dom_rows_elem in He as (before & row & after & _ & Hev).
  unfold Scraper.dom_row_event in Hev.
  destruct (_ || _); [discriminate|].
  destruct (Scraper.parse_calendar_time _ _ _) as [x|ts] eqn:E; [discriminate|].
  injection Hev as <-. cbn. by eapply Htime.
Qed.

Lemma suffix_eq (a b x y : string) :
  a +:+ x = b +:+ y -> String.length x = String.length y -> x = y.
Proof.
  intros H Hl. apply append_inj_length in H as [_ H]; [exact H|].
  apply (f_equal String.length) in H. rewrite !string_length_app in H. lia.
Qed.

(** The year that the format of the table parser reads is written in the
    last four characters. *)
Lemma date_time_year_suffix (s : string) (ts : datetime.t) :
  Fallback.date_time_year s = inr ts ->
  exists pre ty,
    s = pre +:+ ty /\ String.length ty = 4%nat
    /\ strptime.dir_Y ty = Some (datetime.year ts, "").
Proof.
  intros Hrun. unfold Fallback.date_time_year in Hrun.
  match type of Hrun with
  | match strptime.complete (?p s) with _ => _ end = _ =>
      destruct (strptime.complete (p s)) as [[[[[y m] d] hh] mi]|] eqn:E; [|discriminate]
  end.
  apply complete_Some in E. apply build_year in Hrun. subst y.
  bind_step E Ea va r1. bind_step E E1 u1 r2. bind_step E Eb vb r3.
  bind_step E E2 u2 r4. bind_step E Ed vd r5. bind_step E E3 u3 r6.
  bind_step E EI vI r7. bind_step E Ec uc r8. bind_step E EM vM r9.
  bind_step E Epm vpm r10. bind_step E E4 u4 r11. bind_step E Ey vy r12.
  unfold strptime.ret in E. injection E as <- _ _ _ _ ->.
  apply suffixing_one_of in Ea as [p1 ->]. apply suffixing_ws1 in E1 as [p2 ->].
  apply suffixing_one_of in Eb as [p3 ->]. apply suffixing_ws1 in E2 as [p4 ->].
  apply suffixing_dir_d in Ed as [p5 ->]. apply suffixing_ws1 in E3 as [p6 ->].
  apply suffixing_dir_I in EI as [p7 ->]. apply suffixing_lit_ci in Ec as [p8 ->].
  apply suffixing_dir_M in EM as [p9 ->].
  apply dir_p_token in Epm as (p10 & -> & _). apply suffixing_ws1 in E4 as [p11 ->].
  apply dir_Y_token in Ey as (ty & -> & Hl & _ & Hy).
  exists (p1 +:+ p2 +:+ p3 +:+ p4 +:+ p5 +:+ p6 +:+ p7 +:+ p8 +:+ p9 +:+ p10 +:+ p11), ty.
  rewrite append_empty_r. split; [by rewrite !append_assoc | by split].
Qed.

(** X27: for a week date of the years 1000 to 9999, every timestamp
    that the table parser reads carries the year of the week date. *)
Theorem X27_fallback_timestamp_year (wd : datetime.t) :
  1000 <= datetime.year wd <= 9999 ->
  (forall cleaned_date time_str ts,
      Fallback.timestamp_of (Some wd) cleaned_date time_str = Some ts ->
      datetime.year ts = datetime.year wd)
  /\ (forall table df r ts,
        Fallback.parse_calendar_html_fallback table (Some wd) = inr df ->
        r ∈ df -> Fallback.timestamp r = Some ts ->
        datetime.year ts = datetime.year wd).
Proof.
  intros Hwd. destruct (year_text _ Hwd) as (HY & Hl & _ & _).
  assert (Hstamp : forall cleaned_date time_str ts,
            Fallback.timestamp_of (Some wd) cleaned_date time_str = Some ts ->
            datetime.year ts = datetime.year wd).
  { intros cleaned_date time_str ts H. unfold Fallback.timestamp_of in H.
    destruct (Fallback.date_time_year _) as [e|ts'] eqn:E; [discriminate|].
    injection H as ->.
    apply date_time_year_suffix in E as (pre & ty & Hs & Hlt & Hy).
    rewrite <- !append_assoc in Hs. apply suffix_eq in Hs; [|congruence].
    rewrite <- Hs, HY in Hy. by injection Hy as ->. }
  split; [exact Hstamp|].
  intros table df r ts Hrun Hr Hts. unfold Fallback.parse_calendar_html_fallback in Hrun.
  destruct table as [trs|]; [|discriminate].
  destruct (drop_duplicates_spec (Fallback.rows_of (Some wd) None trs) []) as (Hsub & _).
  assert (Hdf : df = Fallback.drop_duplicates [] (Fallback.rows_of (Some wd) None trs)).
  { destruct (Fallback.rows_of (Some wd) None trs) as [|r0 rows]; [discriminate|].
    by injection Hrun as <-. }
  rewrite <- Hdf in Hsub. apply (elem_of_sublist _ _ _ Hr) in Hsub.
  apply fallback_row_fields in Hsub as (? & ? & ? & ? & ? & _ & _ & _ & _ & _ & _ & Ht & _).
  rewrite Ht in Hts. by eapply Hstamp.
Qed.

(** X26 on the week of 30 December 2024: a row of 1 January is stamped
    with 2024. *)
Lemma X26_timestamp_year_witness :
  Scraper.parse_calendar_time (Some (datetime.mk 2024 12 30 0 0 0)) "Wed Jan 1" "8:30am"
  = inr (datetime.mk 2024 1 1 8 30 0)
  /\ datetime.year (datetime.mk 2024 1 1 8 30 0) = 2024.
Proof.
  assert (H : Scraper.parse_calendar_time (Some (datetime.mk 2024 12 30 0 0 0))
                "Wed Jan 1" "8:30am" = inr (datetime.mk 2024 1 1 8 30 0))
    by (vm_compute; reflexivity).
  split; [exact H|].
  apply (proj1 (X26_timestamp_year (datetime.mk 2024 12 30 0 0 0) ltac:(cbn; lia)) _ _ _ H).
Defined.

(** X27 on the same week. *)
Lemma X27_fallback_timestamp_year_witness :
  Fallback.timestamp_of (Some (datetime.mk 2024 12 30 0 0 0)) "Wed Jan 1" "8:30am"
  = Some (datetime.mk 2024 1 1 8 30 0)
  /\ datetime.year (datetime.mk 2024 1 1 8 30 0) = 2024.
Proof.
  assert (H : Fallback.timestamp_of (Some (datetime.mk 2024 12 30 0 0 0))
                "Wed Jan 1" "8:30am" = Some (datetime.mk 2024 1 1 8 30 0))
    by (vm_compute; reflexivity).
  split; [exact H|].
  apply (proj1 (X27_fallback_timestamp_year (datetime.mk 2024 12 30 0 0 0)
                  ltac:(cbn; lia)) _ _ _ H).
Defined.

(** ** Browser starts *)

Lemma attempts_drivers (env : Scraper.Env) (d : Z) (todo : list Z)
    (w w' : Campaign.World) (r : result unit) :
  Campaign.attempts env d todo w = (r, w') ->
  (Campaign.drivers w <= Campaign.drivers w'
   <= Campaign.drivers w
      + length (List.filter (fun a : Z => (a <? Campaign.MAX_RETRIES)%Z) todo))%nat.
Proof.
  revert w. induction todo as [|a todo IH]; intros w H; cbn [Campaign.attempts] in H.
  - injection H as <- <-. cbn. lia.
  - destruct (Campaign.scrape_week env (datetime.of_days d) w) as [rs w1] eqn:Es.
    apply scrape_week_effect in Es as (_ & Hd & _).
    destruct rs as [e|u]; [|injection H as <- <-; cbn [List.filter]; rewrite Hd; lia].
    cbn [List.filter]. destruct (a <? Campaign.MAX_RETRIES).
    + unfold Campaign.create_driver in H. cbn [Campaign.drivers Campaign.logger] in H.
      destruct (Scraper.driver_up env _).
      * apply IH in H. cbn in H |- *. lia.
      * injection H as <- <-. cbn. lia.
    + apply IH in H. cbn in H |- *. lia.
Qed.

Lemma week_step_drivers (env : Scraper.Env) (d : Z) (w w' : Campaign.World)
    (r : result unit) :
  Campaign.week_step env d w = (r, w') ->
  (Campaign.drivers w <= Campaign.drivers w'
   <= Campaign.drivers w + (if uncached w d then 2 else 0))%nat.
Proof.
  unfold Campaign.week_step, uncached. intros H.
  destruct (Campaign.calendar w !! Campaign.week_csv (datetime.of_days d)).
  - injection H as <- <-. cbn. lia.
  - apply attempts_drivers in H. cbn in H. lia.
Qed.

Lemma campaign_drivers (env : Scraper.Env) (weeks : list Z) (w0 w w' : Campaign.World)
    (r : result unit) :
  Campaign.calendar w0 ⊆ Campaign.calendar w ->
  Campaign.campaign env weeks w = (r, w') ->
  (Campaign.drivers w <= Campaign.drivers w'
   <= Campaign.drivers w + 2 * length (List.filter (uncached w0) weeks))%nat.
Proof.
  revert w. induction weeks as [|d weeks IH]; intros w Hsub H; cbn [Campaign.campaign] in H.
  - injection H as <- <-. cbn. lia.
  - destruct (Campaign.week_step env d w) as [rs w1] eqn:Es.
    pose proof (week_step_drivers _ _ _ _ _ Es) as Hd.
    pose proof (week_step_stretch _ _ _ _ _ Es) as (_ & Hgrow & _).
    assert (Hone : ((if uncached w d then 2 else 0)
                    <= 2 * length (List.filter (uncached w0) [d]))%nat).
    { unfold uncached. cbn [List.filter].
      destruct (Campaign.calendar w0 !! Campaign.week_csv (datetime.of_days d)) as [t|] eqn:E0.
      - by rewrite (lookup_weaken _ _ _ _ E0 Hsub).
      - cbn. destruct (Campaign.calendar w !! _); lia. }
    change (d :: weeks) with ([d] ++ weeks). rewrite List.filter_app, length_app.
    destruct rs as [e|u].
    + injection H as <- <-. lia.
    + apply IH in H; [lia|]. by trans (Campaign.calendar w).
Qed.

(** X28: a run of [main] starts the browser at least once and at most
    once plus twice for every week of the range that had no table when
    the run began: a week that is cached causes no restart, and the
    third failure of a week causes none either. *)
Theorem X28_browser_starts_are_bounded (env : Scraper.Env) (start end_ : Z)
    (w : Campaign.World) :
  (Campaign.drivers w < Campaign.drivers (snd (Campaign.main env start end_ w))
   <= Campaign.drivers w + 1
      + 2 * length (List.filter (uncached w) (Campaign.week_anchors start end_)))%nat.
Proof.
  unfold Campaign.main, Campaign.create_driver.
  set (w0 := Campaign.mkWorld (Campaign.calendar w) (Campaign.files w) (Campaign.log w)
               (Campaign.fetched w) (S (Campaign.drivers w))).
  destruct (Scraper.driver_up env (Campaign.drivers w)); [|cbn; lia].
  destruct (Campaign.campaign env (Campaign.week_anchors start end_) w0) as [r w2] eqn:Ec.
  apply (campaign_drivers env _ w) in Ec; [|reflexivity].
  assert (Hm : Campaign.drivers (Campaign.merge_all_weeks w2) = Campaign.drivers w2).
  { unfold Campaign.merge_all_weeks. by destruct (Campaign.week_files (Campaign.calendar w2)). }
  change (Campaign.drivers w0) with (S (Campaign.drivers w)) in Ec.
  destruct r as [e|u]; unfold ok; cbn [snd].
  - lia.
  - unfold Campaign.logger. cbn [Campaign.drivers]. rewrite Hm. lia.
Qed.

(** ** The order of the merged table *)

Lemma pad2_orders_ok : forallb pad2_order_ok (zrange (Z.to_nat 100) 0) = true.
Proof. vm_compute. reflexivity. Qed.

Lemma pad2_compare (x y : Z) :
  0 <= x <= 99 -> 0 <= y <= 99 ->
  String.compare (PyStr.pad2 x) (PyStr.pad2 y) = (x ?= y).
Proof.
  intros Hx Hy. pose proof pad2_orders_ok as H. rewrite forallb_forall in H.
  assert (Hin : forall v, 0 <= v <= 99 -> In v (zrange (Z.to_nat 100) 0)).
  { intros v Hv. apply list_elem_of_In, zrange_elem. lia. }
  specialize (H x (Hin x Hx)).
  unfold pad2_order_ok in H. rewrite forallb_forall in H.
  specialize (H y (Hin y Hy)).
  destruct (String.compare _ _), (x ?= y); congruence.
Qed.

Lemma compare_app (a1 a2 b1 b2 : string) :
  String.length a1 = String.length a2 ->
  String.compare (a1 +:+ b1) (a2 +:+ b2)
  = match String.compare a1 a2 with
    | Eq => String.compare b1 b2
    | c => c
    end.
Proof.
  revert a2. induction a1 as [|c a1 IH]; intros [|c2 a2] Hl; try discriminate.
  - reflexivity.
  - injection Hl as Hl.
    change (String c a1 +:+ b1) with (String c (a1 +:+ b1)).
    change (String c2 a2 +:+ b2) with (String c2 (a2 +:+ b2)).
    cbn [String.compare]. destruct (Ascii.compare c c2); [by apply IH | reflexivity..].
Qed.

Lemma compare_refl (a : string) : String.compare a a = Eq.
Proof.
  induction a as [|c a IH]; [reflexivity|]. cbn [String.compare].
  unfold Ascii.compare. by rewrite N.compare_refl.
Qed.

Lemma pad2_mod (z : Z) : PyStr.pad2 z = PyStr.pad2 (z mod 100).
Proof.
  assert (E1 : (z / 10) mod 10 = (z mod 100 / 10) mod 10)
    by (Z.div_mod_to_equations; lia).
  assert (E2 : z mod 10 = (z mod 100) mod 10) by (Z.div_mod_to_equations; lia).
  unfold PyStr.pad2, PyStr.digit. by rewrite E1, E2.
Qed.

Lemma pad4_split (z : Z) : PyStr.pad4 z = PyStr.pad2 (z / 100) +:+ PyStr.pad2 z.
Proof.
  assert (E : (z / 1000) mod 10 = (z / 100 / 10) mod 10)
    by (Z.div_mod_to_equations; lia).
  unfold PyStr.pad4. unfold PyStr.pad2 at 2.
  change (String ?a (String ?b "") +:+ ?s) with (String a (String b s)).
  unfold PyStr.digit. by rewrite E.
Qed.

Lemma pad4_compare (x y : Z) :
  0 <= x <= 9999 -> 0 <= y <= 9999 ->
  String.compare (PyStr.pad4 x) (PyStr.pad4 y) = (x ?= y).
Proof.
  intros Hx Hy. rewrite !pad4_split, compare_app by reflexivity.
  rewrite (pad2_mod x), (pad2_mod y).
  rewrite !pad2_compare.
  2-5: Z.div_mod_to_equations; lia.
  destruct (Z.compare_spec (x / 100) (y / 100)) as [E|E|E];
    destruct (Z.compare_spec (x mod 100) (y mod 100)) as [E'|E'|E'];
    symmetry; first [apply Z.compare_eq_iff | apply Z.compare_lt_iff | apply Z.compare_gt_iff];
    revert E E'; Z.div_mod_to_equations; lia.
Qed.

(** The order of the timestamp texts is the order of the civil fields. *)
Lemma str_compare (a b : datetime.t) :
  printable a -> printable b ->
  String.compare (datetime.str a) (datetime.str b) = lex_compare (fields a) (fields b).
Proof.
  intros (Hy & Hm & Hd & Hh & Hmi & Hs) (Hy' & Hm' & Hd' & Hh' & Hmi' & Hs').
  unfold datetime.str, datetime.iso_date, fields. cbn [lex_compare].
  rewrite !append_assoc.
  rewrite compare_app by reflexivity. rewrite pad4_compare by assumption.
  destruct (datetime.year a ?= datetime.year b); [|reflexivity..].
  rewrite (compare_app "-" "-") by reflexivity. cbn [String.compare Ascii.compare].
  change (N_of_ascii "-" ?= N_of_ascii "-")%N with Eq.
  rewrite compare_app by reflexivity. rewrite pad2_compare by assumption.
  destruct (datetime.month a ?= datetime.month b); [|reflexivity..].
  rewrite (compare_app "-" "-") by reflexivity. cbn [String.compare Ascii.compare].
  change (N_of_ascii "-" ?= N_of_ascii "-")%N with Eq.
  rewrite compare_app by reflexivity. rewrite pad2_compare by assumption.
  destruct (datetime.day a ?= datetime.day b); [|reflexivity..].
  rewrite (compare_app " " " ") by reflexivity. cbn [String.compare Ascii.compare].
  change (N_of_ascii " " ?= N_of_ascii " ")%N with Eq.
  rewrite compare_app by reflexivity. rewrite pad2_compare by assumption.
  destruct (datetime.hour a ?= datetime.hour b); [|reflexivity..].
  rewrite (compare_app ":" ":") by reflexivity. cbn [String.compare Ascii.compare].
  change (N_of_ascii ":" ?= N_of_ascii ":")%N with Eq.
  rewrite compare_app by reflexivity. rewrite pad2_compare by assumption.
  destruct (datetime.minute a ?= datetime.minute b); [|reflexivity..].
  rewrite (compare_app ":" ":") by reflexivity. cbn [String.compare Ascii.compare].
  change (N_of_ascii ":" ?= N_of_ascii ":")%N with Eq.
  rewrite pad2_compare by assumption.
  by destruct (datetime.second a ?= datetime.second b).
Qed.

Lemma Sorted_weaken {A} (R R' : A -> A -> Prop) (l : list A) :
  (forall x y, R x y -> R' x y) -> Sorted R l -> Sorted R' l.
Proof.
  intros Himp. induction 1 as [|x l Hs IH Hhd]; constructor; [exact IH|].
  destruct Hhd; constructor. by apply Himp.
Qed.

Lemma fromtimestamp_printable (utcoffset : Z -> Z) (ts : Z) (x : datetime.t) :
  datetime.fromtimestamp utcoffset ts = ok x -> printable x.
Proof.
  unfold datetime.fromtimestamp. set (s := ts + utcoffset ts).
  destruct (_ && _) eqn:Ey; [|discriminate]. intros [= <-].
  apply andb_true_iff in Ey as [Ey _].
  apply andb_true_iff in Ey as [Hy1 Hy2]. apply Z.leb_le in Hy1, Hy2.
  pose proof (of_days_fields (s / 86400)) as [Hm Hd].
  unfold datetime.of_seconds, datetime.of_days in *.
  destruct (datetime.civil_from_days (s / 86400)) as [[y m] d].
  cbn in *. pose proof (Z.mod_pos_bound s 86400 ltac:(lia)) as Hr.
  unfold printable. cbn. repeat split; try lia.
  - apply Z.div_pos; lia.
  - assert (s mod 86400 / 3600 < 24) by (apply Z.div_lt_upper_bound; lia). lia.
  - apply Z.div_pos; [apply Z.mod_pos_bound|]; lia.
  - assert ((s mod 86400) mod 3600 / 60 < 60).
    { apply Z.div_lt_upper_bound; [lia|]. pose proof (Z.mod_pos_bound (s mod 86400) 3600). lia. }
    lia.
  - apply Z.mod_pos_bound. lia.
  - pose proof (Z.mod_pos_bound (s mod 86400) 60). lia.
Qed.

Lemma append_nil_r (s : string) : s +:+ "" = s.
Proof.
  induction s as [|c s IH]; [reflexivity|].
  change (String c (s +:+ "") = String c s). by rewrite IH.
Qed.

Lemma stamp_text_split (short : bool) (x : datetime.t) :
  stamp_text short x
  = datetime.iso_date x +:+ (if short then "" else clock_text x).
Proof.
  destruct short; cbn [stamp_text].
  - by rewrite append_nil_r.
  - unfold datetime.str, clock_text. reflexivity.
Qed.

Lemma iso_date_compare (a b : datetime.t) :
  printable a -> printable b ->
  String.compare (datetime.iso_date a) (datetime.iso_date b)
  = lex_compare [datetime.year a; datetime.month a; datetime.day a]
      [datetime.year b; datetime.month b; datetime.day b].
Proof.
  intros (Hy & Hm & Hd & _) (Hy' & Hm' & Hd' & _).
  unfold datetime.iso_date. cbn [lex_compare].
  rewrite ?append_assoc.
  rewrite compare_app by reflexivity. rewrite pad4_compare by assumption.
  destruct (datetime.year a ?= datetime.year b); [|reflexivity..].
  rewrite (compare_app "-" "-") by reflexivity. cbn [String.compare Ascii.compare].
  change (N_of_ascii "-" ?= N_of_ascii "-")%N with Eq.
  rewrite compare_app by reflexivity. rewrite pad2_compare by assumption.
  destruct (datetime.month a ?= datetime.month b); [|reflexivity..].
  rewrite (compare_app "-" "-") by reflexivity. cbn [String.compare Ascii.compare].
  change (N_of_ascii "-" ?= N_of_ascii "-")%N with Eq.
  rewrite pad2_compare by assumption.
  by destruct (datetime.day a ?= datetime.day b).
Qed.

Lemma stamp_order (a b : datetime.t) (sa sb : bool) :
  printable a -> printable b ->
  (sa = true -> Campaign.midnight a = true) ->
  (sb = true -> Campaign.midnight b = true) ->
  String.leb (stamp_text sa a) (stamp_text sb b) = true ->
  not_later a b.
Proof.
  intros Ha Hb Hsa Hsb Hle.
  destruct sa, sb.
  - (* both dates only *)
    specialize (Hsa eq_refl). specialize (Hsb eq_refl).
    unfold Campaign.midnight in Hsa, Hsb.
    apply andb_true_iff in Hsa as [Hsa Hs1]. apply andb_true_iff in Hsa as [Hh1 Hm1].
    apply andb_true_iff in Hsb as [Hsb Hs2]. apply andb_true_iff in Hsb as [Hh2 Hm2].
    apply Z.eqb_eq in Hh1, Hm1, Hs1, Hh2, Hm2, Hs2.
    unfold String.leb in Hle. cbn [stamp_text] in Hle.
    rewrite (iso_date_compare a b Ha Hb) in Hle.
    unfold not_later, fields. rewrite Hh1, Hm1, Hs1, Hh2, Hm2, Hs2.
    cbn [lex_compare] in *.
    destruct (datetime.year a ?= datetime.year b); try done.
    destruct (datetime.month a ?= datetime.month b); try done.
    destruct (datetime.day a ?= datetime.day b); done.
  - (* a date against a full timestamp *)
    specialize (Hsa eq_refl).
    unfold Campaign.midnight in Hsa.
    apply andb_true_iff in Hsa as [Hsa Hs1]. apply andb_true_iff in Hsa as [Hh1 Hm1].
    apply Z.eqb_eq in Hh1, Hm1, Hs1.
    unfold String.leb in Hle. rewrite !stamp_text_split, compare_app in Hle by reflexivity.
    rewrite (iso_date_compare a b Ha Hb) in Hle.
    destruct Hb as (_ & _ & _ & Hh & Hmi & Hs).
    unfold not_later, fields. rewrite Hh1, Hm1, Hs1.
    cbn [lex_compare] in *.
    destruct (datetime.year a ?= datetime.year b); try done.
    destruct (datetime.month a ?= datetime.month b); try done.
    destruct (datetime.day a ?= datetime.day b); try done.
    destruct (Z.compare_spec 0 (datetime.hour b)); [|done|lia].
    destruct (Z.compare_spec 0 (datetime.minute b)); [|done|lia].
    destruct (Z.compare_spec 0 (datetime.second b)); [done|done|lia].
  - (* a full timestamp against a date *)
    unfold String.leb in Hle. rewrite !stamp_text_split, compare_app in Hle by reflexivity.
    rewrite (iso_date_compare a b Ha Hb) in Hle.
    unfold not_later, fields. cbn [lex_compare] in *.
    destruct (datetime.year a ?= datetime.year b); try done.
    destruct (datetime.month a ?= datetime.month b); try done.
    destruct (datetime.day a ?= datetime.day b); done.
  - unfold String.leb in Hle. cbn [stamp_text] in Hle.
    rewrite (str_compare a b Ha Hb) in Hle. unfold not_later.
    by destruct (lex_compare (fields a) (fields b)).
Qed.

(** X29: the timestamps of the rows that [parse_calendar_html] builds
    print in fixed width; for such timestamps the order of the texts is
    the order of the civil fields, year first, also between a timestamp
    at midnight printed as a date and one printed in full; so the merged
    table, which [merge_all_weeks] sorts on the timestamp text, is in
    chronological order. *)
Theorem X29_merge_is_chronological (env : Scraper.Env) (dir : gmap string Campaign.Table) :
  (forall html df e,
      Scraper.parse_calendar_html env html = ok df -> e ∈ df ->
      printable (Scraper.timestamp e))
  /\ (forall a b, printable a -> printable b ->
        (String.leb (datetime.str a) (datetime.str b) = true <-> not_later a b))
  /\ (forall a b sa sb, printable a -> printable b ->
        (sa = true -> Campaign.midnight a = true) ->
        (sb = true -> Campaign.midnight b = true) ->
        String.leb (stamp_text sa a) (stamp_text sb b) = true -> not_later a b)
  /\ Sorted (fun r1 r2 =>
               forall s1 s2 e1 e2,
                 r1 = Campaign.to_csv_row s1 e1 -> r2 = Campaign.to_csv_row s2 e2 ->
                 (s1 = true -> Campaign.midnight (Scraper.timestamp e1) = true) ->
                 (s2 = true -> Campaign.midnight (Scraper.timestamp e2) = true) ->
                 printable (Scraper.timestamp e1) -> printable (Scraper.timestamp e2) ->
                 not_later (Scraper.timestamp e1) (Scraper.timestamp e2))
       (Campaign.merged_table dir).
Proof.
  assert (Hord : forall a b, printable a -> printable b ->
            (String.leb (datetime.str a) (datetime.str b) = true <-> not_later a b)).
  { intros a b Ha Hb. unfold String.leb, not_later. rewrite (str_compare a b Ha Hb).
    destruct (lex_compare (fields a) (fields b)); split; try done. }
  split; [|split; [exact Hord|split]].
  - intros html df e Hrun He.
    destruct (parse_calendar_html_events _ _ _ _ Hrun He) as (d & kv & Hev).
    apply html_event_fields in Hev as (ts & secs & _ & _ & Hts & _).
    by eapply fromtimestamp_printable.
  - intros a b sa sb. apply stamp_order.
  - eapply Sorted_weaken; [|apply sort_by_sorted, String.leb_total].
    intros r1 r2 Hle s1 s2 e1 e2 -> -> Hs1 Hs2 H1 H2. unfold key_le in Hle. cbn in Hle.
    by apply (stamp_order _ _ s1 s2).
Qed.

(** X29 on the last minute of June and the first of July. *)
Lemma X29_merge_is_chronological_witness :
  String.leb (datetime.str (datetime.mk 2024 6 30 23 59 0))
    (datetime.str (datetime.mk 2024 7 1 0 0 0)) = true.
Proof.
  apply (proj1 (proj2 (X29_merge_is_chronological utc_env ∅)) (datetime.mk 2024 6 30 23 59 0)
           (datetime.mk 2024 7 1 0 0 0)).
  - unfold printable. cbn. lia.
  - unfold printable. cbn. lia.
  - unfold not_later. cbn. discriminate.
Defined.

(** ** The merged table holds every weekly row *)

Lemma length_concat_sum {A} (ls : list (list A)) :
  length (concat ls) = sum_list_with length ls.
Proof.
  induction ls as [|l ls IH]; cbn; [reflexivity|]. by rewrite length_app, IH.
Qed.

Lemma length_filter_concat {A} (P : A -> Prop) `{forall x, Decision (P x)}
    (ls : list (list A)) :
  length (filter P (concat ls)) = sum_list_with (fun l => length (filter P l)) ls.
Proof.
  induction ls as [|l ls IH]; cbn; [reflexivity|].
  by rewrite filter_app, length_app, IH.
Qed.

Lemma sum_list_with_map {A B} (g : A -> B) (f : B -> nat) (l : list A) :
  sum_list_with f (map g l) = sum_list_with (fun x => f (g x)) l.
Proof. induction l as [|x l IH]; cbn; [reflexivity|]. by rewrite IH. Qed.

(** The rows that [scrape_week] saves are of that kind. *)
Lemma saved_rows_scraped (env : Scraper.Env) (html : Scraper.Page)
    (df : list Scraper.Event) (r : Campaign.CsvRow) :
  Scraper.parse_calendar_html env html = ok df -> r ∈ Campaign.to_csv env df ->
  scraped_row r.
Proof.
  intros Hp Hr. unfold Campaign.to_csv in Hr.
  change (map ?f ?l) with (f <$> l) in Hr.
  apply list_elem_of_fmap in Hr as (e & -> & He).
  destruct (parse_calendar_html_events _ _ _ _ Hp He) as (d & kv & Hev).
  apply html_event_fields in Hev as (ts & secs & _ & _ & Hts & _ & _ & Hid).
  split.
  - cbn. rewrite Hid. apply hexdigest_shape.
  - exists (Campaign.dates_only env df), (Scraper.timestamp e).
    split; [by eapply fromtimestamp_printable|]. split; [|reflexivity].
    unfold Campaign.dates_only. intros Hs.
    apply andb_true_iff in Hs as [_ Hs]. rewrite forallb_forall in Hs.
    apply Hs. by apply list_elem_of_In.
Qed.

(** C3, amended: for weekly tables whose rows are as [scrape_week]
    writes them (which is the case of every table it saves), the merge
    reads the files named [week_*.csv], each once, and writes to
    [fx_news.csv] a table in ascending order of the timestamp text,
    hence in chronological order, that has as many rows as the weekly
    tables together, and for every [event_id] as many rows with it as
    the weekly tables together; no row is dropped, so for two weekly
    rows that share an [event_id] with differing actual values the
    merged output has at least two rows with that [event_id]. *)
Theorem C3_merge_is_sorted_concatenation (dir : gmap string Campaign.Table) :
  (forall f t r, Campaign.is_week_csv f = true -> dir !! f = Some t -> r ∈ t ->
                 scraped_row r) ->
  (forall f, f ∈ Campaign.week_files dir <->
             Campaign.is_week_csv f = true /\ is_Some (dir !! f))
  /\ NoDup (Campaign.week_files dir)
  /\ length (Campaign.merged_table dir)
     = sum_list_with (fun f => length (Campaign.read_csv dir f)) (Campaign.week_files dir)
  /\ (forall k,
        length (filter (fun r => Campaign.c_event_id r = k) (Campaign.merged_table dir))
        = sum_list_with
            (fun f => length (filter (fun r => Campaign.c_event_id r = k)
                                (Campaign.read_csv dir f)))
            (Campaign.week_files dir))
  /\ (forall r, r ∈ Campaign.merged_table dir -> scraped_row r)
  /\ (forall env html df r,
        Scraper.parse_calendar_html env html = ok df -> r ∈ Campaign.to_csv env df ->
        scraped_row r)
  /\ Sorted (key_le String.leb Campaign.c_timestamp) (Campaign.merged_table dir)
  /\ Sorted (fun r1 r2 =>
               forall s1 s2 x1 x2,
                 printable x1 -> printable x2 ->
                 (s1 = true -> Campaign.midnight x1 = true) ->
                 (s2 = true -> Campaign.midnight x2 = true) ->
                 Campaign.c_timestamp r1 = stamp_text s1 x1 ->
                 Campaign.c_timestamp r2 = stamp_text s2 x2 ->
                 not_later x1 x2)
       (Campaign.merged_table dir)
  /\ (forall w, Campaign.calendar w = dir -> Campaign.week_files dir <> [] ->
                Campaign.calendar (Campaign.merge_all_weeks w) !! "fx_news.csv"
                = Some (Campaign.merged_table dir))
  /\ (forall f1 f2 t1 t2 r1 r2 k,
        Campaign.is_week_csv f1 = true -> Campaign.is_week_csv f2 = true ->
        dir !! f1 = Some t1 -> dir !! f2 = Some t2 ->
        r1 ∈ t1 -> r2 ∈ t2 ->
        Campaign.c_event_id r1 = k -> Campaign.c_event_id r2 = k ->
        Campaign.c_actual r1 <> Campaign.c_actual r2 ->
        (2 <= length (filter (fun r => Campaign.c_event_id r = k)
                        (Campaign.merged_table dir)))%nat).
Proof.
  intros Hrows.
  assert (Hperm : Campaign.merged_table dir
                  ≡ₚ concat (map (Campaign.read_csv dir) (Campaign.week_files dir)))
    by apply sort_by_perm.
  assert (Hsorted : Sorted (key_le String.leb Campaign.c_timestamp)
                      (Campaign.merged_table dir))
    by apply sort_by_sorted, String.leb_total.
  split; [apply week_files_elem|]. split; [apply week_files_NoDup|]. split.
  { rewrite Hperm, length_concat_sum. apply sum_list_with_map. }
  split.
  { intros k. rewrite Hperm, length_filter_concat.
    apply (sum_list_with_map (Campaign.read_csv dir)
             (fun l => length (filter (fun r => Campaign.c_event_id r = k) l))). }
  split.
  { intros r Hr. apply merged_table_elem in Hr as (f & t & Hw & Ht & Hr). by eapply Hrows. }
  split; [apply saved_rows_scraped|].
  split; [exact Hsorted|]. split.
  { eapply Sorted_weaken; [|exact Hsorted].
    intros r1 r2 Hle s1 s2 x1 x2 Hp1 Hp2 Hm1 Hm2 E1 E2.
    unfold key_le in Hle. rewrite E1, E2 in Hle. by apply (stamp_order _ _ s1 s2). }
  split.
  { intros w <- Hne. unfold Campaign.merge_all_weeks.
    destruct (Campaign.week_files (Campaign.calendar w)); [contradiction|].
    cbn. apply lookup_insert_eq. }
  intros f1 f2 t1 t2 r1 r2 k Hw1 Hw2 Ht1 Ht2 Hr1 Hr2 Hk1 Hk2 Hact.
  assert (H1 : r1 ∈ Campaign.merged_table dir) by (apply merged_table_elem; eauto).
  assert (H2 : r2 ∈ Campaign.merged_table dir) by (apply merged_table_elem; eauto).
  apply (two_distinct_elems _ r1 r2).
  - apply list_elem_of_filter. by split.
  - apply list_elem_of_filter. by split.
  - intros ->. contradiction.
Qed.

(** The amended C3 on [two_weeks]: the merged table has two rows with the shared key. *)
Lemma C3_merge_is_sorted_concatenation_witness :
  (2 <= length
          (filter (fun r => Campaign.c_event_id r = "ff83dfb216c428f9a6c21bb4e30d66ea")
             (Campaign.merged_table two_weeks)))%nat.
Proof.
  assert (Hrow : forall actual, scraped_row (cpi_row actual)).
  { intros actual. split; [reflexivity|].
    exists false, (datetime.mk 2024 7 5 12 30 0).
    split; [unfold printable; cbn; lia|]. split; [discriminate | reflexivity]. }
  assert (Hrows : forall f t r, Campaign.is_week_csv f = true -> two_weeks !! f = Some t ->
                                r ∈ t -> scraped_row r).
  { intros f t r _ Hf Hr. unfold two_weeks in Hf.
    apply lookup_insert_Some in Hf as [[_ <-] | [_ Hf]];
      [apply list_elem_of_singleton in Hr as ->; apply Hrow|].
    apply lookup_insert_Some in Hf as [[_ <-] | [_ Hf]];
      [apply list_elem_of_singleton in Hr as ->; apply Hrow|].
    by rewrite lookup_empty in Hf. }
  apply (proj2 (proj2 (proj2 (proj2 (proj2 (proj2 (proj2 (proj2 (proj2
                 (C3_merge_is_sorted_concatenation two_weeks Hrows)))))))))
           "week_20240701.csv" "week_20240705.csv"
           [cpi_row ""] [cpi_row "0.3%"] (cpi_row "") (cpi_row "0.3%")).
  - reflexivity.
  - reflexivity.
  - vm_compute. reflexivity.
  - vm_compute. reflexivity.
  - left.
  - left.
  - reflexivity.
  - reflexivity.
  - discriminate.
Defined.

(** ** The state literal of [extract_calendar_json] *)

Lemma then_ws_lit (p s s' : string) :
  Scraper.then_ws p s = Some s' ->
  exists r, s = p +:+ r /\ s' = PyStr.lstrip r.
Proof.
  unfold Scraper.then_ws. destruct (Scraper.lit p s) as [r|] eqn:E; [|discriminate].
  intros [= <-]. apply lit_Some in E. by exists r.
Qed.

Lemma state_json_search_Some (html g : string) :
  StateJson.search html = Some g -> exists rest, StateJson.match_here rest = Some g.
Proof.
  induction html as [|c html IH]; cbn [StateJson.search].
  - destruct (StateJson.match_here "") eqn:E; [|discriminate]. intros [= <-]. eauto.
  - destruct (StateJson.match_here (String c html)) eqn:E; [intros [= <-]; eauto | exact IH].
Qed.

(** X30: an assignment that the pattern of [extract_calendar_json]
    matches is not one that the pattern of [parse_calendar_html] matches
    at the same name: after the name the first wants [=] and the second
    [[1]].  The function returns what the decoder makes of the capture
    and writes nothing then.  It raises [ValueError] when there is no
    capture, writing nothing.  When the decoder refuses the capture, the
    outcome depends on the directory [debug], which the function does
    not create: with it, the capture is written to
    [debug/bad_calendar_json.txt] and [ValueError] is raised; without
    it, [FileNotFoundError] is raised and nothing is written.  A capture
    is an opening brace, a stretch without ["};"] and a closing brace. *)
Theorem X30_extract_calendar_json (decode : string -> option JsVal) (html : string)
    (debug_dir : bool) (files : gmap string string) :
  (forall s, is_Some (StateJson.match_here ("window." +:+ s)) -> Scraper.match_here s = None)
  /\ (forall e files',
        StateJson.extract_calendar_json decode html debug_dir files = (inl e, files') ->
        (StateJson.search html = None /\ (exists msg, e = ValueError msg) /\ files' = files)
        \/ exists g,
             StateJson.search html = Some g /\ decode g = None
             /\ (debug_dir = true /\ (exists msg, e = ValueError msg)
                 /\ files' = <["debug/bad_calendar_json.txt" := g]> files
                 \/ debug_dir = false /\ e = FileNotFoundError /\ files' = files))
  /\ (forall g, StateJson.search html = Some g -> decode g = None ->
        StateJson.extract_calendar_json decode html false files
        = (inl FileNotFoundError, files)
        /\ exists msg,
             StateJson.extract_calendar_json decode html true files
             = (inl (ValueError msg), <["debug/bad_calendar_json.txt" := g]> files))
  /\ (forall data files',
        StateJson.extract_calendar_json decode html debug_dir files = (inr data, files') ->
        files' = files
        /\ exists g body,
             StateJson.search html = Some g /\ decode g = Some data
             /\ g = "{" +:+ body +:+ "}"
             /\ Js.has_substring "};" g = false).
Proof.
  split; [|split; [|split]].
  - intros s [g Hg]. unfold StateJson.match_here in Hg.
    destruct (Scraper.then_ws "window.calendarComponentStates" ("window." +:+ s))
      as [s1|] eqn:E1; [|discriminate].
    destruct (Scraper.then_ws "=" s1) as [s2|] eqn:E2; [|discriminate].
    apply then_ws_lit in E1 as (r1 & Hs & ->).
    apply (append_inj_length "window." "window." s ("calendarComponentStates" +:+ r1))
      in Hs as [_ ->]; [|reflexivity].
    apply then_ws_lit in E2 as (r2 & Hr & _).
    unfold Scraper.match_here.
    replace (Scraper.then_ws "calendarComponentStates" ("calendarComponentStates" +:+ r1))
      with (Some (PyStr.lstrip r1)) by (unfold Scraper.then_ws; by rewrite lit_app).
    rewrite Hr. reflexivity.
  - intros e files' H. unfold StateJson.extract_calendar_json in H.
    destruct (StateJson.search html) as [g|].
    + destruct (decode g) as [data|] eqn:Ed; [discriminate|]. right. exists g.
      split; [reflexivity|]. split; [exact Ed|].
      destruct debug_dir; injection H as <- <-.
      * left. split; [reflexivity|]. split; [by eexists | reflexivity].
      * right. by repeat split.
    + injection H as <- <-. left. split; [reflexivity|]. split; [by eexists | reflexivity].
  - intros g Hs Hd. unfold StateJson.extract_calendar_json. rewrite Hs, Hd.
    split; [reflexivity | by eexists].
  - intros data files' H. unfold StateJson.extract_calendar_json in H.
    destruct (StateJson.search html) as [g|] eqn:Es; [|discriminate].
    destruct (decode g) as [data'|] eqn:Ed; [|by destruct debug_dir].
    injection H as <- <-.
    split; [reflexivity|].
    apply state_json_search_Some in Es as [rest Hm]. unfold StateJson.match_here in Hm.
    destruct (Scraper.then_ws "window.calendarComponentStates" rest) as [s1|]; [|discriminate].
    destruct (Scraper.then_ws "=" s1) as [s2|]; [|discriminate].
    destruct (Scraper.lit "{" s2) as [s3|]; [|discriminate].
    destruct (Scraper.upto_close s3) as [r|] eqn:Eu; [|discriminate].
    injection Hm as <-. apply upto_close_Some in Eu as (body & post & -> & _ & Hno).
    exists (String "{" (body +:+ "}")), body. split; [reflexivity|]. split; [exact Ed|].
    split; [reflexivity|]. cbn [Js.has_substring]. rewrite Hno, orb_false_r. reflexivity.
Qed.

(** X30 on a page that assigns the whole table of states. *)
Lemma X30_extract_calendar_json_witness :
  Scraper.match_here "calendarComponentStates = {1: {}};" = None
  /\ StateJson.search "<script>window.calendarComponentStates = {1: {}};</script>"
     = Some "{1: {}}"
  /\ StateJson.extract_calendar_json (fun _ => None)
       "<script>window.calendarComponentStates = {1: {}};</script>" false ∅
     = (inl FileNotFoundError, ∅).
Proof.
  split; [|split; [vm_compute; reflexivity|]].
  - apply (proj1 (X30_extract_calendar_json (fun _ => None) "" false ∅)
             "calendarComponentStates = {1: {}};").
    vm_compute. by eexists.
  - apply (proj1 (proj2 (proj2 (X30_extract_calendar_json (fun _ => None)
                                  "<script>window.calendarComponentStates = {1: {}};</script>"
                                  false ∅)))
             "{1: {}}"); [vm_compute; reflexivity | reflexivity].
Defined.
